(** * The JIIOV fingerprint platform driver (jiiov_platform.c), shallowly embedded

    The driver is stateful C: it keeps three file-scope variables
    ([gp_netlink_sock], [lasttouchmode], [anc_gpio_pwr_flag]) and one device
    context ([struct anc_data], reached through [g_anc_data], the driver data
    of the platform device and [filp->private_data], which all alias the one
    object allocated by the probe).  It talks to the rest of the kernel only
    through calls (pinctrl, regulator, gpio, netlink, mutex, delays).

    The embedding is a state-and-error monad over [kstate]:
    - every call into the kernel is appended to a trace, together with what
      the kernel answered; the answers come from a [platform], an arbitrary
      deterministic environment that may depend on the whole history;
    - a dereference of a null pointer ends the run in [Oops];
    - a pointer the source tests against NULL somewhere is an [option]; a
      pointer it never tests is modelled by the object it points to, except
      the global [g_anc_data], which is followed before any probe may have
      set it and after a probe may have freed its target: the state tells
      whether it can be followed, and following it when it cannot ends the
      run in [Oops] as well;
    - logging ([pr_*], [dev_*]) does not change the driver state and is not
      traced, but for the line logged before a send is tried; the driver is
      modelled with ANC_USE_NETLINK defined. *)

From Stdlib Require Import ZArith List String Ascii Bool Lia.
Import ListNotations.
Open Scope Z_scope.

(** ** C integers, characters and strings *)

(** Conversion to [unsigned int] (32 bits). *)
Definition to_uint (z : Z) : Z := z mod 2 ^ 32.

(** Conversion to [uint16_t]. *)
Definition to_u16 (z : Z) : Z := z mod 2 ^ 16.

(** The object representation of an integer stored in [n] bytes
    (little endian, as on arm64). *)
Fixpoint bytes_of_int (n : nat) (v : Z) : list Z :=
  match n with
  | O => []
  | S n' => (v mod 256) :: bytes_of_int n' (v / 256)
  end.

Definition uchar (c : ascii) : Z := Z.of_N (N_of_ascii c).

(** A C string is given by its bytes before the terminating NUL; reading at
    the end of the string yields the NUL. *)
Definition cstr_head (s : string) : Z :=
  match s with
  | EmptyString => 0
  | String c _ => uchar c
  end.

Definition cstr_tail (s : string) : string :=
  match s with
  | EmptyString => EmptyString
  | String _ t => t
  end.

Fixpoint strlen (s : string) : nat :=
  match s with
  | EmptyString => O
  | String c t => if uchar c =? 0 then O else S (strlen t)
  end.

(** [strncmp]: compares at most [n] characters, stops at a NUL; the result is
    the difference of the first two characters that differ. *)
Fixpoint strncmp (s1 s2 : string) (n : nat) : Z :=
  match n with
  | O => 0
  | S n' =>
      let c1 := cstr_head s1 in
      let c2 := cstr_head s2 in
      if c1 =? c2
      then (if c1 =? 0 then 0 else strncmp (cstr_tail s1) (cstr_tail s2) n')
      else c1 - c2
  end.

(** The bytes of a C string, without the NUL. *)
Fixpoint cstr_bytes (s : string) : list Z :=
  match s with
  | EmptyString => []
  | String c t => if uchar c =? 0 then [] else uchar c :: cstr_bytes t
  end.

(** A string with no NUL inside, as every string literal of the source. *)
Fixpoint nul_free (s : string) : bool :=
  match s with
  | EmptyString => true
  | String c t => negb (uchar c =? 0) && nul_free t
  end.

(** ** Constants *)

Definition ENOMEM : Z := 12.
Definition EINVAL : Z := 22.
Definition ENOTTY : Z := 25.
Definition NOTIFY_OK : Z := 1.

Definition NETLINK_ANC : Z := 30.
Definition USER_PORT : Z := 100.
Definition ANC_WAKELOCK_HOLD_TIME : Z := 400.
Definition ANC_VREG_LDO_NAME : string := "ldo"%string.

Definition pctl_names : list string :=
  [ "anc_reset_reset"%string; "anc_reset_active"%string ].

Record vreg_config := {
  vreg_config_name : string;
  vmin : Z;
  vmax : Z;
  ua_load : Z
}.

Definition vreg_conf : list vreg_config :=
  [ {| vreg_config_name := ANC_VREG_LDO_NAME;
       vmin := 3300000; vmax := 3300000; ua_load := 150000 |} ].

(** Modelled from the spec: jiiov_platform.h, which declares
    ANC_NETLINK_EVENT_TYPE, is not part of the sources.  The event codes are
    the enumerators the spec lists (test, irq, screen-off, screen-on,
    touch-down, touch-up, ui-ready, exit, invalid-marker), numbered in that
    order as a C enum numbers them. *)
Inductive ANC_NETLINK_EVENT_TYPE :=
| ANC_NETLINK_EVENT_TEST
| ANC_NETLINK_EVENT_IRQ
| ANC_NETLINK_EVENT_SCR_OFF
| ANC_NETLINK_EVENT_SCR_ON
| ANC_NETLINK_EVENT_TOUCH_DOWN
| ANC_NETLINK_EVENT_TOUCH_UP
| ANC_NETLINK_EVENT_UI_READY
| ANC_NETLINK_EVENT_EXIT
| ANC_NETLINK_EVENT_INVALID.

Definition event_value (e : ANC_NETLINK_EVENT_TYPE) : Z :=
  match e with
  | ANC_NETLINK_EVENT_TEST => 0
  | ANC_NETLINK_EVENT_IRQ => 1
  | ANC_NETLINK_EVENT_SCR_OFF => 2
  | ANC_NETLINK_EVENT_SCR_ON => 3
  | ANC_NETLINK_EVENT_TOUCH_DOWN => 4
  | ANC_NETLINK_EVENT_TOUCH_UP => 5
  | ANC_NETLINK_EVENT_UI_READY => 6
  | ANC_NETLINK_EVENT_EXIT => 7
  | ANC_NETLINK_EVENT_INVALID => 8
  end.

(** The remaining constants of headers that are not part of the sources
    (jiiov_platform.h, oplus_fp_common.h, linux/msm_drm_notify.h) are
    parameters of the model. *)
Record header_consts := {
  ANC_IOC_MAGIC : Z;
  ANC_IOC_RESET : Z;
  ANC_IOC_ENABLE_POWER : Z;
  ANC_IOC_DISABLE_POWER : Z;
  ANC_IOC_CLEAR_FLAG : Z;
  ANC_UI_READY : Z;
  ANC_UI_DISAPPREAR : Z;
  MSM_DRM_ONSCREENFINGERPRINT_EVENT : Z;
  MSM_DRM_EARLY_EVENT_BLANK : Z;
  MSM_DRM_BLANK_POWERDOWN : Z;
  MSM_DRM_BLANK_UNBLANK : Z;
  FP_JIIOV_0301 : Z;
  FP_JIIOV_0302 : Z;
  (** sizeof(ANC_NETLINK_EVENT_TYPE) *)
  sizeof_ANC_NETLINK_EVENT_TYPE : nat
}.

(** [_IOC_TYPE] of asm-generic/ioctl.h: bits 8..15 of the command. *)
Definition _IOC_TYPE (cmd : Z) : Z := Z.land (Z.shiftr cmd 8) 255.

(** [_IO(type, nr)] of asm-generic/ioctl.h. *)
Definition _IO (type nr : Z) : Z := Z.lor (Z.shiftl type 8) nr.

(** ** Driver state *)

Record anc_data := {
  fingerprint_pinctrl : Z;
  pinctrl_state : list Z;          (* ARRAY_SIZE(pctl_names) handles *)
  vreg : list (option Z);          (* ARRAY_SIZE(vreg_conf) handles, NULL = None *)
  fp_wakelock : Z;
  pwr_gpio : Z;
  rst_gpio : Z;
  fb_black : Z
}.

(** What the driver asks of the kernel, with the kernel's answer. *)
Inductive event :=
| Ev_mutex_lock
| Ev_mutex_unlock
| Ev_mdelay (ms : Z)
| Ev_pinctrl_select_state (p : Z) (s : Z) (rc : Z)
| Ev_gpio_set_value (gpio : Z) (value : Z)
| Ev_regulator_get (name : string) (res : Z + Z)
| Ev_regulator_count_voltages (r : Z) (res : Z)
| Ev_regulator_set_voltage (r : Z) (min_uV max_uV : Z) (rc : Z)
| Ev_regulator_set_load (r : Z) (uA : Z) (rc : Z)
| Ev_regulator_enable (r : Z) (rc : Z)
| Ev_regulator_is_enabled (r : Z) (res : Z)
| Ev_regulator_disable (r : Z)
| Ev_regulator_put (r : Z)
| Ev_pm_wakeup_event (ws : Z) (timeout : Z)
| Ev_send_to_user (payload : list Z)
| Ev_nlmsg_new (len : Z) (ok : bool)
| Ev_nlmsg_put (len : Z) (ok : bool)
| Ev_nlmsg_free
| Ev_netlink_unicast (sk : option Z) (payload : list Z) (port : Z) (rc : Z)
| Ev_netlink_kernel_create (unit : Z) (res : option Z)
| Ev_netlink_kernel_release (sk : Z)
| Ev_get_fpsensor_type (res : Z)
| Ev_platform_driver_register (rc : Z)
| Ev_opticalfp_irq_handler_register.

(** The file-scope variables.  [g_anc_data] is a pointer in the source: the
    model keeps the context it is to point to in [g_anc_data] and tells in
    [g_anc_data_live] whether the pointer can be followed -- it cannot while
    it is NULL, before the first probe, nor once the context was freed. *)
Record kstate := {
  g_anc_data : anc_data;
  g_anc_data_live : bool;
  gp_netlink_sock : option Z;
  lasttouchmode : Z;
  anc_gpio_pwr_flag : Z;
  ktrace : list event
}.

(** The kernel's answers, as a function of everything that happened so far. *)
Record platform := {
  on_pinctrl_select_state : list event -> Z -> Z -> Z;
  on_regulator_get : list event -> string -> Z + Z;   (* handle, or PTR_ERR *)
  on_regulator_count_voltages : list event -> Z -> Z;
  on_regulator_set_voltage : list event -> Z -> Z -> Z -> Z;
  on_regulator_set_load : list event -> Z -> Z -> Z;
  on_regulator_enable : list event -> Z -> Z;
  on_regulator_is_enabled : list event -> Z -> Z;
  (** [msecs_to_jiffies] of linux/jiffies.h: no call into the kernel but a
      conversion, which depends on the tick rate the kernel was built for *)
  msecs_to_jiffies : Z -> Z;
  on_nlmsg_new : list event -> Z -> bool;
  on_nlmsg_put : list event -> Z -> bool;
  on_netlink_unicast : list event -> option Z -> list Z -> Z;
  on_netlink_kernel_create : list event -> option Z;
  on_get_fpsensor_type : list event -> Z;
  on_platform_driver_register : list event -> Z
}.

(** ** The monad *)

Inductive outcome (A : Type) :=
| Ret (a : A) (s : kstate)
| Oops (s : kstate).
Arguments Ret {A} a s.
Arguments Oops {A} s.

Definition M (A : Type) : Type := kstate -> outcome A.

Definition ret {A} (a : A) : M A := fun s => Ret a s.

Definition bind {A B} (m : M A) (f : A -> M B) : M B :=
  fun s => match m s with
           | Ret a s' => f a s'
           | Oops s' => Oops s'
           end.

Declare Scope kernel_scope.
Delimit Scope kernel_scope with kernel.
Notation "x <- m ;; k" := (bind m (fun x => k))
  (at level 61, m at next level, right associativity) : kernel_scope.
Notation "m ;;; k" := (bind m (fun _ => k))
  (at level 61, right associativity) : kernel_scope.
Open Scope kernel_scope.

Definition gets {A} (f : kstate -> A) : M A := fun s => Ret (f s) s.

Definition modify (f : kstate -> kstate) : M unit := fun s => Ret tt (f s).

(** Dereferencing a pointer that may be NULL. *)
Definition deref {A} (p : option A) : M A :=
  fun s => match p with
           | Some a => Ret a s
           | None => Oops s
           end.

(** [g_anc_data->...]: following the global pointer.  NULL faults; a freed
    context is no longer there to be read, which the model counts as a fault
    as well. *)
Definition deref_g_anc_data : M anc_data :=
  fun s => if g_anc_data_live s then Ret (g_anc_data s) s else Oops s.

Definition emit (e : event) : M unit :=
  modify (fun s =>
    {| g_anc_data := g_anc_data s;
       g_anc_data_live := g_anc_data_live s;
       gp_netlink_sock := gp_netlink_sock s;
       lasttouchmode := lasttouchmode s;
       anc_gpio_pwr_flag := anc_gpio_pwr_flag s;
       ktrace := ktrace s ++ [e] |}).

Definition set_gp_netlink_sock (v : option Z) : M unit :=
  modify (fun s =>
    {| g_anc_data := g_anc_data s;
       g_anc_data_live := g_anc_data_live s;
       gp_netlink_sock := v;
       lasttouchmode := lasttouchmode s;
       anc_gpio_pwr_flag := anc_gpio_pwr_flag s;
       ktrace := ktrace s |}).

Definition set_lasttouchmode (v : Z) : M unit :=
  modify (fun s =>
    {| g_anc_data := g_anc_data s;
       g_anc_data_live := g_anc_data_live s;
       gp_netlink_sock := gp_netlink_sock s;
       lasttouchmode := v;
       anc_gpio_pwr_flag := anc_gpio_pwr_flag s;
       ktrace := ktrace s |}).

Definition set_anc_data (d : anc_data) : M unit :=
  modify (fun s =>
    {| g_anc_data := d;
       g_anc_data_live := g_anc_data_live s;
       gp_netlink_sock := gp_netlink_sock s;
       lasttouchmode := lasttouchmode s;
       anc_gpio_pwr_flag := anc_gpio_pwr_flag s;
       ktrace := ktrace s |}).

(** [data->vreg[i] = v] *)
Fixpoint list_set {A} (l : list A) (i : nat) (v : A) : list A :=
  match l, i with
  | [], _ => []
  | _ :: t, O => v :: t
  | h :: t, S i' => h :: list_set t i' v
  end.

Definition set_vreg (i : nat) (v : option Z) : M unit :=
  d <- gets g_anc_data ;;
  set_anc_data
    {| fingerprint_pinctrl := fingerprint_pinctrl d;
       pinctrl_state := pinctrl_state d;
       vreg := list_set (vreg d) i v;
       fp_wakelock := fp_wakelock d;
       pwr_gpio := pwr_gpio d;
       rst_gpio := rst_gpio d;
       fb_black := fb_black d |}.

Definition set_fb_black (v : Z) : M unit :=
  d <- gets g_anc_data ;;
  set_anc_data
    {| fingerprint_pinctrl := fingerprint_pinctrl d;
       pinctrl_state := pinctrl_state d;
       vreg := vreg d;
       fp_wakelock := fp_wakelock d;
       pwr_gpio := pwr_gpio d;
       rst_gpio := rst_gpio d;
       fb_black := v |}.

(** ** The driver *)

Section Driver.

Variable K : header_consts.
Variable P : platform.

(** *** Calls into the kernel *)

Definition mutex_lock : M unit := emit Ev_mutex_lock.
Definition mutex_unlock : M unit := emit Ev_mutex_unlock.
Definition mdelay (ms : Z) : M unit := emit (Ev_mdelay ms).

Definition pinctrl_select_state (p s : Z) : M Z :=
  tr <- gets ktrace ;;
  let rc := on_pinctrl_select_state P tr p s in
  emit (Ev_pinctrl_select_state p s rc) ;;; ret rc.

Definition gpio_set_value (gpio value : Z) : M unit :=
  emit (Ev_gpio_set_value gpio value).

Definition regulator_get (name : string) : M (Z + Z) :=
  tr <- gets ktrace ;;
  let r := on_regulator_get P tr name in
  emit (Ev_regulator_get name r) ;;; ret r.

Definition regulator_count_voltages (r : Z) : M Z :=
  tr <- gets ktrace ;;
  let n := on_regulator_count_voltages P tr r in
  emit (Ev_regulator_count_voltages r n) ;;; ret n.

Definition regulator_set_voltage (r min_uV max_uV : Z) : M Z :=
  tr <- gets ktrace ;;
  let rc := on_regulator_set_voltage P tr r min_uV max_uV in
  emit (Ev_regulator_set_voltage r min_uV max_uV rc) ;;; ret rc.

Definition regulator_set_load (r uA : Z) : M Z :=
  tr <- gets ktrace ;;
  let rc := on_regulator_set_load P tr r uA in
  emit (Ev_regulator_set_load r uA rc) ;;; ret rc.

Definition regulator_enable (r : Z) : M Z :=
  tr <- gets ktrace ;;
  let rc := on_regulator_enable P tr r in
  emit (Ev_regulator_enable r rc) ;;; ret rc.

Definition regulator_is_enabled (r : Z) : M Z :=
  tr <- gets ktrace ;;
  let n := on_regulator_is_enabled P tr r in
  emit (Ev_regulator_is_enabled r n) ;;; ret n.

Definition regulator_disable (r : Z) : M unit := emit (Ev_regulator_disable r).
Definition regulator_put (r : Z) : M unit := emit (Ev_regulator_put r).

Definition __pm_wakeup_event (ws timeout : Z) : M unit :=
  emit (Ev_pm_wakeup_event ws timeout).

Definition nlmsg_new (len : Z) : M bool :=
  tr <- gets ktrace ;;
  let ok := on_nlmsg_new P tr len in
  emit (Ev_nlmsg_new len ok) ;;; ret ok.

Definition nlmsg_put (len : Z) : M bool :=
  tr <- gets ktrace ;;
  let ok := on_nlmsg_put P tr len in
  emit (Ev_nlmsg_put len ok) ;;; ret ok.

Definition nlmsg_free : M unit := emit Ev_nlmsg_free.

Definition netlink_unicast (sk : option Z) (payload : list Z) (port : Z) : M Z :=
  tr <- gets ktrace ;;
  let rc := on_netlink_unicast P tr sk payload in
  emit (Ev_netlink_unicast sk payload port rc) ;;; ret rc.

Definition netlink_kernel_create (unit : Z) : M (option Z) :=
  tr <- gets ktrace ;;
  let sk := on_netlink_kernel_create P tr in
  emit (Ev_netlink_kernel_create unit sk) ;;; ret sk.

Definition netlink_kernel_release (sk : Z) : M unit :=
  emit (Ev_netlink_kernel_release sk).

Definition get_fpsensor_type : M Z :=
  tr <- gets ktrace ;;
  let t := on_get_fpsensor_type P tr in
  emit (Ev_get_fpsensor_type t) ;;; ret t.

Definition platform_driver_register : M Z :=
  tr <- gets ktrace ;;
  let rc := on_platform_driver_register P tr in
  emit (Ev_platform_driver_register rc) ;;; ret rc.

Definition opticalfp_irq_handler_register : M unit :=
  emit Ev_opticalfp_irq_handler_register.

(** *** Notification channel *)

(** [p_buffer] holds the bytes at the pointer; [length] arrives as uint16_t.
    The message carries the first [length] bytes. *)
Definition netlink_send_message (p_buffer : list Z) (length : Z) : M Z :=
  let length := to_u16 length in
  p_sk_buff <- nlmsg_new length ;;
  if negb p_sk_buff then ret (- ENOMEM)
  else
    p_nlmsghdr <- nlmsg_put length ;;
    if negb p_nlmsghdr then nlmsg_free ;;; ret (- ENOMEM)
    else
      sk <- gets gp_netlink_sock ;;
      netlink_unicast sk (firstn (Z.to_nat length) p_buffer) USER_PORT.

(** [Ev_send_to_user] is the line the source logs before it tries to send,
    "send message to user"; whether anything is sent is seen from the
    [Ev_netlink_unicast] that may follow. *)
Definition netlink_send_message_to_user (p_buffer : option (list Z)) (length : Z) : M Z :=
  match p_buffer with
  | Some buf =>
      if length >? 0
      then emit (Ev_send_to_user (firstn (Z.to_nat length) buf)) ;;;
           netlink_send_message buf length
      else ret (- EINVAL)
  | None => ret (- EINVAL)
  end.

(** [NLMSG_HDRLEN], [NLMSG_ALIGN] and [nlmsg_total_size] of linux/netlink.h
    and net/netlink.h: a header of 16 bytes, sizes rounded up to 4. *)
Definition NLMSG_HDRLEN : Z := 16.
Definition NLMSG_ALIGN (len : Z) : Z := Z.land (len + 3) (Z.lnot 3).
Definition nlmsg_total_size (payload : Z) : Z := NLMSG_ALIGN (NLMSG_HDRLEN + payload).

(** What the receive callback looks at in a [struct sk_buff]: its [len], and
    the text that starts behind the netlink header. *)
Record sk_buff := {
  skb_len : Z;
  nlmsg_text : string
}.

(** [p_user_message] is the address behind the header, so the test of it
    always holds. *)
Definition netlink_receive_message (p_sk_buffer : sk_buff) : M unit :=
  if skb_len p_sk_buffer >=? nlmsg_total_size 0 then
    let p_user_message := nlmsg_text p_sk_buffer in
    netlink_send_message_to_user
      (Some (cstr_bytes p_user_message)) (Z.of_nat (strlen p_user_message)) ;;;
    ret tt
  else ret tt.

Definition anc_netlink_init : M Z :=
  sk <- netlink_kernel_create NETLINK_ANC ;;
  set_gp_netlink_sock sk ;;;
  match sk with
  | None => ret (- ENOMEM)
  | Some _ => ret 0
  end.

Definition anc_netlink_exit : M unit :=
  sk <- gets gp_netlink_sock ;;
  match sk with
  | Some h => netlink_kernel_release h ;;; set_gp_netlink_sock None
  | None => ret tt
  end.

(** *** Regulators *)

(** The body of the loop of [vreg_setup] once entry [i] matched. *)
Definition vreg_setup_entry (i : nat) (c : vreg_config) (name : string) (enable : bool) : M Z :=
  d <- gets g_anc_data ;;
  let vreg0 := nth i (vreg d) None in
  if enable then
    let powered (h : Z) : M Z :=
      let loaded : M Z :=
        rc <- regulator_set_load h (ua_load c) ;;
        if negb (rc =? 0) then ret rc
        else
          rc <- regulator_enable h ;;
          if negb (rc =? 0)
          then regulator_put h ;;; set_vreg i None ;;; ret rc
          else ret rc in
      n <- regulator_count_voltages h ;;
      if n >? 0 then
        rc <- regulator_set_voltage h (vmin c) (vmax c) ;;
        if negb (rc =? 0) then ret rc else loaded
      else loaded in
    match vreg0 with
    | None =>
        r <- regulator_get name ;;
        match r with
        | inr err => ret err
        | inl h => set_vreg i (Some h) ;;; powered h
        end
    | Some h => powered h
    end
  else
    match vreg0 with
    | Some h =>
        en <- regulator_is_enabled h ;;
        (if negb (en =? 0) then regulator_disable h else ret tt) ;;;
        regulator_put h ;;;
        set_vreg i None ;;;
        ret 0
    | None => ret 0
    end.

Fixpoint vreg_setup_from (i : nat) (conf : list vreg_config) (name : string) (enable : bool) : M Z :=
  match conf with
  | [] => ret (- EINVAL)
  | c :: rest =>
      if strncmp (vreg_config_name c) name (strlen (vreg_config_name c)) =? 0
      then vreg_setup_entry i c name enable
      else vreg_setup_from (S i) rest name enable
  end.

Definition vreg_setup (name : string) (enable : bool) : M Z :=
  vreg_setup_from 0 vreg_conf name enable.

(** *** Event bridge *)

Record fp_underscreen_info := {
  touch_state : Z
}.

Definition anc_opticalfp_tp_handler (tp_info : fp_underscreen_info) : M Z :=
  last <- gets lasttouchmode ;;
  if to_uint (touch_state tp_info) =? last then ret 0
  else
    let netlink_msg :=
      if touch_state tp_info =? 1
      then event_value ANC_NETLINK_EVENT_TOUCH_DOWN
      else event_value ANC_NETLINK_EVENT_TOUCH_UP in
    d <- deref_g_anc_data ;;
    __pm_wakeup_event (fp_wakelock d) (msecs_to_jiffies P ANC_WAKELOCK_HOLD_TIME) ;;;
    netlink_send_message_to_user (Some (bytes_of_int 1 netlink_msg)) 1 ;;;
    set_lasttouchmode (to_uint (touch_state tp_info)) ;;;
    ret 0.

(** [struct msm_drm_notifier]: [data] points to a word, or is NULL. *)
Record msm_drm_notifier := {
  data : option Z
}.

Definition anc_fb_state_chg_callback (val : Z) (evdata : option msm_drm_notifier) : M Z :=
  if val =? MSM_DRM_ONSCREENFINGERPRINT_EVENT K then
    ev <- deref evdata ;;
    w <- deref (data ev) ;;
    let op_mode := w mod 256 in
    (if op_mode =? ANC_UI_READY K
     then netlink_send_message_to_user
            (Some (bytes_of_int 1 (event_value ANC_NETLINK_EVENT_UI_READY))) 1 ;;; ret tt
     else if negb (op_mode =? ANC_UI_DISAPPREAR K) then ret tt
     else ret tt) ;;;
    ret NOTIFY_OK
  else
    (if val =? MSM_DRM_EARLY_EVENT_BLANK K then
       match evdata with
       | Some ev =>
           match data ev with
           | Some w =>
               let blank := to_uint w in
               if blank =? MSM_DRM_BLANK_POWERDOWN K then
                 set_fb_black 1 ;;;
                 netlink_send_message_to_user
                   (Some (bytes_of_int 1 (event_value ANC_NETLINK_EVENT_SCR_OFF))) 1 ;;; ret tt
               else if blank =? MSM_DRM_BLANK_UNBLANK K then
                 set_fb_black 0 ;;;
                 netlink_send_message_to_user
                   (Some (bytes_of_int 1 (event_value ANC_NETLINK_EVENT_SCR_ON))) 1 ;;; ret tt
               else ret tt
           | None => ret tt
           end
       | None => ret tt
       end
     else ret tt) ;;;
    ret NOTIFY_OK.

Definition netlink_event_map : list (string * ANC_NETLINK_EVENT_TYPE) :=
  [ ("test"%string, ANC_NETLINK_EVENT_TEST);
    ("irq"%string, ANC_NETLINK_EVENT_IRQ);
    ("screen_off"%string, ANC_NETLINK_EVENT_SCR_OFF);
    ("screen_on"%string, ANC_NETLINK_EVENT_SCR_ON);
    ("touch_down"%string, ANC_NETLINK_EVENT_TOUCH_DOWN);
    ("touch_up"%string, ANC_NETLINK_EVENT_TOUCH_UP);
    ("ui_ready"%string, ANC_NETLINK_EVENT_UI_READY);
    ("exit"%string, ANC_NETLINK_EVENT_EXIT) ].

(** The lookup loop of [forward_netlink_event_set]. *)
Fixpoint netlink_event_lookup (map : list (string * ANC_NETLINK_EVENT_TYPE)) (p_buffer : string)
  : ANC_NETLINK_EVENT_TYPE :=
  match map with
  | [] => ANC_NETLINK_EVENT_INVALID
  | (name, ev) :: rest =>
      if strncmp p_buffer name (strlen name) =? 0 then ev
      else netlink_event_lookup rest p_buffer
  end.

Definition forward_netlink_event_set (p_buffer : string) (count : Z) : M Z :=
  let netlink_msg := netlink_event_lookup netlink_event_map p_buffer in
  if event_value netlink_msg =? event_value ANC_NETLINK_EVENT_INVALID
  then ret (- EINVAL)
  else
    netlink_send_message_to_user
      (Some (bytes_of_int (sizeof_ANC_NETLINK_EVENT_TYPE K) (event_value netlink_msg)))
      (Z.of_nat (sizeof_ANC_NETLINK_EVENT_TYPE K)).

(** *** Power and pin sequencer *)

Fixpoint select_pin_ctl_from (i : nat) (names : list string) (name : string) : M Z :=
  match names with
  | [] => ret (- EINVAL)
  | n :: rest =>
      if strncmp n name (strlen n) =? 0 then
        d <- gets g_anc_data ;;
        pinctrl_select_state (fingerprint_pinctrl d) (nth i (pinctrl_state d) 0)
      else select_pin_ctl_from (S i) rest name
  end.

Definition select_pin_ctl (name : string) : M Z :=
  select_pin_ctl_from 0 pctl_names name.

Definition pinctl_set (buf : string) (count : Z) : M Z :=
  mutex_lock ;;;
  rc <- select_pin_ctl buf ;;
  mutex_unlock ;;;
  ret (if negb (rc =? 0) then rc else count).

Definition anc_reset : M Z :=
  mutex_lock ;;;
  rc <- select_pin_ctl "anc_reset_reset"%string ;;
  mdelay 10 ;;;
  rc2 <- select_pin_ctl "anc_reset_active"%string ;;
  let rc := Z.lor rc rc2 in
  mdelay 10 ;;;
  mutex_unlock ;;;
  ret rc.

Definition hw_reset_set (buf : string) (count : Z) : M Z :=
  rc <- (if strncmp buf "reset"%string (strlen "reset"%string) =? 0
         then anc_reset
         else ret (- EINVAL)) ;;
  ret (if negb (rc =? 0) then rc else count).

Definition anc_power_onoff (power_onoff : Z) : M unit :=
  flag <- gets anc_gpio_pwr_flag ;;
  if flag =? 1 then
    d <- gets g_anc_data ;;
    gpio_set_value (pwr_gpio d) power_onoff
  else
    vreg_setup ANC_VREG_LDO_NAME (negb (power_onoff =? 0)) ;;; ret tt.

Definition device_power_up : M unit := anc_power_onoff 1.

Definition device_power_set (buf : string) (count : Z) : M Z :=
  mutex_lock ;;;
  rc <- (if strncmp buf "on"%string (strlen "on"%string) =? 0 then
           anc_power_onoff 1 ;;; ret count
         else if strncmp buf "off"%string (strlen "off"%string) =? 0 then
           anc_power_onoff 0 ;;; ret count
         else ret (- EINVAL)) ;;
  mutex_unlock ;;;
  ret rc.

(** *** Control node *)

Definition anc_ioctl (cmd : Z) (arg : Z) : M Z :=
  if negb (_IOC_TYPE cmd =? ANC_IOC_MAGIC K) then ret (- ENOTTY)
  else if cmd =? ANC_IOC_RESET K then anc_reset
  else if cmd =? ANC_IOC_ENABLE_POWER K then anc_power_onoff 1 ;;; ret 0
  else if cmd =? ANC_IOC_DISABLE_POWER K then anc_power_onoff 0 ;;; ret 0
  else if cmd =? ANC_IOC_CLEAR_FLAG K then set_lasttouchmode 0 ;;; ret 0
  else ret (- EINVAL).

(** *** Module load and unload *)

Definition ancfp_init : M Z :=
  let register : M Z :=
    rc <- platform_driver_register ;;
    anc_netlink_init ;;;
    opticalfp_irq_handler_register ;;;
    ret rc in
  t <- get_fpsensor_type ;;
  if negb (FP_JIIOV_0302 K =? t) then
    t' <- get_fpsensor_type ;;
    if negb (FP_JIIOV_0301 K =? t') then ret (- EINVAL)
    else register
  else register.

End Driver.

(** The touch handler invoked [n] times in a row with the same state. *)
Fixpoint tp_handler_times (P : platform) (n : nat) (tp_info : fp_underscreen_info) : M Z :=
  match n with
  | O => ret 0
  | S O => anc_opticalfp_tp_handler P tp_info
  | S n' => anc_opticalfp_tp_handler P tp_info ;;; tp_handler_times P n' tp_info
  end.

(** Power on, then power off. *)
Definition power_cycle (P : platform) : M unit :=
  anc_power_onoff P 1 ;;; anc_power_onoff P 0.

(** ** Bind and unbind *)

(** Probe, remove and module unload call into more of the kernel than the
    run-time paths: their calls are [bind_event]s, and the calls already
    described by [event] appear among them as [Be_kernel].  Pointers the
    kernel may return as ERR_PTR are given by their value as a signed long:
    a null pointer is 0, an error pointer lies in -4095 .. -1. *)

Definition MAX_ERRNO : Z := 4095.
Definition EPROBE_DEFER : Z := 517.

Definition IS_ERR (p : Z) : bool := (- MAX_ERRNO <=? p) && (p <? 0).

(** Conversion of a long to [int]. *)
Definition to_int (z : Z) : Z := (z + 2 ^ 31) mod 2 ^ 32 - 2 ^ 31.

(** [MKDEV] and [MAJOR] of linux/kdev_t.h (20 minor bits). *)
Definition MKDEV (ma mi : Z) : Z := Z.lor (Z.shiftl ma 20) mi.
Definition MAJOR (dev : Z) : Z := Z.shiftr dev 20.

Inductive bind_event :=
| Be_kernel (e : event)
| Be_devm_kzalloc (ok : bool)
| Be_class_create (res : Z)
| Be_register_chrdev_region (dev : Z) (rc : Z)
| Be_alloc_chrdev_region (dev : Z) (rc : Z)
| Be_device_create (cls dev : Z) (res : Z)
| Be_cdev_init
| Be_cdev_add (dev : Z) (rc : Z)
| Be_mutex_init
| Be_of_property_read_bool (name : string) (res : bool)
| Be_of_get_named_gpio (label : string) (res : Z)
| Be_devm_gpio_request (gpio : Z) (label : string) (rc : Z)
| Be_gpio_direction_output (gpio value rc : Z)
| Be_devm_pinctrl_get (res : Z)
| Be_pinctrl_lookup_state (p : Z) (name : string) (res : Z)
| Be_wakeup_source_register (res : Z)
| Be_msm_drm_register_client (rc : Z)
| Be_sysfs_create_group (rc : Z)
| Be_sysfs_remove_group
| Be_mutex_destroy
| Be_msm_drm_unregister_client
| Be_wakeup_source_unregister (ws : Z)
| Be_cdev_del
| Be_device_destroy (cls dev : Z)
| Be_unregister_chrdev_region (dev : Z)
| Be_class_destroy (cls : Z)
| Be_devm_kfree
| Be_platform_driver_unregister.

(** The driver state of above, the two fields of [struct anc_data] that only
    bind and unbind use, the file-scope [anc_major_num], and whether
    [g_anc_data] has been assigned. *)
Record bstate := {
  kernel : kstate;
  g_anc_data_set : bool;
  dev_class : Z;
  dev_num : Z;
  anc_major_num : Z;
  btrace : list bind_event
}.

Record bind_platform := {
  on_devm_kzalloc : list bind_event -> bool;
  on_class_create : list bind_event -> Z;
  on_register_chrdev_region : list bind_event -> Z -> Z;
  on_alloc_chrdev_region : list bind_event -> Z * Z;        (* rc, device number *)
  on_device_create : list bind_event -> Z -> Z -> Z;
  on_cdev_add : list bind_event -> Z -> Z;
  on_of_property_read_bool : list bind_event -> string -> bool;
  on_of_get_named_gpio : list bind_event -> string -> Z;
  on_devm_gpio_request : list bind_event -> Z -> string -> Z;
  on_gpio_direction_output : list bind_event -> Z -> Z -> Z;
  on_devm_pinctrl_get : list bind_event -> Z;
  on_pinctrl_lookup_state : list bind_event -> Z -> string -> Z;
  on_wakeup_source_register : list bind_event -> Z;
  on_msm_drm_register_client : list bind_event -> Z;
  on_sysfs_create_group : list bind_event -> Z;
  (** the address of the function [device_create], as a long *)
  addr_device_create : Z
}.

Inductive boutcome (A : Type) :=
| BRet (a : A) (s : bstate)
| BOops (s : bstate).
Arguments BRet {A} a s.
Arguments BOops {A} s.

Definition B (A : Type) : Type := bstate -> boutcome A.

Definition bret {A} (a : A) : B A := fun s => BRet a s.

Definition bbind {A B'} (m : B A) (f : A -> B B') : B B' :=
  fun s => match m s with
           | BRet a s' => f a s'
           | BOops s' => BOops s'
           end.

Declare Scope bind_scope.
Delimit Scope bind_scope with bind.
Notation "x <~ m ;; k" := (bbind m (fun x => k))
  (at level 61, m at next level, right associativity) : bind_scope.
Notation "m ~~> k" := (bbind m (fun _ => k))
  (at level 61, right associativity) : bind_scope.
Open Scope bind_scope.

Definition bgets {A} (f : bstate -> A) : B A := fun s => BRet (f s) s.

Definition bmodify (f : bstate -> bstate) : B unit := fun s => BRet tt (f s).

Definition bemit (e : bind_event) : B unit :=
  bmodify (fun s =>
    {| kernel := kernel s;
       g_anc_data_set := g_anc_data_set s;
       dev_class := dev_class s;
       dev_num := dev_num s;
       anc_major_num := anc_major_num s;
       btrace := btrace s ++ [e] |}).

(** Runs code of the run-time model; the calls it makes join the trace. *)
Definition lift {A} (m : M A) : B A :=
  fun s =>
    let with_kernel (k : kstate) : bstate :=
      {| kernel := k;
         g_anc_data_set := g_anc_data_set s;
         dev_class := dev_class s;
         dev_num := dev_num s;
         anc_major_num := anc_major_num s;
         btrace :=
           btrace s ++
           map Be_kernel (skipn (List.length (ktrace (kernel s))) (ktrace k)) |} in
    match m (kernel s) with
    | Ret a k => BRet a (with_kernel k)
    | Oops k => BOops (with_kernel k)
    end.

Definition set_dev_class (v : Z) : B unit :=
  bmodify (fun s =>
    {| kernel := kernel s;
       g_anc_data_set := g_anc_data_set s;
       dev_class := v;
       dev_num := dev_num s;
       anc_major_num := anc_major_num s;
       btrace := btrace s |}).

Definition set_dev_num (v : Z) : B unit :=
  bmodify (fun s =>
    {| kernel := kernel s;
       g_anc_data_set := g_anc_data_set s;
       dev_class := dev_class s;
       dev_num := v;
       anc_major_num := anc_major_num s;
       btrace := btrace s |}).

Definition set_anc_major_num (v : Z) : B unit :=
  bmodify (fun s =>
    {| kernel := kernel s;
       g_anc_data_set := g_anc_data_set s;
       dev_class := dev_class s;
       dev_num := dev_num s;
       anc_major_num := v;
       btrace := btrace s |}).

(** What [devm_kzalloc] returns: a context of zero bytes. *)
Definition zeroed_anc_data : anc_data :=
  {| fingerprint_pinctrl := 0;
     pinctrl_state := [0; 0];
     vreg := [None];
     fp_wakelock := 0;
     pwr_gpio := 0;
     rst_gpio := 0;
     fb_black := 0 |}.

(** [g_anc_data = dev_data], with [dev_data] fresh from [devm_kzalloc]; the
    driver data of the platform device is set to the same pointer. *)
Definition set_g_anc_data_fresh : B unit :=
  bmodify (fun s =>
    {| kernel :=
         {| g_anc_data := zeroed_anc_data;
            g_anc_data_live := true;
            gp_netlink_sock := gp_netlink_sock (kernel s);
            lasttouchmode := lasttouchmode (kernel s);
            anc_gpio_pwr_flag := anc_gpio_pwr_flag (kernel s);
            ktrace := ktrace (kernel s) |};
       g_anc_data_set := true;
       dev_class := dev_class s;
       dev_num := dev_num s;
       anc_major_num := anc_major_num s;
       btrace := btrace s |}).

Definition set_anc_gpio_pwr_flag (v : Z) : M unit :=
  modify (fun s =>
    {| g_anc_data := g_anc_data s;
       g_anc_data_live := g_anc_data_live s;
       gp_netlink_sock := gp_netlink_sock s;
       lasttouchmode := lasttouchmode s;
       anc_gpio_pwr_flag := v;
       ktrace := ktrace s |}).

Definition set_rst_gpio (v : Z) : M unit :=
  d <- gets g_anc_data ;;
  set_anc_data
    {| fingerprint_pinctrl := fingerprint_pinctrl d;
       pinctrl_state := pinctrl_state d;
       vreg := vreg d;
       fp_wakelock := fp_wakelock d;
       pwr_gpio := pwr_gpio d;
       rst_gpio := v;
       fb_black := fb_black d |}.

Definition set_pwr_gpio (v : Z) : M unit :=
  d <- gets g_anc_data ;;
  set_anc_data
    {| fingerprint_pinctrl := fingerprint_pinctrl d;
       pinctrl_state := pinctrl_state d;
       vreg := vreg d;
       fp_wakelock := fp_wakelock d;
       pwr_gpio := v;
       rst_gpio := rst_gpio d;
       fb_black := fb_black d |}.

Definition set_fingerprint_pinctrl (v : Z) : M unit :=
  d <- gets g_anc_data ;;
  set_anc_data
    {| fingerprint_pinctrl := v;
       pinctrl_state := pinctrl_state d;
       vreg := vreg d;
       fp_wakelock := fp_wakelock d;
       pwr_gpio := pwr_gpio d;
       rst_gpio := rst_gpio d;
       fb_black := fb_black d |}.

Definition set_pinctrl_state (i : nat) (v : Z) : M unit :=
  d <- gets g_anc_data ;;
  set_anc_data
    {| fingerprint_pinctrl := fingerprint_pinctrl d;
       pinctrl_state := list_set (pinctrl_state d) i v;
       vreg := vreg d;
       fp_wakelock := fp_wakelock d;
       pwr_gpio := pwr_gpio d;
       rst_gpio := rst_gpio d;
       fb_black := fb_black d |}.

Definition set_fp_wakelock (v : Z) : M unit :=
  d <- gets g_anc_data ;;
  set_anc_data
    {| fingerprint_pinctrl := fingerprint_pinctrl d;
       pinctrl_state := pinctrl_state d;
       vreg := vreg d;
       fp_wakelock := v;
       pwr_gpio := pwr_gpio d;
       rst_gpio := rst_gpio d;
       fb_black := fb_black d |}.

Section Bind.

Variable P : platform.
Variable Q : bind_platform.

(** *** Calls into the kernel *)

(** A call whose answer the kernel gives from the history so far; the call
    is recorded with its answer. *)
Definition kernel_call {A} (answer : list bind_event -> A) (ev : A -> bind_event) : B A :=
  tr <~ bgets btrace ;;
  let r := answer tr in
  bemit (ev r) ~~> bret r.

Definition devm_kzalloc : B bool :=
  kernel_call (on_devm_kzalloc Q) Be_devm_kzalloc.

Definition class_create : B Z :=
  kernel_call (on_class_create Q) Be_class_create.

Definition register_chrdev_region (dev : Z) : B Z :=
  kernel_call (fun tr => on_register_chrdev_region Q tr dev)
    (Be_register_chrdev_region dev).

Definition alloc_chrdev_region : B (Z * Z) :=
  kernel_call (on_alloc_chrdev_region Q)
    (fun r => Be_alloc_chrdev_region (snd r) (fst r)).

Definition device_create (cls dev : Z) : B Z :=
  kernel_call (fun tr => on_device_create Q tr cls dev) (Be_device_create cls dev).

Definition cdev_init : B unit := bemit Be_cdev_init.

Definition cdev_add (dev : Z) : B Z :=
  kernel_call (fun tr => on_cdev_add Q tr dev) (Be_cdev_add dev).

Definition mutex_init : B unit := bemit Be_mutex_init.

Definition of_property_read_bool (name : string) : B bool :=
  kernel_call (fun tr => on_of_property_read_bool Q tr name)
    (Be_of_property_read_bool name).

Definition of_get_named_gpio (label : string) : B Z :=
  kernel_call (fun tr => on_of_get_named_gpio Q tr label) (Be_of_get_named_gpio label).

Definition devm_gpio_request (gpio : Z) (label : string) : B Z :=
  kernel_call (fun tr => on_devm_gpio_request Q tr gpio label)
    (Be_devm_gpio_request gpio label).

Definition gpio_direction_output (gpio value : Z) : B Z :=
  kernel_call (fun tr => on_gpio_direction_output Q tr gpio value)
    (Be_gpio_direction_output gpio value).

Definition devm_pinctrl_get : B Z :=
  kernel_call (on_devm_pinctrl_get Q) Be_devm_pinctrl_get.

Definition pinctrl_lookup_state (p : Z) (name : string) : B Z :=
  kernel_call (fun tr => on_pinctrl_lookup_state Q tr p name)
    (Be_pinctrl_lookup_state p name).

Definition wakeup_source_register : B Z :=
  kernel_call (on_wakeup_source_register Q) Be_wakeup_source_register.

Definition msm_drm_register_client : B Z :=
  kernel_call (on_msm_drm_register_client Q) Be_msm_drm_register_client.

Definition sysfs_create_group : B Z :=
  kernel_call (on_sysfs_create_group Q) Be_sysfs_create_group.

Definition sysfs_remove_group : B unit := bemit Be_sysfs_remove_group.
Definition mutex_destroy : B unit := bemit Be_mutex_destroy.
Definition msm_drm_unregister_client : B unit := bemit Be_msm_drm_unregister_client.
Definition wakeup_source_unregister (ws : Z) : B unit :=
  bemit (Be_wakeup_source_unregister ws).
Definition cdev_del : B unit := bemit Be_cdev_del.
Definition device_destroy (cls dev : Z) : B unit := bemit (Be_device_destroy cls dev).
Definition unregister_chrdev_region (dev : Z) : B unit :=
  bemit (Be_unregister_chrdev_region dev).
Definition class_destroy (cls : Z) : B unit := bemit (Be_class_destroy cls).
(** [dev_data] is freed.  [g_anc_data] is [dev_data] whenever probe gets
    here, and it is not reset: it is left pointing at the freed context. *)
Definition context_freed : B unit :=
  bmodify (fun s =>
    {| kernel :=
         {| g_anc_data := g_anc_data (kernel s);
            g_anc_data_live := false;
            gp_netlink_sock := gp_netlink_sock (kernel s);
            lasttouchmode := lasttouchmode (kernel s);
            anc_gpio_pwr_flag := anc_gpio_pwr_flag (kernel s);
            ktrace := ktrace (kernel s) |};
       g_anc_data_set := g_anc_data_set s;
       dev_class := dev_class s;
       dev_num := dev_num s;
       anc_major_num := anc_major_num s;
       btrace := btrace s |}).

Definition devm_kfree : B unit := bemit Be_devm_kfree ~~> context_freed.
Definition platform_driver_unregister : B unit := bemit Be_platform_driver_unregister.

(** *** GPIO and pin control set-up *)

(** [store] is the assignment [*gpio = rc]. *)
Definition anc_request_named_gpio (label : string) (store : Z -> M unit) : B Z :=
  rc <~ of_get_named_gpio label ;;
  if rc <? 0 then bret rc
  else
    lift (store rc) ~~>
    rc' <~ devm_gpio_request rc label ;;
    if negb (rc' =? 0) then bret rc' else bret 0.

(** The loop of [anc_gpio_init] over the pin-state names. *)
Fixpoint anc_gpio_init_states (i : nat) (names : list string) : B Z :=
  match names with
  | [] => bret 0
  | n :: rest =>
      p <~ bgets (fun s => fingerprint_pinctrl (g_anc_data (kernel s))) ;;
      state <~ pinctrl_lookup_state p n ;;
      if IS_ERR state then bret (- EINVAL)
      else lift (set_pinctrl_state i state) ~~> anc_gpio_init_states (S i) rest
  end.

(** [anc_gpio_init] from [devm_pinctrl_get] on. *)
Definition anc_gpio_init_pinctrl : B Z :=
  p <~ devm_pinctrl_get ;;
  lift (set_fingerprint_pinctrl p) ~~>
  if IS_ERR p then
    if p =? - EPROBE_DEFER then bret p
    else lift (set_fingerprint_pinctrl 0) ~~> bret (- EINVAL)
  else anc_gpio_init_states 0 pctl_names.

(** [np] tells whether the device has a device-tree node. *)
Definition anc_gpio_init (np : bool) : B Z :=
  if negb np then bret (- EINVAL)
  else
    via_gpio <~ of_property_read_bool "anc,enable-via-gpio"%string ;;
    (if via_gpio then lift (set_anc_gpio_pwr_flag 1) else bret tt) ~~>
    rc <~ anc_request_named_gpio "anc,gpio_rst"%string set_rst_gpio ;;
    if negb (rc =? 0) then bret rc
    else
      flag <~ bgets (fun s => anc_gpio_pwr_flag (kernel s)) ;;
      if negb (flag =? 0) then
        rc <~ anc_request_named_gpio "anc,gpio_pwr"%string set_pwr_gpio ;;
        if negb (rc =? 0) then bret rc
        else
          gpio <~ bgets (fun s => pwr_gpio (g_anc_data (kernel s))) ;;
          rc <~ gpio_direction_output gpio 0 ;;
          if negb (rc =? 0) then bret rc else anc_gpio_init_pinctrl
      else anc_gpio_init_pinctrl.

(** *** Probe and remove *)

(** The labels at the end of [anc_probe], each falling through to the next. *)
Definition free_dev_data (rc : Z) : B Z :=
  devm_kfree ~~> bret rc.

Definition destroy_class (rc : Z) : B Z :=
  cls <~ bgets dev_class ;;
  class_destroy cls ~~> free_dev_data rc.

Definition unregister_region (rc : Z) : B Z :=
  dev <~ bgets dev_num ;;
  unregister_chrdev_region dev ~~> destroy_class rc.

Definition destroy_device (rc : Z) : B Z :=
  cls <~ bgets dev_class ;;
  dev <~ bgets dev_num ;;
  device_destroy cls dev ~~> unregister_region rc.

Definition del_cdev (rc : Z) : B Z :=
  cdev_del ~~> destroy_device rc.

(** Probe writes [g_anc_data->fp_wakelock] here and where it registers the
    wake lock; [g_anc_data] is the [dev_data] of this probe, assigned at its
    start, so the field is the one of the context being set up. *)
Definition unregister_wakelock (rc : Z) : B Z :=
  ws <~ bgets (fun s => fp_wakelock (g_anc_data (kernel s))) ;;
  wakeup_source_unregister ws ~~> del_cdev rc.

Definition unregister_notifier (rc : Z) : B Z :=
  msm_drm_unregister_client ~~> unregister_wakelock rc.

(** [anc_probe] from the creation of the device node on. *)
Definition anc_probe_device (np : bool) : B Z :=
  cls <~ bgets dev_class ;;
  dev <~ bgets dev_num ;;
  p <~ device_create cls dev ;;
  if IS_ERR p then unregister_region (to_int (addr_device_create Q))
  else
    cdev_init ~~>
    rc <~ cdev_add dev ;;
    if negb (rc =? 0) then destroy_device rc
    else
      mutex_init ~~>
      rc <~ anc_gpio_init np ;;
      if negb (rc =? 0) then del_cdev rc
      else
        lift (device_power_up P) ~~>
        ws <~ wakeup_source_register ;;
        lift (set_fp_wakelock ws) ~~>
        rc <~ msm_drm_register_client ;;
        if rc <? 0 then unregister_wakelock rc
        else
          rc <~ sysfs_create_group ;;
          if negb (rc =? 0) then unregister_notifier rc
          else bret 0.

Definition anc_probe (np : bool) : B Z :=
  ok <~ devm_kzalloc ;;
  if negb ok then bret (- ENOMEM)
  else
    set_g_anc_data_fresh ~~>
    cls <~ class_create ;;
    set_dev_class cls ~~>
    if IS_ERR cls then free_dev_data cls
    else
      major <~ bgets anc_major_num ;;
      if negb (major =? 0) then
        set_dev_num (MKDEV major 0) ~~>
        register_chrdev_region (MKDEV major 0) ~~>
        anc_probe_device np
      else
        r <~ alloc_chrdev_region ;;
        (if fst r =? 0 then set_dev_num (snd r) else bret tt) ~~>
        if fst r <? 0 then destroy_class (fst r)
        else
          dev <~ bgets dev_num ;;
          set_anc_major_num (MAJOR dev) ~~>
          anc_probe_device np.

(** The wake lock is found through [g_anc_data], all else through the driver
    data of the device. *)
Definition anc_remove : B Z :=
  sysfs_remove_group ~~>
  mutex_destroy ~~>
  d <~ lift deref_g_anc_data ;;
  wakeup_source_unregister (fp_wakelock d) ~~>
  msm_drm_unregister_client ~~>
  cdev_del ~~>
  cls <~ bgets dev_class ;;
  dev <~ bgets dev_num ;;
  device_destroy cls dev ~~>
  unregister_chrdev_region dev ~~>
  class_destroy cls ~~>
  bret 0.

Definition ancfp_exit : B unit :=
  lift anc_netlink_exit ~~>
  platform_driver_unregister.

End Bind.

(** *** Reading a bind trace *)

(** What probe holds and has to give back when it fails later. *)
Inductive resource :=
| R_class
| R_region
| R_device
| R_cdev
| R_wakelock
| R_notifier
| R_sysfs_group.

(** The resources a trace acquires, oldest first: a call counts when probe
    takes its answer for a success. *)
Fixpoint acquired (tr : list bind_event) : list resource :=
  match tr with
  | [] => []
  | Be_class_create p :: tr' =>
      if IS_ERR p then acquired tr' else R_class :: acquired tr'
  | Be_alloc_chrdev_region _ rc :: tr' =>
      if rc <? 0 then acquired tr' else R_region :: acquired tr'
  | Be_register_chrdev_region _ _ :: tr' => R_region :: acquired tr'
  | Be_device_create _ _ p :: tr' =>
      if IS_ERR p then acquired tr' else R_device :: acquired tr'
  | Be_cdev_add _ rc :: tr' =>
      if rc =? 0 then R_cdev :: acquired tr' else acquired tr'
  | Be_wakeup_source_register _ :: tr' => R_wakelock :: acquired tr'
  | Be_msm_drm_register_client rc :: tr' =>
      if rc <? 0 then acquired tr' else R_notifier :: acquired tr'
  | Be_sysfs_create_group rc :: tr' =>
      if rc =? 0 then R_sysfs_group :: acquired tr' else acquired tr'
  | _ :: tr' => acquired tr'
  end.

(** The resources a trace gives back, oldest first. *)
Fixpoint released (tr : list bind_event) : list resource :=
  match tr with
  | [] => []
  | Be_class_destroy _ :: tr' => R_class :: released tr'
  | Be_unregister_chrdev_region _ :: tr' => R_region :: released tr'
  | Be_device_destroy _ _ :: tr' => R_device :: released tr'
  | Be_cdev_del :: tr' => R_cdev :: released tr'
  | Be_wakeup_source_unregister _ :: tr' => R_wakelock :: released tr'
  | Be_msm_drm_unregister_client :: tr' => R_notifier :: released tr'
  | Be_sysfs_remove_group :: tr' => R_sysfs_group :: released tr'
  | _ :: tr' => released tr'
  end.

(** The calls of the run-time model inside a bind trace. *)
Fixpoint kernel_events (tr : list bind_event) : list event :=
  match tr with
  | [] => []
  | Be_kernel e :: tr' => e :: kernel_events tr'
  | _ :: tr' => kernel_events tr'
  end.

(** The calls of [anc_gpio_init]: device-tree look-ups and device-managed
    requests, which need no release. *)
Definition is_setup_event (e : bind_event) : bool :=
  match e with
  | Be_of_property_read_bool _ _
  | Be_of_get_named_gpio _ _
  | Be_devm_gpio_request _ _ _
  | Be_gpio_direction_output _ _ _
  | Be_devm_pinctrl_get _
  | Be_pinctrl_lookup_state _ _ _ => true
  | _ => false
  end.

(** The attribute group was created: the last step of probe succeeded. *)
Definition is_group_created (e : bind_event) : bool :=
  match e with
  | Be_sysfs_create_group rc => rc =? 0
  | _ => false
  end.

Definition is_devm_kfree (e : bind_event) : bool :=
  match e with
  | Be_devm_kfree => true
  | _ => false
  end.

(** The state after one more call. *)
Definition bpush (s : bstate) (e : bind_event) : bstate :=
  {| kernel := kernel s;
     g_anc_data_set := g_anc_data_set s;
     dev_class := dev_class s;
     dev_num := dev_num s;
     anc_major_num := anc_major_num s;
     btrace := btrace s ++ [e] |}.

(** The run returns, with a result and a state that satisfy [post]. *)
Definition runs_to {A} (o : boutcome A) (post : A -> bstate -> Prop) : Prop :=
  match o with
  | BRet a s => post a s
  | BOops _ => False
  end.

Definition bfinal_state {A} (o : boutcome A) : bstate :=
  match o with
  | BRet _ s => s
  | BOops s => s
  end.

(** A store into the context that calls nothing, as the two assignments
    [*gpio = rc] of [anc_gpio_init]. *)
Definition quiet_store (store : Z -> M unit) : Prop :=
  forall v k, exists k',
    store v k = Ret tt k' /\
    ktrace k' = ktrace k /\
    anc_gpio_pwr_flag k' = anc_gpio_pwr_flag k /\
    pinctrl_state (g_anc_data k') = pinctrl_state (g_anc_data k).

(** ** Reading a trace *)

(** The messages logged as about to be sent, oldest first. *)
Fixpoint sent_messages (tr : list event) : list (list Z) :=
  match tr with
  | [] => []
  | Ev_send_to_user payload :: tr' => payload :: sent_messages tr'
  | _ :: tr' => sent_messages tr'
  end.

(** What reached [netlink_unicast]: endpoint handle, payload, port. *)
Fixpoint unicasts (tr : list event) : list (option Z * list Z * Z) :=
  match tr with
  | [] => []
  | Ev_netlink_unicast sk payload port _ :: tr' => (sk, payload, port) :: unicasts tr'
  | _ :: tr' => unicasts tr'
  end.

(** Both steps that set up the message buffer succeed. *)
Definition buffers_ok (P : platform) (tr : list event) (len : Z) : bool :=
  on_nlmsg_new P tr len && on_nlmsg_put P (tr ++ [Ev_nlmsg_new len true]) len.

(** Pin-select, power and regulator operations. *)
Definition is_hw_op (e : event) : bool :=
  match e with
  | Ev_pinctrl_select_state _ _ _
  | Ev_gpio_set_value _ _
  | Ev_regulator_get _ _
  | Ev_regulator_count_voltages _ _
  | Ev_regulator_set_voltage _ _ _ _
  | Ev_regulator_set_load _ _ _
  | Ev_regulator_enable _ _
  | Ev_regulator_is_enabled _ _
  | Ev_regulator_disable _
  | Ev_regulator_put _ => true
  | _ => false
  end.

(** Every hardware operation of the trace happens while the mutex is held;
    [held] tells whether it is held at the start. *)
Fixpoint hw_ops_locked (held : bool) (tr : list event) : bool :=
  match tr with
  | [] => true
  | Ev_mutex_lock :: tr' => hw_ops_locked true tr'
  | Ev_mutex_unlock :: tr' => hw_ops_locked false tr'
  | e :: tr' => (if is_hw_op e then held else true) && hw_ops_locked held tr'
  end.

Definition is_mutex_op (e : event) : bool :=
  match e with
  | Ev_mutex_lock | Ev_mutex_unlock => true
  | _ => false
  end.

(** The regulator was switched on: some [regulator_enable] succeeded. *)
Definition is_enable (e : event) : bool :=
  match e with
  | Ev_regulator_enable _ rc => rc =? 0
  | _ => false
  end.

(** The driver's globals other than the trace. *)
Definition same_globals (s s' : kstate) : Prop :=
  g_anc_data s' = g_anc_data s /\
  gp_netlink_sock s' = gp_netlink_sock s /\
  lasttouchmode s' = lasttouchmode s /\
  anc_gpio_pwr_flag s' = anc_gpio_pwr_flag s /\
  g_anc_data_live s' = g_anc_data_live s.

(** The state after one more call. *)
Definition kpush (s : kstate) (e : event) : kstate :=
  {| g_anc_data := g_anc_data s;
     g_anc_data_live := g_anc_data_live s;
     gp_netlink_sock := gp_netlink_sock s;
     lasttouchmode := lasttouchmode s;
     anc_gpio_pwr_flag := anc_gpio_pwr_flag s;
     ktrace := ktrace s ++ [e] |}.

(** The state a run ends in, and the trace it leaves. *)
Definition final_state {A} (o : outcome A) : kstate :=
  match o with
  | Ret _ s => s
  | Oops s => s
  end.

Definition trace_of {A} (o : outcome A) : list event := ktrace (final_state o).

(** Entry [i] of the regulator handles of the device context. *)
Definition vreg_at (s : kstate) (i : nat) : option Z :=
  nth i (vreg (g_anc_data s)) None.

Definition is_regulator_get (e : event) : bool :=
  match e with
  | Ev_regulator_get _ _ => true
  | _ => false
  end.

(** The sensor-type queries of module load. *)
Definition is_sensor_query (e : event) : bool :=
  match e with
  | Ev_get_fpsensor_type _ => true
  | _ => false
  end.

(** The byte a touch report is sent as. *)
Definition touch_code (tp_info : fp_underscreen_info) : Z :=
  if touch_state tp_info =? 1
  then event_value ANC_NETLINK_EVENT_TOUCH_DOWN
  else event_value ANC_NETLINK_EVENT_TOUCH_UP.

(** Some name of the event table is a prefix of the text. *)
Definition names_event (p_buffer : string) : bool :=
  existsb (fun entry => prefix (fst entry) p_buffer) netlink_event_map.

(** ** Concrete instances, to run the model *)

(** One choice of the header constants: ioctl numbers built with [_IO] on the
    magic 'a', the display notifier's usual numbering, a four-byte enum. *)
Definition K0 : header_consts :=
  {| ANC_IOC_MAGIC := 97;
     ANC_IOC_RESET := _IO 97 0;
     ANC_IOC_ENABLE_POWER := _IO 97 1;
     ANC_IOC_DISABLE_POWER := _IO 97 2;
     ANC_IOC_CLEAR_FLAG := _IO 97 20;
     ANC_UI_READY := 1;
     ANC_UI_DISAPPREAR := 0;
     MSM_DRM_ONSCREENFINGERPRINT_EVENT := 16;
     MSM_DRM_EARLY_EVENT_BLANK := 2;
     MSM_DRM_BLANK_POWERDOWN := 1;
     MSM_DRM_BLANK_UNBLANK := 0;
     FP_JIIOV_0301 := 21;
     FP_JIIOV_0302 := 22;
     sizeof_ANC_NETLINK_EVENT_TYPE := 4 |}.

(** A kernel in which every call succeeds; the regulator handle is 7, the
    netlink socket 9, the sensor a JIIOV 0302; 250 ticks a second. *)
Definition P_ok : platform :=
  {| on_pinctrl_select_state := fun _ _ _ => 0;
     on_regulator_get := fun _ _ => inl 7;
     on_regulator_count_voltages := fun _ _ => 1;
     on_regulator_set_voltage := fun _ _ _ _ => 0;
     on_regulator_set_load := fun _ _ _ => 0;
     on_regulator_enable := fun _ _ => 0;
     on_regulator_is_enabled := fun _ _ => 1;
     msecs_to_jiffies := fun m => (m + 3) / 4;
     on_nlmsg_new := fun _ _ => true;
     on_nlmsg_put := fun _ _ => true;
     on_netlink_unicast := fun _ _ payload => Z.of_nat (List.length payload);
     on_netlink_kernel_create := fun _ => Some 9;
     on_get_fpsensor_type := fun _ => 22;
     on_platform_driver_register := fun _ => 0 |}.

(** The same kernel, but [regulator_set_voltage] fails with -EINVAL. *)
Definition P_set_voltage_fails : platform :=
  {| on_pinctrl_select_state := on_pinctrl_select_state P_ok;
     on_regulator_get := on_regulator_get P_ok;
     on_regulator_count_voltages := on_regulator_count_voltages P_ok;
     on_regulator_set_voltage := fun _ _ _ _ => - EINVAL;
     on_regulator_set_load := on_regulator_set_load P_ok;
     on_regulator_enable := on_regulator_enable P_ok;
     on_regulator_is_enabled := on_regulator_is_enabled P_ok;
     msecs_to_jiffies := msecs_to_jiffies P_ok;
     on_nlmsg_new := on_nlmsg_new P_ok;
     on_nlmsg_put := on_nlmsg_put P_ok;
     on_netlink_unicast := on_netlink_unicast P_ok;
     on_netlink_kernel_create := on_netlink_kernel_create P_ok;
     on_get_fpsensor_type := on_get_fpsensor_type P_ok;
     on_platform_driver_register := on_platform_driver_register P_ok |}.

(** The same kernel, but out of memory for message buffers. *)
Definition P_no_buffer : platform :=
  {| on_pinctrl_select_state := on_pinctrl_select_state P_ok;
     on_regulator_get := on_regulator_get P_ok;
     on_regulator_count_voltages := on_regulator_count_voltages P_ok;
     on_regulator_set_voltage := on_regulator_set_voltage P_ok;
     on_regulator_set_load := on_regulator_set_load P_ok;
     on_regulator_enable := on_regulator_enable P_ok;
     on_regulator_is_enabled := on_regulator_is_enabled P_ok;
     msecs_to_jiffies := msecs_to_jiffies P_ok;
     on_nlmsg_new := fun _ _ => false;
     on_nlmsg_put := on_nlmsg_put P_ok;
     on_netlink_unicast := on_netlink_unicast P_ok;
     on_netlink_kernel_create := on_netlink_kernel_create P_ok;
     on_get_fpsensor_type := on_get_fpsensor_type P_ok;
     on_platform_driver_register := on_platform_driver_register P_ok |}.

(** The same kernel, but the sensor is of another vendor (type 3). *)
Definition P_other_sensor : platform :=
  {| on_pinctrl_select_state := on_pinctrl_select_state P_ok;
     on_regulator_get := on_regulator_get P_ok;
     on_regulator_count_voltages := on_regulator_count_voltages P_ok;
     on_regulator_set_voltage := on_regulator_set_voltage P_ok;
     on_regulator_set_load := on_regulator_set_load P_ok;
     on_regulator_enable := on_regulator_enable P_ok;
     on_regulator_is_enabled := on_regulator_is_enabled P_ok;
     msecs_to_jiffies := msecs_to_jiffies P_ok;
     on_nlmsg_new := on_nlmsg_new P_ok;
     on_nlmsg_put := on_nlmsg_put P_ok;
     on_netlink_unicast := on_netlink_unicast P_ok;
     on_netlink_kernel_create := on_netlink_kernel_create P_ok;
     on_get_fpsensor_type := fun _ => 3;
     on_platform_driver_register := on_platform_driver_register P_ok |}.

(** The device context after a successful probe in regulator mode: pin states
    resolved, no regulator acquired yet. *)
Definition bound_data : anc_data :=
  {| fingerprint_pinctrl := 1;
     pinctrl_state := [10; 11];
     vreg := [None];
     fp_wakelock := 5;
     pwr_gpio := 0;
     rst_gpio := 3;
     fb_black := 0 |}.

(** A kernel in which every call of bind succeeds.  The device tree does not
    ask for GPIO power; the address of [device_create] is 0xffffffc010a5b2c0. *)
Definition Q_ok : bind_platform :=
  {| on_devm_kzalloc := fun _ => true;
     on_class_create := fun _ => 100;
     on_register_chrdev_region := fun _ _ => 0;
     on_alloc_chrdev_region := fun _ => (0, MKDEV 240 0);
     on_device_create := fun _ _ _ => 200;
     on_cdev_add := fun _ _ => 0;
     on_of_property_read_bool := fun _ _ => false;
     on_of_get_named_gpio := fun _ _ => 42;
     on_devm_gpio_request := fun _ _ _ => 0;
     on_gpio_direction_output := fun _ _ _ => 0;
     on_devm_pinctrl_get := fun _ => 300;
     on_pinctrl_lookup_state :=
       fun _ _ name => if String.eqb name "anc_reset_reset" then 10 else 11;
     on_wakeup_source_register := fun _ => 5;
     on_msm_drm_register_client := fun _ => 0;
     on_sysfs_create_group := fun _ => 0;
     addr_device_create := - 274598612288 |}.

(** The same kernel, but [device_create] fails with -ENOMEM. *)
Definition Q_no_device : bind_platform :=
  {| on_devm_kzalloc := on_devm_kzalloc Q_ok;
     on_class_create := on_class_create Q_ok;
     on_register_chrdev_region := on_register_chrdev_region Q_ok;
     on_alloc_chrdev_region := on_alloc_chrdev_region Q_ok;
     on_device_create := fun _ _ _ => - ENOMEM;
     on_cdev_add := on_cdev_add Q_ok;
     on_of_property_read_bool := on_of_property_read_bool Q_ok;
     on_of_get_named_gpio := on_of_get_named_gpio Q_ok;
     on_devm_gpio_request := on_devm_gpio_request Q_ok;
     on_gpio_direction_output := on_gpio_direction_output Q_ok;
     on_devm_pinctrl_get := on_devm_pinctrl_get Q_ok;
     on_pinctrl_lookup_state := on_pinctrl_lookup_state Q_ok;
     on_wakeup_source_register := on_wakeup_source_register Q_ok;
     on_msm_drm_register_client := on_msm_drm_register_client Q_ok;
     on_sysfs_create_group := on_sysfs_create_group Q_ok;
     addr_device_create := addr_device_create Q_ok |}.

(** The same kernel, but the target has no pin controller (-ENODEV). *)
Definition Q_no_pinctrl : bind_platform :=
  {| on_devm_kzalloc := on_devm_kzalloc Q_ok;
     on_class_create := on_class_create Q_ok;
     on_register_chrdev_region := on_register_chrdev_region Q_ok;
     on_alloc_chrdev_region := on_alloc_chrdev_region Q_ok;
     on_device_create := on_device_create Q_ok;
     on_cdev_add := on_cdev_add Q_ok;
     on_of_property_read_bool := on_of_property_read_bool Q_ok;
     on_of_get_named_gpio := on_of_get_named_gpio Q_ok;
     on_devm_gpio_request := on_devm_gpio_request Q_ok;
     on_gpio_direction_output := on_gpio_direction_output Q_ok;
     on_devm_pinctrl_get := fun _ => -19;
     on_pinctrl_lookup_state := on_pinctrl_lookup_state Q_ok;
     on_wakeup_source_register := on_wakeup_source_register Q_ok;
     on_msm_drm_register_client := on_msm_drm_register_client Q_ok;
     on_sysfs_create_group := on_sysfs_create_group Q_ok;
     addr_device_create := addr_device_create Q_ok |}.

(** No netlink socket: the channel is not up yet, or no longer.  The device
    is bound, so [g_anc_data] points to its context. *)
Definition st_load : kstate :=
  {| g_anc_data := bound_data;
     g_anc_data_live := true;
     gp_netlink_sock := None;
     lasttouchmode := 0;
     anc_gpio_pwr_flag := 0;
     ktrace := [] |}.

(** The state once the notification channel is up. *)
Definition st_up : kstate :=
  {| g_anc_data := bound_data;
     g_anc_data_live := true;
     gp_netlink_sock := Some 9;
     lasttouchmode := 0;
     anc_gpio_pwr_flag := 0;
     ktrace := [] |}.

(** The file-scope variables as their initializers leave them: [g_anc_data]
    is NULL, whatever the memory holds that a context will be put in. *)
Definition st_unbound : kstate :=
  {| g_anc_data := bound_data;
     g_anc_data_live := false;
     gp_netlink_sock := None;
     lasttouchmode := 0;
     anc_gpio_pwr_flag := 0;
     ktrace := [] |}.

(** Before the first probe: nothing allocated, dynamic major. *)
Definition bs_unbound : bstate :=
  {| kernel := st_unbound;
     g_anc_data_set := false;
     dev_class := 0;
     dev_num := 0;
     anc_major_num := 0;
     btrace := [] |}.

(** Before a later probe: the major of the first one is remembered. *)
Definition bs_rebind : bstate :=
  {| kernel := st_up;
     g_anc_data_set := true;
     dev_class := 0;
     dev_num := 0;
     anc_major_num := 240;
     btrace := [] |}.

(** * Properties *)

(** ** Strings *)

Lemma uchar_inj (a b : ascii) : uchar a = uchar b -> a = b.
Proof.
  unfold uchar. intros H. apply N2Z.inj in H.
  rewrite <- (ascii_N_embedding a), <- (ascii_N_embedding b). now rewrite H.
Qed.

Lemma uchar_eqb (a b : ascii) :
  (uchar a =? uchar b) = if ascii_dec a b then true else false.
Proof.
  destruct (ascii_dec a b) as [->|Hne].
  - apply Z.eqb_refl.
  - apply Z.eqb_neq. intros H. apply Hne. now apply uchar_inj.
Qed.

(** With a pattern that has no NUL inside, [!strncmp(n, name, strlen(n))]
    says that [n] is a prefix of [name]. *)
Lemma strncmp_prefix (n : string) :
  nul_free n = true ->
  forall name, (strncmp n name (strlen n) =? 0) = prefix n name.
Proof.
  induction n as [|a n IH]; intros Hn name.
  - destruct name; reflexivity.
  - simpl in Hn. apply andb_true_iff in Hn. destruct Hn as [Ha Hn].
    apply negb_true_iff in Ha.
    cbn [strlen]. rewrite Ha. cbn [strncmp cstr_head cstr_tail].
    destruct name as [|b t]; cbn [cstr_head cstr_tail prefix].
    + apply Z.eqb_neq in Ha. replace (uchar a =? 0) with false
        by (symmetry; apply Z.eqb_neq; lia).
      apply Z.eqb_neq. lia.
    + rewrite uchar_eqb. destruct (ascii_dec a b) as [->|Hne].
      * rewrite Ha. now apply IH.
      * apply Z.eqb_neq. intros H. apply Hne, uchar_inj. lia.
Qed.

(** ** Traces *)

Lemma sent_messages_app (a b : list event) :
  sent_messages (a ++ b) = sent_messages a ++ sent_messages b.
Proof.
  induction a as [|e a IH]; [reflexivity|].
  destruct e; simpl; rewrite ?IH; reflexivity.
Qed.

Lemma unicasts_app (a b : list event) :
  unicasts (a ++ b) = unicasts a ++ unicasts b.
Proof.
  induction a as [|e a IH]; [reflexivity|].
  destruct e; simpl; rewrite ?IH; reflexivity.
Qed.

Lemma to_uint_small (z : Z) : 0 <= z < 2 ^ 32 -> to_uint z = z.
Proof. intros H. unfold to_uint. now apply Z.mod_small. Qed.

(** Unfolds the monad and the kernel calls down to states and traces. *)
Ltac kernel_run :=
  cbv [bind ret gets modify emit deref deref_g_anc_data
       set_gp_netlink_sock set_lasttouchmode set_anc_data set_vreg set_fb_black
       mutex_lock mutex_unlock mdelay pinctrl_select_state gpio_set_value
       regulator_get regulator_count_voltages regulator_set_voltage
       regulator_set_load regulator_enable regulator_is_enabled
       regulator_disable regulator_put __pm_wakeup_event
       nlmsg_new nlmsg_put nlmsg_free netlink_unicast netlink_kernel_create
       netlink_kernel_release get_fpsensor_type platform_driver_register
       opticalfp_irq_handler_register];
  cbn [g_anc_data g_anc_data_live gp_netlink_sock lasttouchmode anc_gpio_pwr_flag
       ktrace fingerprint_pinctrl pinctrl_state vreg fp_wakelock pwr_gpio rst_gpio
       fb_black vreg_config_name vmin vmax ua_load negb].

(** ** Notification channel *)

(** What a send with a buffer that is there and not empty does: it leaves
    the globals alone, logs the message, and reaches [netlink_unicast] --
    with whatever handle [gp_netlink_sock] holds -- exactly when the buffer
    could be set up. *)
Lemma send_to_user_run (P : platform) (buf : list Z) (len : Z) (st : kstate) :
  0 < len ->
  exists rc st' evs,
    netlink_send_message_to_user P (Some buf) len st = Ret rc st' /\
    same_globals st st' /\
    ktrace st' = ktrace st ++ Ev_send_to_user (firstn (Z.to_nat len) buf) :: evs /\
    sent_messages evs = [] /\
    forallb (fun e => negb (is_hw_op e || is_mutex_op e)) evs = true /\
    unicasts evs =
      if buffers_ok P (ktrace st ++ [Ev_send_to_user (firstn (Z.to_nat len) buf)]) (to_u16 len)
      then [(gp_netlink_sock st, firstn (Z.to_nat (to_u16 len)) buf, USER_PORT)]
      else [].
Proof.
  intros Hlen.
  unfold netlink_send_message_to_user, netlink_send_message, buffers_ok.
  assert (Hgt : (len >? 0) = true) by (apply Z.gtb_lt; lia).
  rewrite Hgt. kernel_run.
  set (tr1 := ktrace st ++ [Ev_send_to_user (firstn (Z.to_nat len) buf)]).
  destruct (on_nlmsg_new P tr1 (to_u16 len)) eqn:Hnew; cbn [negb andb]; kernel_run.
  - fold tr1.
    destruct (on_nlmsg_put P (tr1 ++ [Ev_nlmsg_new (to_u16 len) true]) (to_u16 len)) eqn:Hput;
      kernel_run.
    + eexists _, _, _. split; [reflexivity|]. cbn.
      split; [repeat split|].
      split; [unfold tr1; rewrite <- !app_assoc; reflexivity|].
      repeat split.
    + eexists _, _, _. split; [reflexivity|]. cbn.
      split; [repeat split|].
      split; [unfold tr1; rewrite <- !app_assoc; reflexivity|].
      repeat split.
  - eexists _, _, _. split; [reflexivity|]. cbn.
    split; [repeat split|].
    split; [unfold tr1; rewrite <- !app_assoc; reflexivity|].
    repeat split.
Qed.

(** ** Touch handler *)

Lemma tp_handler_steady (P : platform) (tp_info : fp_underscreen_info) (st : kstate) :
  to_uint (touch_state tp_info) = lasttouchmode st ->
  anc_opticalfp_tp_handler P tp_info st = Ret 0 st.
Proof.
  intros H. unfold anc_opticalfp_tp_handler. kernel_run.
  rewrite H, Z.eqb_refl. reflexivity.
Qed.

Lemma tp_handler_times_steady (P : platform) (tp_info : fp_underscreen_info) (n : nat) :
  forall st,
    to_uint (touch_state tp_info) = lasttouchmode st ->
    tp_handler_times P n tp_info st = Ret 0 st.
Proof.
  induction n as [|n IH]; intros st H; [reflexivity|].
  destruct n as [|n].
  - now apply tp_handler_steady.
  - change (tp_handler_times P (S (S n)) tp_info st)
      with (bind (anc_opticalfp_tp_handler P tp_info)
                 (fun _ => tp_handler_times P (S n) tp_info) st).
    unfold bind. rewrite (tp_handler_steady P tp_info st H). now apply IH.
Qed.

(** A change of state, with the context in place: the wake lock is held for
    the ticks that make 400 ms, the send is tried with one byte, and the new
    state is recorded whether or not the message went out. *)
Lemma tp_handler_change (P : platform) (tp_info : fp_underscreen_info) (st : kstate) :
  to_uint (touch_state tp_info) <> lasttouchmode st ->
  g_anc_data_live st = true ->
  exists st' evs,
    anc_opticalfp_tp_handler P tp_info st = Ret 0 st' /\
    lasttouchmode st' = to_uint (touch_state tp_info) /\
    g_anc_data st' = g_anc_data st /\
    g_anc_data_live st' = g_anc_data_live st /\
    gp_netlink_sock st' = gp_netlink_sock st /\
    anc_gpio_pwr_flag st' = anc_gpio_pwr_flag st /\
    ktrace st' =
      ktrace st ++
      Ev_pm_wakeup_event (fp_wakelock (g_anc_data st))
        (msecs_to_jiffies P ANC_WAKELOCK_HOLD_TIME) ::
      Ev_send_to_user [touch_code tp_info] :: evs /\
    sent_messages evs = [] /\
    unicasts evs =
      if buffers_ok P
           (ktrace st ++
            [Ev_pm_wakeup_event (fp_wakelock (g_anc_data st))
               (msecs_to_jiffies P ANC_WAKELOCK_HOLD_TIME);
             Ev_send_to_user [touch_code tp_info]]) 1
      then [(gp_netlink_sock st, [touch_code tp_info], USER_PORT)]
      else [].
Proof.
  intros H Hlive. unfold anc_opticalfp_tp_handler. kernel_run.
  apply Z.eqb_neq in H. rewrite H, Hlive. kernel_run.
  match goal with
  | |- context [netlink_send_message_to_user P (Some ?b) ?l ?s] =>
      destruct (send_to_user_run P b l s)
        as (rc & st2 & evs & Hrun & Hg & Htr & Hsent & _ & Huni);
      [lia | rewrite Hrun]
  end.
  destruct Hg as (Hd & Hsk & Hl & Hf & Hlv).
  cbn [g_anc_data g_anc_data_live gp_netlink_sock lasttouchmode anc_gpio_pwr_flag ktrace]
    in Hd, Hsk, Hl, Hf, Hlv, Htr, Huni.
  assert (Hcode :
    firstn (Z.to_nat 1)
      (bytes_of_int 1
         (if touch_state tp_info =? 1
          then event_value ANC_NETLINK_EVENT_TOUCH_DOWN
          else event_value ANC_NETLINK_EVENT_TOUCH_UP)) = [touch_code tp_info])
    by (unfold touch_code; destruct (touch_state tp_info =? 1); reflexivity).
  change (to_u16 1) with 1 in Huni. rewrite Hcode in Htr, Huni.
  rewrite <- app_assoc in Htr, Huni. cbn [app] in Htr, Huni.
  eexists _, evs. split; [reflexivity|].
  cbn [g_anc_data g_anc_data_live gp_netlink_sock lasttouchmode anc_gpio_pwr_flag ktrace].
  repeat split; try assumption; congruence.
Qed.

(** C1 (as amended).  An invocation whose state equals [lasttouchmode] does
    nothing.  One whose state differs, with the device context in place,
    records the state and hands one one-byte message (touch-down for state
    1, touch-up otherwise) to [netlink_unicast] exactly when the kernel
    grants the message buffer; when it does not, nothing is sent and the
    state is recorded all the same.  [S n] invocations in a row with the
    same state end in the state the first one reached: the further ones
    send nothing.  Afterwards [lasttouchmode] is the incoming state. *)
Theorem tp_handler_dedup
  (P : platform) (tp_info : fp_underscreen_info) (st : kstate) (n : nat) :
  0 <= touch_state tp_info < 2 ^ 32 ->
  (touch_state tp_info <> lasttouchmode st -> g_anc_data_live st = true) ->
  exists st',
    anc_opticalfp_tp_handler P tp_info st = Ret 0 st' /\
    tp_handler_times P (S n) tp_info st = Ret 0 st' /\
    lasttouchmode st' = touch_state tp_info /\
    (touch_state tp_info = lasttouchmode st -> st' = st) /\
    (touch_state tp_info <> lasttouchmode st ->
     exists evs,
       ktrace st' =
         ktrace st ++
         Ev_pm_wakeup_event (fp_wakelock (g_anc_data st))
           (msecs_to_jiffies P ANC_WAKELOCK_HOLD_TIME) ::
         Ev_send_to_user [touch_code tp_info] :: evs) /\
    unicasts (ktrace st') =
      unicasts (ktrace st) ++
      (if touch_state tp_info =? lasttouchmode st then []
       else if buffers_ok P
                 (ktrace st ++
                  [Ev_pm_wakeup_event (fp_wakelock (g_anc_data st))
                     (msecs_to_jiffies P ANC_WAKELOCK_HOLD_TIME);
                   Ev_send_to_user [touch_code tp_info]]) 1
            then [(gp_netlink_sock st, [touch_code tp_info], USER_PORT)]
            else []).
Proof.
  intros Hrange Hctx. pose proof (to_uint_small _ Hrange) as Hu.
  destruct (Z.eq_dec (touch_state tp_info) (lasttouchmode st)) as [Heq|Hne].
  - exists st. rewrite <- Hu in Heq at 1.
    split; [now apply tp_handler_steady|].
    split; [now apply tp_handler_times_steady|].
    split; [congruence|]. split; [reflexivity|].
    split; [intros Hne; congruence|].
    replace (touch_state tp_info =? lasttouchmode st) with true
      by (symmetry; apply Z.eqb_eq; congruence).
    now rewrite app_nil_r.
  - destruct (tp_handler_change P tp_info st)
      as (st' & evs & Hrun & Hl & _ & _ & _ & _ & Htr & _ & Huni);
      [congruence | now apply Hctx |].
    exists st'. split; [assumption|].
    split.
    + destruct n as [|n]; [assumption|].
      change (tp_handler_times P (S (S n)) tp_info st)
        with (bind (anc_opticalfp_tp_handler P tp_info)
                   (fun _ => tp_handler_times P (S n) tp_info) st).
      unfold bind. rewrite Hrun. apply tp_handler_times_steady. congruence.
    + split; [congruence|]. split; [contradiction|].
      split; [intros _; exists evs; exact Htr|].
      replace (touch_state tp_info =? lasttouchmode st) with false
        by (symmetry; now apply Z.eqb_neq).
      rewrite Htr, unicasts_app. cbn [unicasts]. now rewrite Huni.
Qed.

(** The theorem at work: three touch-down reports in a row while the finger
    was up. *)
Lemma tp_handler_dedup_witness :
  exists st',
    anc_opticalfp_tp_handler P_ok {| touch_state := 1 |} st_up = Ret 0 st' /\
    tp_handler_times P_ok 3 {| touch_state := 1 |} st_up = Ret 0 st' /\
    lasttouchmode st' = 1 /\
    (1 = 0 -> st' = st_up) /\
    (1 <> 0 ->
     exists evs,
       ktrace st' = Ev_pm_wakeup_event 5 100 :: Ev_send_to_user [4] :: evs) /\
    unicasts (ktrace st') = [(Some 9, [4], USER_PORT)].
Proof.
  apply (tp_handler_dedup P_ok {| touch_state := 1 |} st_up 2).
  - cbn. lia.
  - reflexivity.
Defined.

(** The claim as it was worded fails when the kernel has no buffer to give:
    the finger goes down, nothing reaches [netlink_unicast], neither at the
    first report nor at the two that repeat it, and the state is recorded as
    reported. *)
Lemma tp_handler_dedup_counterexample :
  lasttouchmode st_up = 0 /\
  anc_opticalfp_tp_handler P_no_buffer {| touch_state := 1 |} st_up =
    Ret 0 (final_state (anc_opticalfp_tp_handler P_no_buffer {| touch_state := 1 |} st_up)) /\
  lasttouchmode
    (final_state (anc_opticalfp_tp_handler P_no_buffer {| touch_state := 1 |} st_up)) = 1 /\
  unicasts (trace_of (anc_opticalfp_tp_handler P_no_buffer {| touch_state := 1 |} st_up)) = [] /\
  unicasts (trace_of (tp_handler_times P_no_buffer 3 {| touch_state := 1 |} st_up)) = [].
Proof. repeat split. Qed.

(** ** Payloads *)


Lemma cstr_bytes_length (s : string) : List.length (cstr_bytes s) = strlen s.
Proof.
  induction s as [|c s IH]; [reflexivity|].
  cbn. destruct (uchar c =? 0); cbn; [reflexivity | now rewrite IH].
Qed.

Lemma firstn_whole {A} (l : list A) : firstn (Z.to_nat (Z.of_nat (List.length l))) l = l.
Proof. rewrite Nat2Z.id. apply firstn_all. Qed.

(** The receive callback takes up the text of a message at the text's own
    length, whatever that is. *)
Lemma receive_echoes_text (P : platform) (p_sk_buffer : sk_buff) (st : kstate) :
  nlmsg_total_size 0 <= skb_len p_sk_buffer ->
  (0 < strlen (nlmsg_text p_sk_buffer))%nat ->
  exists st' evs,
    netlink_receive_message P p_sk_buffer st = Ret tt st' /\
    ktrace st' =
      ktrace st ++ Ev_send_to_user (cstr_bytes (nlmsg_text p_sk_buffer)) :: evs /\
    sent_messages evs = [].
Proof.
  intros Hskb Hlen. unfold netlink_receive_message, bind.
  replace (skb_len p_sk_buffer >=? nlmsg_total_size 0) with true
    by (symmetry; apply Z.geb_le; exact Hskb).
  destruct (send_to_user_run P (cstr_bytes (nlmsg_text p_sk_buffer))
              (Z.of_nat (strlen (nlmsg_text p_sk_buffer))) st)
    as (rc & st' & evs & Hrun & _ & Htr & Hsent & _); [lia|].
  rewrite Hrun. exists st', evs. split; [reflexivity|].
  rewrite <- cstr_bytes_length, firstn_whole in Htr. now split.
Qed.



(** On the wire: the attribute write hands four bytes to [netlink_unicast],
    the handlers one. *)
Example wire_payloads :
  unicasts (trace_of (forward_netlink_event_set K0 P_ok "irq"%string 4 st_up))
    = [(Some 9, [1; 0; 0; 0], USER_PORT)] /\
  unicasts (trace_of (anc_opticalfp_tp_handler P_ok {| touch_state := 1 |} st_up))
    = [(Some 9, [4], USER_PORT)] /\
  unicasts (trace_of (anc_fb_state_chg_callback K0 P_ok 2 (Some {| data := Some 1 |}) st_up))
    = [(Some 9, [2], USER_PORT)].
Proof. repeat split. Qed.

(** ** Lifetime of the endpoint *)

Lemma netlink_exit_run (st : kstate) :
  exists st',
    anc_netlink_exit st = Ret tt st' /\
    gp_netlink_sock st' = None /\
    g_anc_data st' = g_anc_data st /\
    lasttouchmode st' = lasttouchmode st /\
    ktrace st' =
      ktrace st ++
      match gp_netlink_sock st with
      | Some h => [Ev_netlink_kernel_release h]
      | None => []
      end.
Proof.
  unfold anc_netlink_exit. kernel_run.
  destruct (gp_netlink_sock st) as [h|] eqn:Hsk; kernel_run.
  - eexists. split; [reflexivity|]. cbn. repeat split.
  - exists st. rewrite app_nil_r. repeat split. assumption.
Qed.

(** A failed [anc_netlink_init] leaves the handle null. *)
Lemma netlink_init_run (P : platform) (st : kstate) :
  exists st',
    anc_netlink_init P st =
      Ret (match on_netlink_kernel_create P (ktrace st) with
           | Some _ => 0
           | None => - ENOMEM
           end) st' /\
    gp_netlink_sock st' = on_netlink_kernel_create P (ktrace st).
Proof.
  unfold anc_netlink_init. kernel_run.
  destruct (on_netlink_kernel_create P (ktrace st)); eexists; split; reflexivity.
Qed.

(** C3 (as amended).  Teardown releases the endpoint when there is one and
    leaves the handle null; with a null handle -- before a successful init,
    or after teardown -- a send is not turned away for that: unless its
    buffer is null or empty, or cannot be set up, it reaches
    [netlink_unicast], with the null handle and never with a handle that
    was released. *)
Theorem send_without_endpoint
  (P : platform) (s0 st : kstate) (p_buffer : option (list Z)) (len : Z) :
  gp_netlink_sock st = None ->
  (exists s1,
     anc_netlink_exit s0 = Ret tt s1 /\
     gp_netlink_sock s1 = None /\
     ktrace s1 =
       ktrace s0 ++
       match gp_netlink_sock s0 with
       | Some h => [Ev_netlink_kernel_release h]
       | None => []
       end) /\
  (exists rc st' evs,
     netlink_send_message_to_user P p_buffer len st = Ret rc st' /\
     gp_netlink_sock st' = None /\
     ktrace st' = ktrace st ++ evs /\
     unicasts evs =
       match p_buffer with
       | Some buf =>
           if (len >? 0) &&
              buffers_ok P (ktrace st ++ [Ev_send_to_user (firstn (Z.to_nat len) buf)])
                (to_u16 len)
           then [(None, firstn (Z.to_nat (to_u16 len)) buf, USER_PORT)]
           else []
       | None => []
       end).
Proof.
  intros Hnull. split.
  - destruct (netlink_exit_run s0) as (s1 & Hrun & Hsk & _ & _ & Htr).
    exists s1. auto.
  - destruct p_buffer as [buf|].
    + destruct (len >? 0) eqn:Hlen.
      * apply Z.gtb_lt in Hlen.
        destruct (send_to_user_run P buf len st Hlen)
          as (rc & st' & evs & Hrun & Hg & Htr & _ & _ & Huni).
        destruct Hg as (_ & Hsk & _).
        exists rc, st', (Ev_send_to_user (firstn (Z.to_nat len) buf) :: evs).
        rewrite Hnull in Huni, Hsk. cbn [andb unicasts]. auto.
      * exists (- EINVAL), st, []. unfold netlink_send_message_to_user.
        rewrite Hlen, app_nil_r. auto.
    + exists (- EINVAL), st, []. rewrite app_nil_r. auto.
Qed.

(** Teardown of a live endpoint, then a touch-down message sent at module
    load time, before any init. *)
Lemma send_without_endpoint_witness :
  (exists s1,
     anc_netlink_exit st_up = Ret tt s1 /\
     gp_netlink_sock s1 = None /\
     ktrace s1 = [Ev_netlink_kernel_release 9]) /\
  (exists rc st' evs,
     netlink_send_message_to_user P_ok (Some [4]) 1 st_load = Ret rc st' /\
     gp_netlink_sock st' = None /\
     ktrace st' = evs /\
     unicasts evs = [(None, [4], USER_PORT)]).
Proof.
  apply (send_without_endpoint P_ok st_up st_load (Some [4]) 1).
  reflexivity.
Defined.

(** C3 fails as stated: a touch report that arrives before the channel was
    initialised, and one that arrives after init and teardown, are both handed
    to [netlink_unicast], with a null endpoint handle. *)
Lemma send_without_endpoint_counterexample :
  gp_netlink_sock st_load = None /\
  unicasts (trace_of (anc_opticalfp_tp_handler P_ok {| touch_state := 1 |} st_load))
    = [(None, [4], USER_PORT)] /\
  gp_netlink_sock
    (final_state ((anc_netlink_init P_ok ;;; anc_netlink_exit) st_load)) = None /\
  unicasts
    (trace_of ((anc_netlink_init P_ok ;;; anc_netlink_exit ;;;
                anc_opticalfp_tp_handler P_ok {| touch_state := 1 |}) st_load))
    = [(None, [4], USER_PORT)].
Proof. repeat split. Qed.

(** ** Pin selection and reset *)

Lemma pctl_names_nul_free : forallb nul_free pctl_names = true.
Proof. reflexivity. Qed.

(** [select_pin_ctl] selects the state of the first table name that is a
    prefix of [name]. *)
Lemma select_pin_ctl_at (P : platform) (name : string) (st : kstate) :
  select_pin_ctl P name st =
    if prefix "anc_reset_reset"%string name then
      pinctrl_select_state P (fingerprint_pinctrl (g_anc_data st))
        (nth 0%nat (pinctrl_state (g_anc_data st)) 0) st
    else if prefix "anc_reset_active"%string name then
      pinctrl_select_state P (fingerprint_pinctrl (g_anc_data st))
        (nth 1%nat (pinctrl_state (g_anc_data st)) 0) st
    else Ret (- EINVAL) st.
Proof.
  unfold select_pin_ctl, pctl_names. cbn [select_pin_ctl_from].
  rewrite !strncmp_prefix by reflexivity.
  destruct (prefix "anc_reset_reset"%string name); [reflexivity|].
  destruct (prefix "anc_reset_active"%string name); reflexivity.
Qed.

(** C9.  A name of which no entry of the pin-state table is a prefix is not
    found: [select_pin_ctl] returns -EINVAL and leaves the state, trace
    included, as it was, so [pinctrl_select_state] is not called. *)
Theorem select_pin_ctl_not_found (P : platform) (name : string) (st : kstate) :
  existsb (fun n => prefix n name) pctl_names = false ->
  select_pin_ctl P name st = Ret (- EINVAL) st.
Proof.
  intros H. rewrite select_pin_ctl_at. cbn [existsb pctl_names] in H.
  apply orb_false_iff in H. destruct H as [H0 H].
  apply orb_false_iff in H. destruct H as [H1 _].
  now rewrite H0, H1.
Qed.

(** "anc_reset" is a prefix of both table names, but neither is a prefix of
    it. *)
Lemma select_pin_ctl_not_found_witness :
  select_pin_ctl P_ok "anc_reset"%string st_up = Ret (- EINVAL) st_up.
Proof.
  apply (select_pin_ctl_not_found P_ok "anc_reset"%string st_up).
  reflexivity.
Defined.

Lemma select_reset_reset (P : platform) (st : kstate) :
  select_pin_ctl P "anc_reset_reset"%string st =
    pinctrl_select_state P (fingerprint_pinctrl (g_anc_data st))
      (nth 0%nat (pinctrl_state (g_anc_data st)) 0) st.
Proof. rewrite select_pin_ctl_at. reflexivity. Qed.

Lemma select_reset_active (P : platform) (st : kstate) :
  select_pin_ctl P "anc_reset_active"%string st =
    pinctrl_select_state P (fingerprint_pinctrl (g_anc_data st))
      (nth 1%nat (pinctrl_state (g_anc_data st)) 0) st.
Proof. rewrite select_pin_ctl_at. reflexivity. Qed.

(** The run of [anc_reset]. *)
Lemma anc_reset_run (P : platform) (st : kstate) :
  exists rc1 rc2 st',
    anc_reset P st = Ret (Z.lor rc1 rc2) st' /\
    ktrace st' =
      ktrace st ++
      [ Ev_mutex_lock;
        Ev_pinctrl_select_state (fingerprint_pinctrl (g_anc_data st))
          (nth 0%nat (pinctrl_state (g_anc_data st)) 0) rc1;
        Ev_mdelay 10;
        Ev_pinctrl_select_state (fingerprint_pinctrl (g_anc_data st))
          (nth 1%nat (pinctrl_state (g_anc_data st)) 0) rc2;
        Ev_mdelay 10;
        Ev_mutex_unlock ].
Proof.
  unfold anc_reset.
  cbv [bind mutex_lock mutex_unlock mdelay emit modify ret].
  rewrite select_reset_reset. kernel_run.
  rewrite select_reset_active. kernel_run.
  eexists _, _, _. split; [reflexivity|]. cbn [ktrace].
  rewrite <- !app_assoc. reflexivity.
Qed.

(** C4.  [anc_reset] takes the mutex, selects the first pin state, waits
    10 ms, selects the second pin state, waits 10 ms and drops the mutex,
    whatever the two selections answer; it returns the bitwise or of the two
    answers. *)
Theorem anc_reset_two_transitions (P : platform) (st : kstate) :
  exists rc1 rc2 st',
    anc_reset P st = Ret (Z.lor rc1 rc2) st' /\
    same_globals st st' /\
    ktrace st' =
      ktrace st ++
      [ Ev_mutex_lock;
        Ev_pinctrl_select_state (fingerprint_pinctrl (g_anc_data st))
          (nth 0%nat (pinctrl_state (g_anc_data st)) 0) rc1;
        Ev_mdelay 10;
        Ev_pinctrl_select_state (fingerprint_pinctrl (g_anc_data st))
          (nth 1%nat (pinctrl_state (g_anc_data st)) 0) rc2;
        Ev_mdelay 10;
        Ev_mutex_unlock ] /\
    rc1 = on_pinctrl_select_state P (ktrace st ++ [Ev_mutex_lock])
            (fingerprint_pinctrl (g_anc_data st))
            (nth 0%nat (pinctrl_state (g_anc_data st)) 0).
Proof.
  unfold anc_reset.
  cbv [bind mutex_lock mutex_unlock mdelay emit modify ret].
  rewrite select_reset_reset. kernel_run.
  rewrite select_reset_active. kernel_run.
  eexists _, _, _. split; [reflexivity|].
  split; [repeat split|]. cbn [ktrace].
  split; [|reflexivity].
  rewrite <- !app_assoc. reflexivity.
Qed.

(** ** Display notifier *)

Lemma set_fb_black_then_send
  (P : platform) (v : Z) (ev : ANC_NETLINK_EVENT_TYPE) (st : kstate) :
  exists st' evs,
    (set_fb_black v ;;;
     netlink_send_message_to_user P (Some (bytes_of_int 1 (event_value ev))) 1 ;;;
     ret tt) st = Ret tt st' /\
    fb_black (g_anc_data st') = v /\
    lasttouchmode st' = lasttouchmode st /\
    gp_netlink_sock st' = gp_netlink_sock st /\
    ktrace st' = ktrace st ++ Ev_send_to_user [event_value ev mod 256] :: evs /\
    sent_messages evs = [] /\
    unicasts evs =
      if buffers_ok P (ktrace st ++ [Ev_send_to_user [event_value ev mod 256]]) 1
      then [(gp_netlink_sock st, [event_value ev mod 256], USER_PORT)]
      else [].
Proof.
  kernel_run.
  match goal with
  | |- context [netlink_send_message_to_user P (Some ?b) ?l ?s] =>
      destruct (send_to_user_run P b l s)
        as (rc & st2 & evs & Hrun & Hg & Htr & Hsent & _ & Huni);
      [lia | rewrite Hrun]
  end.
  destruct Hg as (Hd & Hsk & Hl & _). cbn in Hd, Hsk, Hl, Htr.
  change (to_u16 1) with 1 in Huni.
  cbn [ktrace gp_netlink_sock bytes_of_int firstn Z.to_nat Pos.to_nat Pos.iter_op Nat.add]
    in Huni.
  exists st2, evs. split; [reflexivity|].
  rewrite Hd. cbn. repeat split; assumption.
Qed.

(** C5 (as amended).  On an early-blank event whose payload is there, the
    blank code read from it decides: powerdown sets [fb_black] to 1 and
    tries to send screen-off, unblank sets it to 0 and tries to send
    screen-on, any other code sends nothing and leaves [fb_black] alone.
    The one-byte message reaches [netlink_unicast], once, exactly when the
    kernel grants the message buffer; when it does not, nothing is sent and
    the flag is set all the same. *)
Theorem fb_callback_early_blank
  (K : header_consts) (P : platform) (w : Z) (st : kstate) :
  MSM_DRM_EARLY_EVENT_BLANK K <> MSM_DRM_ONSCREENFINGERPRINT_EVENT K ->
  MSM_DRM_BLANK_POWERDOWN K <> MSM_DRM_BLANK_UNBLANK K ->
  exists st',
    anc_fb_state_chg_callback K P (MSM_DRM_EARLY_EVENT_BLANK K)
      (Some {| data := Some w |}) st = Ret NOTIFY_OK st' /\
    unicasts (ktrace st') =
      unicasts (ktrace st) ++
      (if to_uint w =? MSM_DRM_BLANK_POWERDOWN K
       then if buffers_ok P
                 (ktrace st ++ [Ev_send_to_user [event_value ANC_NETLINK_EVENT_SCR_OFF]]) 1
            then [(gp_netlink_sock st, [event_value ANC_NETLINK_EVENT_SCR_OFF], USER_PORT)]
            else []
       else if to_uint w =? MSM_DRM_BLANK_UNBLANK K
       then if buffers_ok P
                 (ktrace st ++ [Ev_send_to_user [event_value ANC_NETLINK_EVENT_SCR_ON]]) 1
            then [(gp_netlink_sock st, [event_value ANC_NETLINK_EVENT_SCR_ON], USER_PORT)]
            else []
       else []) /\
    fb_black (g_anc_data st') =
      (if to_uint w =? MSM_DRM_BLANK_POWERDOWN K then 1
       else if to_uint w =? MSM_DRM_BLANK_UNBLANK K then 0
       else fb_black (g_anc_data st)).
Proof.
  intros Hkind _. unfold anc_fb_state_chg_callback.
  replace (MSM_DRM_EARLY_EVENT_BLANK K =? MSM_DRM_ONSCREENFINGERPRINT_EVENT K)
    with false by (symmetry; now apply Z.eqb_neq).
  rewrite Z.eqb_refl. cbn [data]. unfold bind at 1.
  destruct (to_uint w =? MSM_DRM_BLANK_POWERDOWN K).
  - destruct (set_fb_black_then_send P 1 ANC_NETLINK_EVENT_SCR_OFF st)
      as (st' & evs & Hrun & Hfb & _ & _ & Htr & _ & Huni).
    rewrite Hrun. exists st'. split; [reflexivity|].
    rewrite Htr, unicasts_app. cbn [unicasts]. rewrite Huni.
    split; [reflexivity | assumption].
  - destruct (to_uint w =? MSM_DRM_BLANK_UNBLANK K).
    + destruct (set_fb_black_then_send P 0 ANC_NETLINK_EVENT_SCR_ON st)
        as (st' & evs & Hrun & Hfb & _ & _ & Htr & _ & Huni).
      rewrite Hrun. exists st'. split; [reflexivity|].
      rewrite Htr, unicasts_app. cbn [unicasts]. rewrite Huni.
      split; [reflexivity | assumption].
    + exists st. split; [reflexivity|]. rewrite app_nil_r. split; reflexivity.
Qed.

(** The display goes dark: blank code powerdown. *)
Lemma fb_callback_early_blank_witness :
  exists st',
    anc_fb_state_chg_callback K0 P_ok 2 (Some {| data := Some 1 |}) st_up
      = Ret NOTIFY_OK st' /\
    unicasts (ktrace st') = [(Some 9, [2], USER_PORT)] /\
    fb_black (g_anc_data st') = 1.
Proof.
  apply (fb_callback_early_blank K0 P_ok 1 st_up); cbn; lia.
Defined.

(** The claim as it was worded fails when the kernel has no buffer to give:
    the display goes dark, [fb_black] is set, and no screen-off message
    reaches [netlink_unicast]. *)
Lemma fb_callback_early_blank_counterexample :
  to_uint 1 = MSM_DRM_BLANK_POWERDOWN K0 /\
  anc_fb_state_chg_callback K0 P_no_buffer (MSM_DRM_EARLY_EVENT_BLANK K0)
    (Some {| data := Some 1 |}) st_up =
  Ret NOTIFY_OK
    (final_state
       (anc_fb_state_chg_callback K0 P_no_buffer (MSM_DRM_EARLY_EVENT_BLANK K0)
          (Some {| data := Some 1 |}) st_up)) /\
  fb_black
    (g_anc_data
       (final_state
          (anc_fb_state_chg_callback K0 P_no_buffer (MSM_DRM_EARLY_EVENT_BLANK K0)
             (Some {| data := Some 1 |}) st_up))) = 1 /\
  unicasts
    (trace_of
       (anc_fb_state_chg_callback K0 P_no_buffer (MSM_DRM_EARLY_EVENT_BLANK K0)
          (Some {| data := Some 1 |}) st_up)) = [].
Proof. repeat split. Qed.

(** C10.  On an on-screen-fingerprint event the handler reads the mode
    through [evdata] and [evdata->data] without testing either: a null
    [evdata], or a null [evdata->data], ends in a null dereference before
    anything else happens.  The early-blank branch tests both. *)
Theorem fb_callback_fingerprint_event_null
  (K : header_consts) (P : platform) (st : kstate) :
  anc_fb_state_chg_callback K P (MSM_DRM_ONSCREENFINGERPRINT_EVENT K) None st = Oops st /\
  anc_fb_state_chg_callback K P (MSM_DRM_ONSCREENFINGERPRINT_EVENT K)
    (Some {| data := None |}) st = Oops st.
Proof.
  unfold anc_fb_state_chg_callback. rewrite Z.eqb_refl. split; reflexivity.
Qed.

(** The early-blank branch with the same null pointers: nothing happens. *)
Lemma fb_callback_blank_null_payload
  (K : header_consts) (P : platform) (st : kstate) :
  MSM_DRM_EARLY_EVENT_BLANK K <> MSM_DRM_ONSCREENFINGERPRINT_EVENT K ->
  anc_fb_state_chg_callback K P (MSM_DRM_EARLY_EVENT_BLANK K) None st = Ret NOTIFY_OK st /\
  anc_fb_state_chg_callback K P (MSM_DRM_EARLY_EVENT_BLANK K)
    (Some {| data := None |}) st = Ret NOTIFY_OK st.
Proof.
  intros H. unfold anc_fb_state_chg_callback.
  replace (MSM_DRM_EARLY_EVENT_BLANK K =? MSM_DRM_ONSCREENFINGERPRINT_EVENT K)
    with false by (symmetry; now apply Z.eqb_neq).
  rewrite Z.eqb_refl. split; reflexivity.
Qed.

(** X15.  The fingerprint branch with both pointers valid reads the mode as
    one byte.  Mode "UI ready" tries to send the ui-ready byte, which
    reaches [netlink_unicast], once, exactly when the kernel grants the
    message buffer; any other mode -- "disappear" or an unknown one -- sends
    nothing and leaves the state as it is.  The handler returns NOTIFY_OK in
    every case, and never touches the driver's variables. *)
Lemma fb_callback_fingerprint_event
  (K : header_consts) (P : platform) (w : Z) (st : kstate) :
  exists st',
    anc_fb_state_chg_callback K P (MSM_DRM_ONSCREENFINGERPRINT_EVENT K)
      (Some {| data := Some w |}) st = Ret NOTIFY_OK st' /\
    same_globals st st' /\
    (w mod 256 <> ANC_UI_READY K -> st' = st) /\
    unicasts (ktrace st') =
      unicasts (ktrace st) ++
      (if w mod 256 =? ANC_UI_READY K
       then if buffers_ok P
                 (ktrace st ++ [Ev_send_to_user [event_value ANC_NETLINK_EVENT_UI_READY]]) 1
            then [(gp_netlink_sock st, [event_value ANC_NETLINK_EVENT_UI_READY], USER_PORT)]
            else []
       else []).
Proof.
  unfold anc_fb_state_chg_callback. rewrite Z.eqb_refl.
  cbv [bind deref]. cbn [data].
  destruct (w mod 256 =? ANC_UI_READY K) eqn:Hw.
  - destruct (send_to_user_run P
                (bytes_of_int 1 (event_value ANC_NETLINK_EVENT_UI_READY)) 1 st)
      as (rc & st' & evs & Hrun & Hg & Htr & _ & _ & Huni); [lia|].
    rewrite Hrun. exists st'. split; [reflexivity|]. split; [assumption|].
    split; [intros Hne; apply Z.eqb_eq in Hw; contradiction|].
    rewrite Htr, unicasts_app. cbn [unicasts]. now rewrite Huni.
  - exists st. rewrite app_nil_r.
    destruct (negb (w mod 256 =? ANC_UI_DISAPPREAR K)); repeat split.
Qed.

(** The fingerprint UI is ready, on a kernel that refuses nothing. *)
Example fb_callback_ui_ready :
  unicasts
    (trace_of
       (anc_fb_state_chg_callback K0 P_ok (MSM_DRM_ONSCREENFINGERPRINT_EVENT K0)
          (Some {| data := Some (ANC_UI_READY K0) |}) st_up))
  = [(Some 9, [event_value ANC_NETLINK_EVENT_UI_READY], USER_PORT)].
Proof. reflexivity. Qed.

(** ** Module load *)

(** C8 (as amended).  When the sensor-type query answers neither
    FP_JIIOV_0302 nor FP_JIIOV_0301, [ancfp_init] registers nothing -- the
    two queries are all it does -- and returns the error -EINVAL. *)
Theorem ancfp_init_other_sensor (K : header_consts) (P : platform) (st : kstate) :
  on_get_fpsensor_type P (ktrace st) <> FP_JIIOV_0302 K ->
  on_get_fpsensor_type P
    (ktrace st ++ [Ev_get_fpsensor_type (on_get_fpsensor_type P (ktrace st))])
    <> FP_JIIOV_0301 K ->
  exists st',
    ancfp_init K P st = Ret (- EINVAL) st' /\
    same_globals st st' /\
    ktrace st' =
      ktrace st ++
      [ Ev_get_fpsensor_type (on_get_fpsensor_type P (ktrace st));
        Ev_get_fpsensor_type
          (on_get_fpsensor_type P
             (ktrace st ++ [Ev_get_fpsensor_type (on_get_fpsensor_type P (ktrace st))])) ].
Proof.
  intros H1 H2. unfold ancfp_init. kernel_run.
  replace (FP_JIIOV_0302 K =? on_get_fpsensor_type P (ktrace st)) with false
    by (symmetry; apply Z.eqb_neq; congruence).
  kernel_run.
  match goal with
  | |- context [FP_JIIOV_0301 K =? ?t] =>
      replace (FP_JIIOV_0301 K =? t) with false
        by (symmetry; apply Z.eqb_neq; congruence)
  end.
  kernel_run. eexists. split; [reflexivity|]. cbn.
  split; [repeat split|]. now rewrite <- app_assoc.
Qed.

(** A sensor of type 3 where 21 and 22 are the JIIOV variants. *)
Lemma ancfp_init_other_sensor_witness :
  exists st',
    ancfp_init K0 P_other_sensor st_load = Ret (- EINVAL) st' /\
    same_globals st_load st' /\
    ktrace st' = [Ev_get_fpsensor_type 3; Ev_get_fpsensor_type 3].
Proof.
  apply (ancfp_init_other_sensor K0 P_other_sensor st_load); cbn; lia.
Defined.

(** C8 fails as stated: with a sensor that is not a JIIOV one, module load
    does not return success; it returns -22. *)
Lemma ancfp_init_other_sensor_counterexample :
  on_get_fpsensor_type P_other_sensor [] = 3 /\
  FP_JIIOV_0301 K0 = 21 /\
  FP_JIIOV_0302 K0 = 22 /\
  (exists st', ancfp_init K0 P_other_sensor st_load = Ret (-22) st') /\
  -22 <> 0.
Proof.
  repeat split; try reflexivity.
  - eexists. reflexivity.
  - discriminate.
Qed.

(** ** Power *)

Lemma vreg_setup_ldo (P : platform) (enable : bool) :
  vreg_setup P ANC_VREG_LDO_NAME enable =
    vreg_setup_entry P 0
      {| vreg_config_name := ANC_VREG_LDO_NAME;
         vmin := 3300000; vmax := 3300000; ua_load := 150000 |}
      ANC_VREG_LDO_NAME enable.
Proof. reflexivity. Qed.

Lemma power_onoff_regulator (P : platform) (power_onoff : Z) (st : kstate) :
  anc_gpio_pwr_flag st <> 1 ->
  anc_power_onoff P power_onoff st =
    (vreg_setup P ANC_VREG_LDO_NAME (negb (power_onoff =? 0)) ;;; ret tt) st.
Proof.
  intros H. unfold anc_power_onoff. unfold bind at 1, gets.
  apply Z.eqb_neq in H. now rewrite H.
Qed.

(** Splits a run along the answers of the kernel on which it branches. *)
Ltac split_run :=
  repeat (kernel_run;
          match goal with
          | |- context [match ?x with inl _ => _ | inr _ => _ end] => destruct x eqn:?
          | |- context [match ?x with Some _ => _ | None => _ end] => destruct x eqn:?
          | |- context [if ?c then _ else _] => destruct c eqn:?
          end);
  kernel_run.

Lemma list_set_head {A} (l : list A) (v d : A) :
  nth 0 (list_set l 0 v) d = match l with [] => d | _ => v end.
Proof. destruct l; reflexivity. Qed.

(** C7.  In regulator mode, starting with no handle: when [regulator_get]
    succeeds and [regulator_set_voltage] then fails, [vreg_setup] returns at
    once; the handle stays in the table although [regulator_enable] was
    never called. *)
Theorem power_on_set_voltage_failure (P : platform) (h : Z) (st : kstate) :
  anc_gpio_pwr_flag st <> 1 ->
  vreg (g_anc_data st) = [None] ->
  on_regulator_get P (ktrace st) ANC_VREG_LDO_NAME = inl h ->
  on_regulator_count_voltages P
    (ktrace st ++ [Ev_regulator_get ANC_VREG_LDO_NAME (inl h)]) h > 0 ->
  on_regulator_set_voltage P
    (ktrace st ++ [Ev_regulator_get ANC_VREG_LDO_NAME (inl h);
                   Ev_regulator_count_voltages h
                     (on_regulator_count_voltages P
                        (ktrace st ++ [Ev_regulator_get ANC_VREG_LDO_NAME (inl h)]) h)])
    h 3300000 3300000 <> 0 ->
  exists st' n rc,
    anc_power_onoff P 1 st = Ret tt st' /\
    vreg (g_anc_data st') = [Some h] /\
    ktrace st' =
      ktrace st ++
      [ Ev_regulator_get ANC_VREG_LDO_NAME (inl h);
        Ev_regulator_count_voltages h n;
        Ev_regulator_set_voltage h 3300000 3300000 rc ] /\
    rc <> 0 /\
    existsb is_enable (ktrace st') = existsb is_enable (ktrace st).
Proof.
  intros Hflag Hv Hget Hcnt Hset.
  rewrite power_onoff_regulator by assumption.
  unfold bind at 1. rewrite vreg_setup_ldo.
  unfold vreg_setup_entry. kernel_run. rewrite Hv. cbn [nth].
  change (negb (1 =? 0)) with true. cbv iota. kernel_run.
  rewrite Hget. kernel_run. rewrite Hv. cbn [list_set].
  replace (_ >? 0) with true by (symmetry; apply Z.gtb_lt; lia).
  kernel_run. rewrite <- !app_assoc. cbn [app].
  pose proof Hset as Hset'. apply Z.eqb_neq in Hset'. rewrite Hset'. kernel_run.
  eexists _, _, _. split; [reflexivity|]. cbn [g_anc_data vreg ktrace].
  split; [reflexivity|]. split; [reflexivity|]. split; [exact Hset|].
  rewrite existsb_app. cbn. apply orb_false_r.
Qed.

(** The failing run on a kernel whose [regulator_set_voltage] answers
    -EINVAL: handle 7 is kept, the regulator is not enabled. *)
Lemma power_on_set_voltage_failure_witness :
  exists st' n rc,
    anc_power_onoff P_set_voltage_fails 1 st_up = Ret tt st' /\
    vreg (g_anc_data st') = [Some 7] /\
    ktrace st' =
      [ Ev_regulator_get ANC_VREG_LDO_NAME (inl 7);
        Ev_regulator_count_voltages 7 n;
        Ev_regulator_set_voltage 7 3300000 3300000 rc ] /\
    rc <> 0 /\
    existsb is_enable (ktrace st') = false.
Proof.
  apply (power_on_set_voltage_failure P_set_voltage_fails 7 st_up).
  - cbn. lia.
  - reflexivity.
  - reflexivity.
  - cbn. lia.
  - cbn. lia.
Defined.

(** The path next to it: when [regulator_enable] itself fails, the handle is
    put back and the table entry cleared. *)
Lemma power_on_enable_failure (P : platform) (h : Z) (st : kstate) :
  anc_gpio_pwr_flag st <> 1 ->
  vreg (g_anc_data st) = [Some h] ->
  on_regulator_count_voltages P (ktrace st) h <= 0 ->
  on_regulator_set_load P
    (ktrace st ++
     [Ev_regulator_count_voltages h (on_regulator_count_voltages P (ktrace st) h)])
    h 150000 = 0 ->
  on_regulator_enable P
    (ktrace st ++
     [Ev_regulator_count_voltages h (on_regulator_count_voltages P (ktrace st) h);
      Ev_regulator_set_load h 150000 0])
    h <> 0 ->
  exists st' n rc,
    anc_power_onoff P 1 st = Ret tt st' /\
    vreg (g_anc_data st') = [None] /\
    ktrace st' =
      ktrace st ++
      [ Ev_regulator_count_voltages h n;
        Ev_regulator_set_load h 150000 0;
        Ev_regulator_enable h rc;
        Ev_regulator_put h ].
Proof.
  intros Hflag Hv Hcnt Hload Hen.
  rewrite power_onoff_regulator by assumption.
  unfold bind at 1. rewrite vreg_setup_ldo.
  unfold vreg_setup_entry. kernel_run. rewrite Hv. cbn [nth].
  change (negb (1 =? 0)) with true. cbv iota. kernel_run.
  replace (_ >? 0) with false by (symmetry; rewrite Z.gtb_ltb; apply Z.ltb_ge; lia).
  kernel_run. rewrite Hload. kernel_run.
  change (0 =? 0) with true. kernel_run. rewrite <- !app_assoc. cbn [app].
  apply Z.eqb_neq in Hen. rewrite Hen. kernel_run. rewrite Hv.
  eexists _, _, _. split; [reflexivity|]. cbn [g_anc_data vreg ktrace list_set].
  split; [reflexivity|]. rewrite <- !app_assoc. reflexivity.
Qed.

(** Power on never faults and keeps the power mode. *)
Lemma power_on_returns (P : platform) (st : kstate) :
  exists st',
    anc_power_onoff P 1 st = Ret tt st' /\
    anc_gpio_pwr_flag st' = anc_gpio_pwr_flag st.
Proof.
  unfold anc_power_onoff. rewrite vreg_setup_ldo. unfold vreg_setup_entry.
  change (negb (1 =? 0)) with true. cbv iota.
  split_run; eexists; split; reflexivity.
Qed.

(** Power off leaves no handle in the table. *)
Lemma power_off_releases (P : platform) (st : kstate) :
  anc_gpio_pwr_flag st <> 1 ->
  exists st',
    anc_power_onoff P 0 st = Ret tt st' /\
    vreg_at st' 0 = None.
Proof.
  intros Hflag. rewrite power_onoff_regulator by assumption.
  unfold bind at 1. rewrite vreg_setup_ldo. unfold vreg_setup_entry, vreg_at.
  change (negb (0 =? 0)) with false. cbv iota. kernel_run.
  destruct (nth 0 (vreg (g_anc_data st)) None) as [h|] eqn:Hv; kernel_run.
  - destruct (on_regulator_is_enabled P (ktrace st) h =? 0); kernel_run;
      (eexists; split; [reflexivity|]; cbn [g_anc_data vreg];
       rewrite list_set_head; now destruct (vreg (g_anc_data st))).
  - exists st. now split.
Qed.

(** Power on followed by power off leaves no handle acquired, on every path
    of the enable sequence. *)
Lemma power_cycle_releases (P : platform) (st : kstate) :
  anc_gpio_pwr_flag st <> 1 ->
  exists st',
    power_cycle P st = Ret tt st' /\
    vreg_at st' 0 = None.
Proof.
  intros Hflag. unfold power_cycle, bind.
  destruct (power_on_returns P st) as (st1 & Hon & Hf). rewrite Hon.
  apply power_off_releases. congruence.
Qed.

(** ** The mutex *)

(** C6.  The ioctl ANC_IOC_ENABLE_POWER reaches [anc_power_onoff] without
    taking the mutex: the first thing the call does is a power operation,
    and the call never locks or unlocks.  (ANC_IOC_DISABLE_POWER is written
    the same way.) *)
Theorem ioctl_enable_power_unlocked
  (K : header_consts) (P : platform) (arg : Z) (st : kstate) :
  _IOC_TYPE (ANC_IOC_ENABLE_POWER K) = ANC_IOC_MAGIC K ->
  ANC_IOC_ENABLE_POWER K <> ANC_IOC_RESET K ->
  exists st' e evs,
    anc_ioctl K P (ANC_IOC_ENABLE_POWER K) arg st = Ret 0 st' /\
    ktrace st' = ktrace st ++ e :: evs /\
    is_hw_op e = true /\
    existsb is_mutex_op (e :: evs) = false /\
    hw_ops_locked false (e :: evs) = false.
Proof.
  intros Hmagic Hreset. unfold anc_ioctl.
  rewrite Hmagic, Z.eqb_refl. cbn [negb].
  replace (ANC_IOC_ENABLE_POWER K =? ANC_IOC_RESET K) with false
    by (symmetry; now apply Z.eqb_neq).
  rewrite Z.eqb_refl.
  unfold anc_power_onoff. rewrite vreg_setup_ldo. unfold vreg_setup_entry.
  change (negb (1 =? 0)) with true. cbv iota.
  split_run;
    (eexists _, _, _; split; [reflexivity|]; cbn [ktrace];
     split; [rewrite <- ?app_assoc; cbn [app]; reflexivity|];
     repeat split).
Qed.

(** The ioctl numbered [_IO('a', 1)], in regulator mode. *)
Lemma ioctl_enable_power_unlocked_witness :
  exists st' e evs,
    anc_ioctl K0 P_ok (_IO 97 1) 0 st_up = Ret 0 st' /\
    ktrace st' = e :: evs /\
    is_hw_op e = true /\
    existsb is_mutex_op (e :: evs) = false /\
    hw_ops_locked false (e :: evs) = false.
Proof.
  apply (ioctl_enable_power_unlocked K0 P_ok 0 st_up).
  - reflexivity.
  - discriminate.
Defined.

(** The same power operation through the device_power attribute runs with
    the mutex held. *)
Lemma device_power_set_locked (P : platform) (buf : string) (count : Z) (st : kstate) :
  exists rc st' evs,
    device_power_set P buf count st = Ret rc st' /\
    ktrace st' = ktrace st ++ evs /\
    hw_ops_locked false evs = true.
Proof.
  unfold device_power_set, anc_power_onoff. rewrite !vreg_setup_ldo.
  unfold vreg_setup_entry.
  change (negb (1 =? 0)) with true. change (negb (0 =? 0)) with false. cbv iota.
  split_run;
    (eexists _, _, _; split; [reflexivity|]; cbn [ktrace];
     split; [rewrite <- ?app_assoc; cbn [app]; reflexivity|];
     reflexivity).
Qed.

(** So do pin selection through the pinctl_set attribute and the reset
    sequence, from the ioctl or from the hw_reset attribute. *)
Lemma pinctl_set_locked (P : platform) (buf : string) (count : Z) (st : kstate) :
  exists rc st' evs,
    pinctl_set P buf count st = Ret rc st' /\
    ktrace st' = ktrace st ++ evs /\
    hw_ops_locked false evs = true.
Proof.
  unfold pinctl_set. cbv [bind mutex_lock mutex_unlock emit modify ret].
  rewrite select_pin_ctl_at.
  split_run;
    (eexists _, _, _; split; [reflexivity|]; cbn [ktrace];
     split; [rewrite <- ?app_assoc; cbn [app]; reflexivity|];
     reflexivity).
Qed.

Lemma anc_reset_locked (P : platform) (st : kstate) :
  exists rc st' evs,
    anc_reset P st = Ret rc st' /\
    ktrace st' = ktrace st ++ evs /\
    hw_ops_locked false evs = true.
Proof.
  destruct (anc_reset_run P st) as (rc1 & rc2 & st' & Hrun & Htr).
  eexists _, st', _. split; [exact Hrun|]. split; [exact Htr|]. reflexivity.
Qed.

(** Neither power ioctl ever takes the mutex. *)
Lemma ioctl_power_never_locks (P : platform) (power_onoff : Z) (st : kstate) :
  exists st' evs,
    (anc_power_onoff P power_onoff ;;; ret 0) st = Ret 0 st' /\
    ktrace st' = ktrace st ++ evs /\
    existsb is_mutex_op evs = false.
Proof.
  unfold anc_power_onoff. rewrite vreg_setup_ldo. unfold vreg_setup_entry.
  split_run;
    (eexists _, _; split; [reflexivity|]; cbn [ktrace];
     split; [rewrite <- ?app_assoc; cbn [app];
             first [reflexivity | symmetry; apply app_nil_r]|];
     reflexivity).
Qed.

(** * More of the driver *)

(** ** Text commands *)

Lemma strncmp_zero_sym (n : nat) :
  forall a b, (strncmp a b n =? 0) = (strncmp b a n =? 0).
Proof.
  induction n as [|n IH]; intros a b; [reflexivity|].
  cbn [strncmp]. rewrite (Z.eqb_sym (cstr_head b) (cstr_head a)).
  destruct (cstr_head a =? cstr_head b) eqn:Hc.
  - apply Z.eqb_eq in Hc. rewrite <- Hc.
    destruct (cstr_head a =? 0); [reflexivity | apply IH].
  - apply Z.eqb_neq in Hc.
    replace (cstr_head a - cstr_head b =? 0) with false by (symmetry; apply Z.eqb_neq; lia).
    symmetry. apply Z.eqb_neq. lia.
Qed.

(** [!strncmp(buf, token, strlen(token))]: the token is a prefix of the text. *)
Lemma strncmp_token (token : string) :
  nul_free token = true ->
  forall buf, (strncmp buf token (strlen token) =? 0) = prefix token buf.
Proof.
  intros H buf. rewrite strncmp_zero_sym. now apply strncmp_prefix.
Qed.

(** X1.  The receive callback ignores a message shorter than a netlink
    header, and one whose text is empty.  Otherwise it tries to send the text
    back, and what reaches [netlink_unicast] -- when the kernel grants the
    buffer -- are the first [strlen mod 65536] bytes of the text, the length
    being cut to a uint16_t on the way: the whole text when it is shorter
    than 65536 bytes, less than that when it is not.  The driver's globals
    stay as they are. *)
Theorem receive_message_echo (P : platform) (p_sk_buffer : sk_buff) (st : kstate) :
  exists st',
    netlink_receive_message P p_sk_buffer st = Ret tt st' /\
    same_globals st st' /\
    unicasts (ktrace st') =
      unicasts (ktrace st) ++
      (if (skb_len p_sk_buffer <? nlmsg_total_size 0) ||
          (strlen (nlmsg_text p_sk_buffer) =? 0)%nat
       then []
       else if buffers_ok P
                 (ktrace st ++ [Ev_send_to_user (cstr_bytes (nlmsg_text p_sk_buffer))])
                 (Z.of_nat (strlen (nlmsg_text p_sk_buffer)) mod 65536)
            then [(gp_netlink_sock st,
                   firstn (Z.to_nat (Z.of_nat (strlen (nlmsg_text p_sk_buffer)) mod 65536))
                     (cstr_bytes (nlmsg_text p_sk_buffer)),
                   USER_PORT)]
            else []) /\
    (Z.of_nat (strlen (nlmsg_text p_sk_buffer)) < 65536 ->
     firstn (Z.to_nat (Z.of_nat (strlen (nlmsg_text p_sk_buffer)) mod 65536))
       (cstr_bytes (nlmsg_text p_sk_buffer))
     = cstr_bytes (nlmsg_text p_sk_buffer)).
Proof.
  unfold netlink_receive_message.
  set (msg := nlmsg_text p_sk_buffer).
  assert (Hwhole :
    Z.of_nat (strlen msg) < 65536 ->
    firstn (Z.to_nat (Z.of_nat (strlen msg) mod 65536)) (cstr_bytes msg) = cstr_bytes msg).
  { intros Hlt. rewrite Z.mod_small by lia.
    rewrite <- cstr_bytes_length. apply firstn_whole. }
  rewrite Z.geb_leb, (Z.ltb_antisym (nlmsg_total_size 0) (skb_len p_sk_buffer)).
  destruct (nlmsg_total_size 0 <=? skb_len p_sk_buffer); cbn [negb orb].
  2:{ exists st. rewrite app_nil_r. repeat split. exact Hwhole. }
  unfold bind.
  destruct (strlen msg) as [|k] eqn:Hk.
  - exists st. cbn. rewrite app_nil_r. repeat split.
    intros _. apply Hwhole. reflexivity.
  - destruct (send_to_user_run P (cstr_bytes msg) (Z.of_nat (S k)) st)
      as (rc & st' & evs & Hrun & Hg & Htr & _ & _ & Huni); [lia|].
    rewrite Hrun. exists st'. split; [reflexivity|]. split; [assumption|].
    rewrite <- Hk in Htr, Huni, Hwhole |- *.
    rewrite <- cstr_bytes_length, firstn_whole in Htr, Huni.
    rewrite cstr_bytes_length in Huni.
    unfold to_u16 in Huni. change (2 ^ 16) with 65536 in Huni.
    split; [|exact Hwhole].
    rewrite Htr, unicasts_app. cbn [unicasts].
    replace (strlen msg =? 0)%nat with false by (rewrite Hk; reflexivity).
    now rewrite Huni.
Qed.

(** A text of three bytes, echoed whole. *)
Example receive_message_echo_abc :
  unicasts
    (trace_of (netlink_receive_message P_ok
                 {| skb_len := 20; nlmsg_text := "abc"%string |} st_up))
  = [(Some 9, [97; 98; 99], USER_PORT)].
Proof. reflexivity. Qed.

(** X2.  [netlink_send_message] takes its length as a uint16_t: it allocates
    for, and sends, the first [length mod 65536] bytes.  It returns -ENOMEM
    without calling [netlink_unicast] when [nlmsg_new] fails or when
    [nlmsg_put] fails (the buffer is then freed); otherwise it returns what
    [netlink_unicast], called once for port 100, answered. *)
Theorem netlink_send_message_outcome
  (P : platform) (buf : list Z) (len : Z) (st : kstate) :
  exists rc st',
    netlink_send_message P buf len st = Ret rc st' /\
    same_globals st st' /\
    ktrace st' =
      ktrace st ++
      Ev_nlmsg_new (len mod 65536) (on_nlmsg_new P (ktrace st) (len mod 65536)) ::
      (if on_nlmsg_new P (ktrace st) (len mod 65536) then
         Ev_nlmsg_put (len mod 65536)
           (on_nlmsg_put P (ktrace st ++ [Ev_nlmsg_new (len mod 65536) true])
              (len mod 65536)) ::
         (if on_nlmsg_put P (ktrace st ++ [Ev_nlmsg_new (len mod 65536) true])
               (len mod 65536)
          then [Ev_netlink_unicast (gp_netlink_sock st)
                  (firstn (Z.to_nat (len mod 65536)) buf) USER_PORT rc]
          else [Ev_nlmsg_free])
       else []) /\
    (if buffers_ok P (ktrace st) (len mod 65536)
     then unicasts (ktrace st') =
            unicasts (ktrace st) ++
            [(gp_netlink_sock st, firstn (Z.to_nat (len mod 65536)) buf, USER_PORT)]
     else rc = - ENOMEM /\ unicasts (ktrace st') = unicasts (ktrace st)).
Proof.
  unfold netlink_send_message, buffers_ok, to_u16.
  change (2 ^ 16) with 65536. kernel_run.
  destruct (on_nlmsg_new P (ktrace st) (len mod 65536)) eqn:Hnew; kernel_run.
  - destruct (on_nlmsg_put P (ktrace st ++ [Ev_nlmsg_new (len mod 65536) true])
                (len mod 65536)) eqn:Hput; kernel_run.
    + eexists _, _. split; [reflexivity|]. cbn [ktrace andb].
      split; [repeat split|]. rewrite <- !app_assoc. cbn [app].
      split; [reflexivity|]. rewrite unicasts_app. reflexivity.
    + eexists _, _. split; [reflexivity|]. cbn [ktrace andb].
      split; [repeat split|]. rewrite <- !app_assoc. cbn [app].
      split; [reflexivity|]. split; [reflexivity|].
      rewrite unicasts_app. cbn. apply app_nil_r.
  - eexists _, _. split; [reflexivity|]. cbn [ktrace andb].
    split; [repeat split|]. split; [reflexivity|]. split; [reflexivity|].
    rewrite unicasts_app. cbn. apply app_nil_r.
Qed.

(** The lookup loop tests the names in table order, each as a prefix of the
    text. *)
Lemma netlink_event_lookup_step
  (name : string) (ev : ANC_NETLINK_EVENT_TYPE)
  (rest : list (string * ANC_NETLINK_EVENT_TYPE)) (p_buffer : string) :
  nul_free name = true ->
  netlink_event_lookup ((name, ev) :: rest) p_buffer =
    if prefix name p_buffer then ev else netlink_event_lookup rest p_buffer.
Proof.
  intros H. cbn [netlink_event_lookup]. now rewrite strncmp_token.
Qed.

(** X3.  The event names are matched as prefixes, and no name of the table is
    a prefix of another: a text that starts with a name of the table --
    the name itself, or the name followed by a newline or anything else --
    selects the event of that name. *)
Theorem netlink_event_lookup_by_prefix
  (name : string) (ev : ANC_NETLINK_EVENT_TYPE) (tail : string) :
  In (name, ev) netlink_event_map ->
  netlink_event_lookup netlink_event_map (name ++ tail)%string = ev /\
  ev <> ANC_NETLINK_EVENT_INVALID.
Proof.
  intros H. unfold netlink_event_map in H. cbn [In] in H.
  repeat (destruct H as [H|H]; [inversion H; subst; split; [reflexivity | discriminate]|]).
  destruct H.
Qed.

(** A write of "touch_up" with the newline that echo appends. *)
Lemma netlink_event_lookup_by_prefix_witness :
  netlink_event_lookup netlink_event_map
    ("touch_up" ++ String (ascii_of_nat 10) EmptyString)%string
    = ANC_NETLINK_EVENT_TOUCH_UP /\
  ANC_NETLINK_EVENT_TOUCH_UP <> ANC_NETLINK_EVENT_INVALID.
Proof.
  apply (netlink_event_lookup_by_prefix "touch_up"%string ANC_NETLINK_EVENT_TOUCH_UP).
  cbn. tauto.
Defined.

(** X4.  A write to netlink_event that starts with no name of the event
    table is refused with -EINVAL; nothing is sent and the state is
    untouched. *)
Theorem forward_netlink_event_unsupported
  (K : header_consts) (P : platform) (p_buffer : string) (count : Z) (st : kstate) :
  names_event p_buffer = false ->
  forward_netlink_event_set K P p_buffer count st = Ret (- EINVAL) st.
Proof.
  unfold names_event, netlink_event_map. cbn [existsb fst]. intros H.
  repeat (apply orb_false_iff in H; let H1 := fresh "Hp" in destruct H as [H1 H]).
  unfold forward_netlink_event_set, netlink_event_map.
  rewrite !netlink_event_lookup_step by reflexivity.
  rewrite Hp, Hp0, Hp1, Hp2, Hp3, Hp4, Hp5, Hp6. reflexivity.
Qed.

(** "Touch" with a capital letter is no event name. *)
Lemma forward_netlink_event_unsupported_witness :
  forward_netlink_event_set K0 P_ok "Touch_up"%string 8 st_up = Ret (- EINVAL) st_up.
Proof.
  apply (forward_netlink_event_unsupported K0 P_ok "Touch_up"%string 8 st_up).
  reflexivity.
Defined.

(** ** Attribute writes *)

(** X5.  A write to hw_reset that starts with "reset" runs the reset
    sequence and returns [count] exactly when both pin selections answered
    0, and the or of the two answers otherwise; any other text is refused
    with -EINVAL before the mutex or a pin is touched. *)
Theorem hw_reset_set_outcome (P : platform) (buf : string) (count : Z) (st : kstate) :
  exists rc st',
    hw_reset_set P buf count st = Ret rc st' /\
    if prefix "reset"%string buf then
      exists rc1 rc2,
        rc = (if (rc1 =? 0) && (rc2 =? 0) then count else Z.lor rc1 rc2) /\
        ktrace st' =
          ktrace st ++
          [ Ev_mutex_lock;
            Ev_pinctrl_select_state (fingerprint_pinctrl (g_anc_data st))
              (nth 0%nat (pinctrl_state (g_anc_data st)) 0) rc1;
            Ev_mdelay 10;
            Ev_pinctrl_select_state (fingerprint_pinctrl (g_anc_data st))
              (nth 1%nat (pinctrl_state (g_anc_data st)) 0) rc2;
            Ev_mdelay 10;
            Ev_mutex_unlock ]
    else rc = - EINVAL /\ st' = st.
Proof.
  unfold hw_reset_set. rewrite strncmp_token by reflexivity.
  destruct (prefix "reset"%string buf).
  - destruct (anc_reset_run P st) as (rc1 & rc2 & st' & Hrun & Htr).
    unfold bind. rewrite Hrun. cbv [ret].
    eexists _, st'. split; [reflexivity|]. exists rc1, rc2. split; [|exact Htr].
    destruct (Z.lor rc1 rc2 =? 0) eqn:Hor.
    + apply Z.eqb_eq, Z.lor_eq_0_iff in Hor. destruct Hor as [-> ->]. reflexivity.
    + cbn [negb]. apply Z.eqb_neq in Hor.
      destruct (rc1 =? 0) eqn:H1; [|reflexivity].
      destruct (rc2 =? 0) eqn:H2; [|reflexivity].
      apply Z.eqb_eq in H1, H2. subst. now elim Hor.
  - exists (- EINVAL), st. split; [reflexivity|]. split; reflexivity.
Qed.

(** X6.  A write to pinctl_set always takes the mutex and drops it again.
    In between it selects the pin state of the first table name that is a
    prefix of the text, and returns [count] when the selection answered 0 and
    the answer otherwise; with no such name it selects nothing and returns
    -EINVAL. *)
Theorem pinctl_set_outcome (P : platform) (buf : string) (count : Z) (st : kstate) :
  exists rc st',
    pinctl_set P buf count st = Ret rc st' /\
    same_globals st st' /\
    if prefix "anc_reset_reset"%string buf || prefix "anc_reset_active"%string buf then
      exists sel,
        ktrace st' =
          ktrace st ++
          [ Ev_mutex_lock;
            Ev_pinctrl_select_state (fingerprint_pinctrl (g_anc_data st))
              (nth (if prefix "anc_reset_reset"%string buf then 0%nat else 1%nat)
                 (pinctrl_state (g_anc_data st)) 0) sel;
            Ev_mutex_unlock ] /\
        rc = (if sel =? 0 then count else sel)
    else
      ktrace st' = ktrace st ++ [Ev_mutex_lock; Ev_mutex_unlock] /\ rc = - EINVAL.
Proof.
  unfold pinctl_set. cbv [bind mutex_lock mutex_unlock emit modify ret].
  rewrite select_pin_ctl_at. kernel_run.
  destruct (prefix "anc_reset_reset"%string buf); cbn [orb]; kernel_run.
  - eexists _, _. split; [reflexivity|]. split; [repeat split|].
    eexists. cbn [ktrace]. rewrite <- !app_assoc. split; [reflexivity|].
    now destruct (_ =? 0).
  - destruct (prefix "anc_reset_active"%string buf); kernel_run.
    + eexists _, _. split; [reflexivity|]. split; [repeat split|].
      eexists. cbn [ktrace]. rewrite <- !app_assoc. split; [reflexivity|].
      now destruct (_ =? 0).
    + eexists _, _. split; [reflexivity|]. split; [repeat split|].
      cbn [ktrace]. rewrite <- !app_assoc. split; reflexivity.
Qed.

(** A power operation returns, and does nothing but hardware operations. *)
Lemma power_onoff_run (P : platform) (power_onoff : Z) (st : kstate) :
  exists st' evs,
    anc_power_onoff P power_onoff st = Ret tt st' /\
    ktrace st' = ktrace st ++ evs /\
    forallb is_hw_op evs = true /\
    gp_netlink_sock st' = gp_netlink_sock st /\
    lasttouchmode st' = lasttouchmode st /\
    anc_gpio_pwr_flag st' = anc_gpio_pwr_flag st.
Proof.
  unfold anc_power_onoff. rewrite vreg_setup_ldo. unfold vreg_setup_entry.
  split_run;
    (eexists _, _; split; [reflexivity|]; cbn [ktrace];
     split; [rewrite <- ?app_assoc; cbn [app];
             first [reflexivity | symmetry; apply app_nil_r]|];
     repeat split).
Qed.

Lemma hw_ops_are_not_mutex_ops (evs : list event) :
  forallb is_hw_op evs = true -> existsb is_mutex_op evs = false.
Proof.
  induction evs as [|e evs IH]; [reflexivity|].
  cbn. intros H. apply andb_true_iff in H. destruct H as [He H].
  rewrite (IH H). now destruct e.
Qed.

(** X7.  A write to device_power takes the mutex, runs power on for a text
    that starts with "on", power off for one that starts with "off" -- the
    very operation [anc_power_onoff] performs, with 1 and with 0, from the
    state in which the mutex was taken -- and drops the mutex.  It returns
    [count] for both tokens whatever the power operation did -- a failed
    regulator call is not reported -- and -EINVAL, with nothing done under
    the mutex, for any other text. *)
Theorem device_power_set_outcome (P : platform) (buf : string) (count : Z) (st : kstate) :
  exists st1 evs,
    (if prefix "on"%string buf
     then anc_power_onoff P 1 (kpush st Ev_mutex_lock) = Ret tt st1
     else if prefix "off"%string buf
     then anc_power_onoff P 0 (kpush st Ev_mutex_lock) = Ret tt st1
     else st1 = kpush st Ev_mutex_lock) /\
    device_power_set P buf count st =
      Ret (if prefix "on"%string buf || prefix "off"%string buf
           then count else - EINVAL) (kpush st1 Ev_mutex_unlock) /\
    ktrace st1 = ktrace st ++ Ev_mutex_lock :: evs /\
    forallb is_hw_op evs = true.
Proof.
  unfold device_power_set. rewrite !strncmp_token by reflexivity.
  cbv [bind mutex_lock mutex_unlock emit modify ret].
  destruct (prefix "on"%string buf); [|destruct (prefix "off"%string buf)]; cbn [orb].
  - destruct (power_onoff_run P 1 (kpush st Ev_mutex_lock))
      as (st1 & evs & Hrun & Htr & Hhw & _).
    exists st1, evs. split; [exact Hrun|].
    change (anc_power_onoff P 1 (kpush st Ev_mutex_lock) = Ret tt st1) in Hrun.
    unfold kpush in Hrun at 1. rewrite Hrun.
    split; [reflexivity|]. cbn [ktrace kpush] in Htr.
    rewrite Htr, <- app_assoc. split; [reflexivity | assumption].
  - destruct (power_onoff_run P 0 (kpush st Ev_mutex_lock))
      as (st1 & evs & Hrun & Htr & Hhw & _).
    exists st1, evs. split; [exact Hrun|].
    unfold kpush in Hrun at 1. rewrite Hrun.
    split; [reflexivity|]. cbn [ktrace kpush] in Htr.
    rewrite Htr, <- app_assoc. split; [reflexivity | assumption].
  - exists (kpush st Ev_mutex_lock), []. repeat split.
Qed.

(** "on" from a state without regulator handle: the five regulator calls of
    power on lie between lock and unlock; "off" from the same state finds
    nothing to switch off. *)
Example device_power_set_on_off :
  trace_of (device_power_set P_ok "on"%string 2 st_up) =
    [ Ev_mutex_lock;
      Ev_regulator_get "ldo"%string (inl 7);
      Ev_regulator_count_voltages 7 1;
      Ev_regulator_set_voltage 7 3300000 3300000 0;
      Ev_regulator_set_load 7 150000 0;
      Ev_regulator_enable 7 0;
      Ev_mutex_unlock ] /\
  trace_of (device_power_set P_ok "off"%string 3 st_up) =
    [ Ev_mutex_lock; Ev_mutex_unlock ].
Proof. split; reflexivity. Qed.

(** ** Control node and touch flag *)

(** X8.  The ioctl first checks the command's type field: a command of
    another family is refused with -ENOTTY; a command of the driver's family
    that is none of its four is refused with -EINVAL.  Neither changes the
    state. *)
Theorem anc_ioctl_rejects (K : header_consts) (P : platform) (cmd arg : Z) (st : kstate) :
  (_IOC_TYPE cmd <> ANC_IOC_MAGIC K \/
   (cmd <> ANC_IOC_RESET K /\ cmd <> ANC_IOC_ENABLE_POWER K /\
    cmd <> ANC_IOC_DISABLE_POWER K /\ cmd <> ANC_IOC_CLEAR_FLAG K)) ->
  anc_ioctl K P cmd arg st =
    Ret (if _IOC_TYPE cmd =? ANC_IOC_MAGIC K then - EINVAL else - ENOTTY) st.
Proof.
  intros H. unfold anc_ioctl.
  destruct (_IOC_TYPE cmd =? ANC_IOC_MAGIC K) eqn:Hm; cbn [negb]; [|reflexivity].
  destruct H as [H | (H1 & H2 & H3 & H4)].
  - apply Z.eqb_eq in Hm. contradiction.
  - apply Z.eqb_neq in H1, H2, H3, H4. now rewrite H1, H2, H3, H4.
Qed.

(** Command 9 of family 'a' is not one of the driver's; command 0 of family
    'b' is of another family. *)
Lemma anc_ioctl_rejects_witness :
  anc_ioctl K0 P_ok (_IO 97 9) 0 st_up = Ret (- EINVAL) st_up /\
  anc_ioctl K0 P_ok (_IO 98 0) 0 st_up = Ret (- ENOTTY) st_up.
Proof.
  split.
  - apply (anc_ioctl_rejects K0 P_ok (_IO 97 9) 0 st_up).
    right. repeat split; discriminate.
  - apply (anc_ioctl_rejects K0 P_ok (_IO 98 0) 0 st_up).
    left. discriminate.
Defined.

Lemma ioctl_clear_flag_run (K : header_consts) (P : platform) (arg : Z) (st : kstate) :
  _IOC_TYPE (ANC_IOC_CLEAR_FLAG K) = ANC_IOC_MAGIC K ->
  ANC_IOC_CLEAR_FLAG K <> ANC_IOC_RESET K ->
  ANC_IOC_CLEAR_FLAG K <> ANC_IOC_ENABLE_POWER K ->
  ANC_IOC_CLEAR_FLAG K <> ANC_IOC_DISABLE_POWER K ->
  exists st',
    anc_ioctl K P (ANC_IOC_CLEAR_FLAG K) arg st = Ret 0 st' /\
    lasttouchmode st' = 0 /\
    g_anc_data st' = g_anc_data st /\
    gp_netlink_sock st' = gp_netlink_sock st /\
    ktrace st' = ktrace st /\
    g_anc_data_live st' = g_anc_data_live st /\
    anc_gpio_pwr_flag st' = anc_gpio_pwr_flag st.
Proof.
  intros Hm H1 H2 H3. unfold anc_ioctl.
  rewrite Hm, Z.eqb_refl. cbn [negb].
  apply Z.eqb_neq in H1, H2, H3. rewrite H1, H2, H3, Z.eqb_refl.
  kernel_run. eexists. split; [reflexivity|]. repeat split.
Qed.

(** X9.  ANC_IOC_CLEAR_FLAG sets [lasttouchmode] to 0 and does nothing
    else: no call, no other variable touched.  So the touch report that
    comes next is handled as a change exactly when its state is not 0: a
    report with another state is handed to [netlink_unicast] (when the
    kernel grants the buffer) even when it repeats the state reported last,
    and a report of state 0 is swallowed even when the state reported last
    was a touch. *)
Theorem ioctl_clear_flag_rearms
  (K : header_consts) (P : platform) (arg : Z) (tp_info : fp_underscreen_info)
  (st : kstate) :
  _IOC_TYPE (ANC_IOC_CLEAR_FLAG K) = ANC_IOC_MAGIC K ->
  ANC_IOC_CLEAR_FLAG K <> ANC_IOC_RESET K ->
  ANC_IOC_CLEAR_FLAG K <> ANC_IOC_ENABLE_POWER K ->
  ANC_IOC_CLEAR_FLAG K <> ANC_IOC_DISABLE_POWER K ->
  0 <= touch_state tp_info < 2 ^ 32 ->
  (touch_state tp_info <> 0 -> g_anc_data_live st = true) ->
  exists st1 st',
    anc_ioctl K P (ANC_IOC_CLEAR_FLAG K) arg st = Ret 0 st1 /\
    lasttouchmode st1 = 0 /\
    g_anc_data st1 = g_anc_data st /\
    g_anc_data_live st1 = g_anc_data_live st /\
    gp_netlink_sock st1 = gp_netlink_sock st /\
    anc_gpio_pwr_flag st1 = anc_gpio_pwr_flag st /\
    ktrace st1 = ktrace st /\
    anc_opticalfp_tp_handler P tp_info st1 = Ret 0 st' /\
    lasttouchmode st' = touch_state tp_info /\
    unicasts (ktrace st') =
      unicasts (ktrace st) ++
      (if touch_state tp_info =? 0 then []
       else if buffers_ok P
                 (ktrace st ++
                  [Ev_pm_wakeup_event (fp_wakelock (g_anc_data st))
                     (msecs_to_jiffies P ANC_WAKELOCK_HOLD_TIME);
                   Ev_send_to_user [touch_code tp_info]]) 1
            then [(gp_netlink_sock st, [touch_code tp_info], USER_PORT)]
            else []).
Proof.
  intros Hm H1 H2 H3 Hrange Hctx.
  destruct (ioctl_clear_flag_run K P arg st Hm H1 H2 H3)
    as (st1 & Hrun & Hl & Hd & Hsk & Htr & Hlv & Hf).
  pose proof (to_uint_small _ Hrange) as Hu.
  exists st1.
  destruct (Z.eq_dec (touch_state tp_info) 0) as [Heq|Hne].
  - exists st1. rewrite tp_handler_steady by congruence.
    repeat split; try assumption; try congruence.
    rewrite Heq, Htr. cbn. now rewrite app_nil_r.
  - destruct (tp_handler_change P tp_info st1)
      as (st' & evs & Hrun' & Hl' & _ & _ & _ & _ & Htr' & _ & Huni);
      [congruence | rewrite Hlv; now apply Hctx |].
    exists st'. repeat split; try assumption; try congruence.
    replace (touch_state tp_info =? 0) with false by (symmetry; now apply Z.eqb_neq).
    rewrite Htr', unicasts_app. cbn [unicasts].
    rewrite Huni, Htr, Hd, Hsk. reflexivity.
Qed.

(** The finger is down and was reported down; after the flag is cleared the
    same report is sent again. *)
Lemma ioctl_clear_flag_rearms_witness :
  exists st1 st',
    anc_ioctl K0 P_ok (_IO 97 20) 0
      {| g_anc_data := bound_data; g_anc_data_live := true;
         gp_netlink_sock := Some 9; lasttouchmode := 1;
         anc_gpio_pwr_flag := 0; ktrace := [] |} = Ret 0 st1 /\
    lasttouchmode st1 = 0 /\
    g_anc_data st1 = bound_data /\
    g_anc_data_live st1 = true /\
    gp_netlink_sock st1 = Some 9 /\
    anc_gpio_pwr_flag st1 = 0 /\
    ktrace st1 = [] /\
    anc_opticalfp_tp_handler P_ok {| touch_state := 1 |} st1 = Ret 0 st' /\
    lasttouchmode st' = 1 /\
    unicasts (ktrace st') = [(Some 9, [4], USER_PORT)].
Proof.
  apply (ioctl_clear_flag_rearms K0 P_ok 0 {| touch_state := 1 |}
           {| g_anc_data := bound_data; g_anc_data_live := true;
              gp_netlink_sock := Some 9; lasttouchmode := 1;
              anc_gpio_pwr_flag := 0; ktrace := [] |}).
  - reflexivity.
  - discriminate.
  - discriminate.
  - discriminate.
  - cbn. lia.
  - reflexivity.
Defined.

(** ** Regulators, beyond the failure paths *)

(** X10.  Power off in regulator mode: with no handle held it does nothing;
    with a handle it asks [regulator_is_enabled], disables the regulator when
    the answer is not 0 (a negative error code counts), and in every case
    puts the handle and clears the table entry. *)
Theorem power_off_sequence (P : platform) (st : kstate) :
  anc_gpio_pwr_flag st <> 1 ->
  exists st',
    anc_power_onoff P 0 st = Ret tt st' /\
    vreg_at st' 0 = None /\
    ktrace st' =
      ktrace st ++
      match vreg_at st 0 with
      | Some h =>
          Ev_regulator_is_enabled h (on_regulator_is_enabled P (ktrace st) h) ::
          (if on_regulator_is_enabled P (ktrace st) h =? 0 then []
           else [Ev_regulator_disable h]) ++
          [Ev_regulator_put h]
      | None => []
      end.
Proof.
  intros Hflag. rewrite power_onoff_regulator by assumption.
  unfold bind at 1. rewrite vreg_setup_ldo. unfold vreg_setup_entry, vreg_at.
  change (negb (0 =? 0)) with false. cbv iota. kernel_run.
  destruct (nth 0 (vreg (g_anc_data st)) None) as [h|] eqn:Hv; kernel_run.
  - destruct (on_regulator_is_enabled P (ktrace st) h =? 0); kernel_run;
      (eexists; split; [reflexivity|]; cbn [g_anc_data vreg ktrace];
       split; [rewrite list_set_head; now destruct (vreg (g_anc_data st))|];
       rewrite <- ?app_assoc; reflexivity).
  - exists st. rewrite app_nil_r. repeat split. assumption.
Qed.

(** Power off with handle 7 held and the regulator on. *)
Lemma power_off_sequence_witness :
  exists st',
    anc_power_onoff P_ok 0
      {| g_anc_data :=
           {| fingerprint_pinctrl := 1; pinctrl_state := [10; 11]; vreg := [Some 7];
              fp_wakelock := 5; pwr_gpio := 0; rst_gpio := 3; fb_black := 0 |};
         g_anc_data_live := true;
         gp_netlink_sock := Some 9; lasttouchmode := 0; anc_gpio_pwr_flag := 0;
         ktrace := [] |} = Ret tt st' /\
    vreg_at st' 0 = None /\
    ktrace st' =
      [Ev_regulator_is_enabled 7 1; Ev_regulator_disable 7; Ev_regulator_put 7].
Proof.
  apply (power_off_sequence P_ok
           {| g_anc_data :=
                {| fingerprint_pinctrl := 1; pinctrl_state := [10; 11]; vreg := [Some 7];
                   fp_wakelock := 5; pwr_gpio := 0; rst_gpio := 3; fb_black := 0 |};
              g_anc_data_live := true;
              gp_netlink_sock := Some 9; lasttouchmode := 0; anc_gpio_pwr_flag := 0;
              ktrace := [] |}).
  cbn. lia.
Defined.

(** X11.  Power on in regulator mode with a handle already held does not call
    [regulator_get] again: it goes on with the handle of the table. *)
Theorem power_on_keeps_handle (P : platform) (h : Z) (st : kstate) :
  anc_gpio_pwr_flag st <> 1 ->
  vreg_at st 0 = Some h ->
  exists st' n evs,
    anc_power_onoff P 1 st = Ret tt st' /\
    ktrace st' = ktrace st ++ Ev_regulator_count_voltages h n :: evs /\
    existsb is_regulator_get evs = false.
Proof.
  intros Hflag Hv. rewrite power_onoff_regulator by assumption.
  unfold bind at 1. rewrite vreg_setup_ldo. unfold vreg_setup_entry.
  unfold vreg_at in Hv. kernel_run. rewrite Hv.
  change (negb (1 =? 0)) with true. cbv iota.
  split_run;
    (eexists _, _, _; split; [reflexivity|]; cbn [ktrace];
     split; [rewrite <- ?app_assoc; cbn [app]; reflexivity|];
     reflexivity).
Qed.

(** A second power on after a successful one. *)
Lemma power_on_keeps_handle_witness :
  exists st' n evs,
    anc_power_onoff P_ok 1
      {| g_anc_data :=
           {| fingerprint_pinctrl := 1; pinctrl_state := [10; 11]; vreg := [Some 7];
              fp_wakelock := 5; pwr_gpio := 0; rst_gpio := 3; fb_black := 0 |};
         g_anc_data_live := true;
         gp_netlink_sock := Some 9; lasttouchmode := 0; anc_gpio_pwr_flag := 0;
         ktrace := [] |} = Ret tt st' /\
    ktrace st' = Ev_regulator_count_voltages 7 n :: evs /\
    existsb is_regulator_get evs = false.
Proof.
  apply (power_on_keeps_handle P_ok 7
           {| g_anc_data :=
                {| fingerprint_pinctrl := 1; pinctrl_state := [10; 11]; vreg := [Some 7];
                   fp_wakelock := 5; pwr_gpio := 0; rst_gpio := 3; fb_black := 0 |};
              g_anc_data_live := true;
              gp_netlink_sock := Some 9; lasttouchmode := 0; anc_gpio_pwr_flag := 0;
              ktrace := [] |}).
  - cbn. lia.
  - reflexivity.
Defined.

(** X12.  Power on in regulator mode from no handle, when every regulator
    call succeeds: the handle is acquired under the name "ldo", the voltage
    window 3.3 V .. 3.3 V is set (the regulator can set voltages), the load
    150000 uA is set, the regulator is enabled, in this order, and the handle
    is kept in the table. *)
Theorem power_on_success (P : platform) (h : Z) (st : kstate) :
  anc_gpio_pwr_flag st <> 1 ->
  vreg (g_anc_data st) = [None] ->
  on_regulator_get P (ktrace st) ANC_VREG_LDO_NAME = inl h ->
  on_regulator_count_voltages P
    (ktrace st ++ [Ev_regulator_get ANC_VREG_LDO_NAME (inl h)]) h > 0 ->
  on_regulator_set_voltage P
    (ktrace st ++ [Ev_regulator_get ANC_VREG_LDO_NAME (inl h);
                   Ev_regulator_count_voltages h
                     (on_regulator_count_voltages P
                        (ktrace st ++ [Ev_regulator_get ANC_VREG_LDO_NAME (inl h)]) h)])
    h 3300000 3300000 = 0 ->
  on_regulator_set_load P
    (ktrace st ++ [Ev_regulator_get ANC_VREG_LDO_NAME (inl h);
                   Ev_regulator_count_voltages h
                     (on_regulator_count_voltages P
                        (ktrace st ++ [Ev_regulator_get ANC_VREG_LDO_NAME (inl h)]) h);
                   Ev_regulator_set_voltage h 3300000 3300000 0])
    h 150000 = 0 ->
  on_regulator_enable P
    (ktrace st ++ [Ev_regulator_get ANC_VREG_LDO_NAME (inl h);
                   Ev_regulator_count_voltages h
                     (on_regulator_count_voltages P
                        (ktrace st ++ [Ev_regulator_get ANC_VREG_LDO_NAME (inl h)]) h);
                   Ev_regulator_set_voltage h 3300000 3300000 0;
                   Ev_regulator_set_load h 150000 0])
    h = 0 ->
  exists st' n,
    anc_power_onoff P 1 st = Ret tt st' /\
    vreg (g_anc_data st') = [Some h] /\
    ktrace st' =
      ktrace st ++
      [ Ev_regulator_get ANC_VREG_LDO_NAME (inl h);
        Ev_regulator_count_voltages h n;
        Ev_regulator_set_voltage h 3300000 3300000 0;
        Ev_regulator_set_load h 150000 0;
        Ev_regulator_enable h 0 ].
Proof.
  intros Hflag Hv Hget Hcnt Hset Hload Hen.
  rewrite power_onoff_regulator by assumption.
  unfold bind at 1. rewrite vreg_setup_ldo.
  unfold vreg_setup_entry. kernel_run. rewrite Hv. cbn [nth].
  change (negb (1 =? 0)) with true. cbv iota. kernel_run.
  rewrite Hget. kernel_run. rewrite Hv. cbn [list_set].
  replace (_ >? 0) with true by (symmetry; apply Z.gtb_lt; lia).
  kernel_run. rewrite <- !app_assoc. cbn [app].
  rewrite Hset. change (0 =? 0) with true. kernel_run.
  rewrite <- !app_assoc. cbn [app]. rewrite Hload.
  change (0 =? 0) with true. kernel_run.
  rewrite <- !app_assoc. cbn [app]. rewrite Hen.
  change (0 =? 0) with true. kernel_run.
  eexists _, _. split; [reflexivity|]. cbn [g_anc_data vreg ktrace].
  split; [reflexivity|]. rewrite <- ?app_assoc. reflexivity.
Qed.

(** The first power on of the probe, on a kernel in which all succeeds. *)
Lemma power_on_success_witness :
  exists st' n,
    anc_power_onoff P_ok 1 st_up = Ret tt st' /\
    vreg (g_anc_data st') = [Some 7] /\
    ktrace st' =
      [ Ev_regulator_get ANC_VREG_LDO_NAME (inl 7);
        Ev_regulator_count_voltages 7 n;
        Ev_regulator_set_voltage 7 3300000 3300000 0;
        Ev_regulator_set_load 7 150000 0;
        Ev_regulator_enable 7 0 ].
Proof.
  apply (power_on_success P_ok 7 st_up); cbn; try reflexivity; lia.
Defined.

(** X13.  [vreg_setup] with a name of which "ldo" is not a prefix finds no
    regulator: it returns -EINVAL and calls nothing, enabling or disabling. *)
Theorem vreg_setup_unknown_name
  (P : platform) (name : string) (enable : bool) (st : kstate) :
  prefix ANC_VREG_LDO_NAME name = false ->
  vreg_setup P name enable st = Ret (- EINVAL) st.
Proof.
  intros H. unfold vreg_setup, vreg_conf. cbn [vreg_setup_from vreg_config_name].
  rewrite strncmp_prefix by reflexivity. now rewrite H.
Qed.

Lemma vreg_setup_unknown_name_witness :
  vreg_setup P_ok "vdd"%string true st_up = Ret (- EINVAL) st_up.
Proof.
  apply (vreg_setup_unknown_name P_ok "vdd"%string true st_up). reflexivity.
Defined.

(** ** Module load, display events *)



(** The display notifier ignores every event that is neither the
    fingerprint event nor the early-blank event: it returns NOTIFY_OK and
    leaves the state alone, whatever the event data are (null included). *)
Lemma fb_callback_other_events
  (K : header_consts) (P : platform) (val : Z) (evdata : option msm_drm_notifier)
  (st : kstate) :
  val <> MSM_DRM_ONSCREENFINGERPRINT_EVENT K ->
  val <> MSM_DRM_EARLY_EVENT_BLANK K ->
  anc_fb_state_chg_callback K P val evdata st = Ret NOTIFY_OK st.
Proof.
  intros H1 H2. unfold anc_fb_state_chg_callback.
  apply Z.eqb_neq in H1, H2. now rewrite H1, H2.
Qed.

(** The late blank event (1 in the usual numbering), with no data. *)
Lemma fb_callback_other_events_witness :
  anc_fb_state_chg_callback K0 P_ok 1 None st_up = Ret NOTIFY_OK st_up.
Proof.
  apply (fb_callback_other_events K0 P_ok 1 None st_up); discriminate.
Defined.

(** ** Bind and unbind *)

(** Unfolds the bind monad and its kernel calls, then the run-time model. *)
Ltac bind_run :=
  cbv [bbind bret bgets bmodify bemit kernel_call bpush runs_to lift
       set_dev_class set_dev_num set_anc_major_num set_g_anc_data_fresh
       set_anc_gpio_pwr_flag set_rst_gpio set_pwr_gpio set_fingerprint_pinctrl
       set_pinctrl_state set_fp_wakelock
       devm_kzalloc class_create register_chrdev_region alloc_chrdev_region
       device_create cdev_init cdev_add mutex_init of_property_read_bool
       of_get_named_gpio devm_gpio_request gpio_direction_output
       devm_pinctrl_get pinctrl_lookup_state wakeup_source_register
       msm_drm_register_client sysfs_create_group sysfs_remove_group
       mutex_destroy msm_drm_unregister_client wakeup_source_unregister
       cdev_del device_destroy unregister_chrdev_region class_destroy
       devm_kfree platform_driver_unregister];
  kernel_run;
  cbn [kernel g_anc_data_set dev_class dev_num anc_major_num btrace fst snd
       g_anc_data gp_netlink_sock lasttouchmode anc_gpio_pwr_flag ktrace
       fingerprint_pinctrl pinctrl_state vreg fp_wakelock pwr_gpio rst_gpio
       fb_black negb];
  rewrite ?skipn_all; cbn [map]; rewrite ?app_nil_r.

Lemma acquired_app (a b : list bind_event) :
  acquired (a ++ b) = acquired a ++ acquired b.
Proof.
  induction a as [|e a IH]; [reflexivity|].
  destruct e; cbn [app acquired]; rewrite ?IH; try reflexivity;
    match goal with |- context [if ?c then _ else _] => destruct c end; reflexivity.
Qed.

Lemma released_app (a b : list bind_event) :
  released (a ++ b) = released a ++ released b.
Proof.
  induction a as [|e a IH]; [reflexivity|].
  destruct e; cbn [app released]; rewrite ?IH; reflexivity.
Qed.

Lemma setup_events_hold_nothing (evs : list bind_event) :
  forallb is_setup_event evs = true ->
  acquired evs = [] /\ released evs = [] /\
  existsb is_group_created evs = false /\ existsb is_devm_kfree evs = false.
Proof.
  induction evs as [|e evs IH]; [repeat split|].
  cbn [forallb]. intros H. apply andb_true_iff in H. destruct H as [He H].
  destruct (IH H) as (Ha & Hr & Hg & Hk).
  destruct e; try discriminate He; cbn; auto.
Qed.

Lemma kernel_events_hold_nothing (evs : list event) :
  acquired (map Be_kernel evs) = [] /\
  released (map Be_kernel evs) = [] /\
  existsb is_group_created (map Be_kernel evs) = false /\
  existsb is_devm_kfree (map Be_kernel evs) = false.
Proof. induction evs as [|e evs IH]; [repeat split|]. cbn. exact IH. Qed.

Lemma set_rst_gpio_quiet : quiet_store set_rst_gpio.
Proof. intros v k. eexists. repeat split. Qed.

Lemma set_pwr_gpio_quiet : quiet_store set_pwr_gpio.
Proof. intros v k. eexists. repeat split. Qed.

Lemma request_named_gpio_run
  (Q : bind_platform) (label : string) (store : Z -> M unit) (s : bstate) :
  quiet_store store ->
  exists rc s' evs,
    anc_request_named_gpio Q label store s = BRet rc s' /\
    btrace s' = btrace s ++ evs /\
    forallb is_setup_event evs = true /\
    anc_gpio_pwr_flag (kernel s') = anc_gpio_pwr_flag (kernel s) /\
    g_anc_data_set s' = g_anc_data_set s /\
    pinctrl_state (g_anc_data (kernel s')) = pinctrl_state (g_anc_data (kernel s)).
Proof.
  intros Hstore. unfold anc_request_named_gpio.
  cbv [bbind kernel_call bret bgets of_get_named_gpio bemit bmodify]. cbn [btrace].
  destruct (on_of_get_named_gpio Q (btrace s) label <? 0).
  - eexists _, _, [_]. split; [reflexivity|]. repeat split.
  - unfold lift at 1. cbn [kernel].
    destruct (Hstore (on_of_get_named_gpio Q (btrace s) label) (kernel s))
      as (k' & Hk & Htr & Hflag & Hpins).
    rewrite Hk. cbv [devm_gpio_request bbind kernel_call bgets bemit bmodify bret].
    cbn [btrace kernel g_anc_data_set dev_class dev_num anc_major_num].
    rewrite Htr, skipn_all. cbn [map]. rewrite app_nil_r.
    match goal with |- context [if negb ?c then _ else _] => destruct c end;
      cbn [negb];
      (eexists _, _, [_; _]; split; [reflexivity|]; cbn [btrace kernel];
       rewrite <- !app_assoc; repeat split; assumption).
Qed.

(** The look-up loop over the two pin-state names. *)
Lemma gpio_init_states_run (Q : bind_platform) (s : bstate) :
  exists rc s' evs,
    anc_gpio_init_states Q 0 pctl_names s = BRet rc s' /\
    btrace s' = btrace s ++ evs /\
    forallb is_setup_event evs = true /\
    anc_gpio_pwr_flag (kernel s') = anc_gpio_pwr_flag (kernel s) /\
    g_anc_data_set s' = g_anc_data_set s /\
    fingerprint_pinctrl (g_anc_data (kernel s')) =
      fingerprint_pinctrl (g_anc_data (kernel s)) /\
    (rc = 0 ->
     exists s0 s1,
       pinctrl_state (g_anc_data (kernel s')) =
         list_set (list_set (pinctrl_state (g_anc_data (kernel s))) 0 s0) 1 s1 /\
       IS_ERR s0 = false /\ IS_ERR s1 = false /\
       evs =
         [ Be_pinctrl_lookup_state (fingerprint_pinctrl (g_anc_data (kernel s)))
             "anc_reset_reset"%string s0;
           Be_pinctrl_lookup_state (fingerprint_pinctrl (g_anc_data (kernel s)))
             "anc_reset_active"%string s1 ]).
Proof.
  unfold pctl_names. cbn [anc_gpio_init_states]. bind_run.
  destruct (IS_ERR (on_pinctrl_lookup_state Q (btrace s) _ _)) eqn:H0; bind_run.
  - eexists _, _, [_]. split; [reflexivity|]. cbn.
    repeat split; discriminate.
  - match goal with
    | |- context [if IS_ERR ?p then _ else _] => destruct (IS_ERR p) eqn:H1
    end; bind_run.
    + eexists _, _, [_; _]. split; [reflexivity|]. cbn.
      rewrite <- !app_assoc. repeat split; discriminate.
    + eexists _, _, [_; _]. split; [reflexivity|]. cbn.
      rewrite <- !app_assoc. repeat split.
      intros _. eexists _, _. split; [reflexivity|]. repeat split; assumption.
Qed.

Lemma gpio_init_pinctrl_run (Q : bind_platform) (s : bstate) :
  exists rc s' evs,
    anc_gpio_init_pinctrl Q s = BRet rc s' /\
    btrace s' = btrace s ++ evs /\
    forallb is_setup_event evs = true /\
    anc_gpio_pwr_flag (kernel s') = anc_gpio_pwr_flag (kernel s) /\
    g_anc_data_set s' = g_anc_data_set s /\
    (rc = 0 ->
     IS_ERR (fingerprint_pinctrl (g_anc_data (kernel s'))) = false /\
     exists s0 s1,
       pinctrl_state (g_anc_data (kernel s')) =
         list_set (list_set (pinctrl_state (g_anc_data (kernel s))) 0 s0) 1 s1 /\
       IS_ERR s0 = false /\ IS_ERR s1 = false /\
       In (Be_pinctrl_lookup_state (fingerprint_pinctrl (g_anc_data (kernel s')))
             "anc_reset_reset"%string s0) evs /\
       In (Be_pinctrl_lookup_state (fingerprint_pinctrl (g_anc_data (kernel s')))
             "anc_reset_active"%string s1) evs).
Proof.
  unfold anc_gpio_init_pinctrl.
  cbv [bbind kernel_call devm_pinctrl_get bgets bemit bmodify bret]. cbn [btrace].
  set (p := on_devm_pinctrl_get Q (btrace s)).
  destruct (IS_ERR p) eqn:Hp.
  - assert (Hnz : p <> 0) by (intros E; rewrite E in Hp; discriminate Hp).
    destruct (p =? - EPROBE_DEFER) eqn:Hd; bind_run.
    + eexists _, _, [_]. split; [reflexivity|]. cbn.
      repeat split; contradiction.
    + eexists _, _, [_]. split; [reflexivity|]. cbn.
      repeat split; discriminate.
  - bind_run.
    match goal with
    | |- context [anc_gpio_init_states Q 0 pctl_names ?s1] =>
        destruct (gpio_init_states_run Q s1)
          as (rc & s' & evs & Hrun & Htr & Hev & Hflag & Hset & Hpin & Hok)
    end.
    cbn in Htr, Hflag, Hset, Hpin, Hok.
    exists rc, s', (Be_devm_pinctrl_get p :: evs).
    split; [exact Hrun|]. rewrite Htr, <- app_assoc.
    split; [reflexivity|]. split; [exact Hev|]. split; [exact Hflag|].
    split; [exact Hset|].
    intros Hrc. rewrite Hpin. split; [exact Hp|].
    destruct (Hok Hrc) as (s0 & s1 & Hst & H0 & H1 & ->).
    exists s0, s1. rewrite <- Hpin. cbn. auto 10.
Qed.

(** What a run of [anc_gpio_init] comes to. *)
Lemma gpio_init_run (Q : bind_platform) (np : bool) (s : bstate) :
  exists rc s' evs,
    anc_gpio_init Q np s = BRet rc s' /\
    btrace s' = btrace s ++ evs /\
    forallb is_setup_event evs = true /\
    anc_gpio_pwr_flag (kernel s') =
      (if np && on_of_property_read_bool Q (btrace s) "anc,enable-via-gpio"%string
       then 1 else anc_gpio_pwr_flag (kernel s)) /\
    g_anc_data_set s' = g_anc_data_set s /\
    (rc = 0 ->
     np = true /\
     IS_ERR (fingerprint_pinctrl (g_anc_data (kernel s'))) = false /\
     exists s0 s1,
       pinctrl_state (g_anc_data (kernel s')) =
         list_set (list_set (pinctrl_state (g_anc_data (kernel s))) 0 s0) 1 s1 /\
       IS_ERR s0 = false /\ IS_ERR s1 = false /\
       In (Be_pinctrl_lookup_state (fingerprint_pinctrl (g_anc_data (kernel s')))
             "anc_reset_reset"%string s0) evs /\
       In (Be_pinctrl_lookup_state (fingerprint_pinctrl (g_anc_data (kernel s')))
             "anc_reset_active"%string s1) evs).
Proof.
  unfold anc_gpio_init. destruct np; cbn [negb andb].
  2:{ exists (- EINVAL), s, []. rewrite app_nil_r. repeat split; discriminate. }
  unfold bbind at 1. cbv [of_property_read_bool bbind kernel_call bgets bemit bmodify bret].
  cbn [btrace].
  set (b := on_of_property_read_bool Q (btrace s) "anc,enable-via-gpio"%string).
  set (s1 := (if b then lift (set_anc_gpio_pwr_flag 1) else fun s0 => BRet tt s0) _).
  assert (Hs1 : exists s1',
             s1 = BRet tt s1' /\
             btrace s1' = btrace s ++ [Be_of_property_read_bool "anc,enable-via-gpio"%string b] /\
             anc_gpio_pwr_flag (kernel s1') = (if b then 1 else anc_gpio_pwr_flag (kernel s)) /\
             g_anc_data_set s1' = g_anc_data_set s /\
             pinctrl_state (g_anc_data (kernel s1')) = pinctrl_state (g_anc_data (kernel s))).
  { subst s1. destruct b; bind_run; eexists; repeat split. }
  destruct Hs1 as (s1' & -> & Htr1 & Hflag1 & Hset1 & Hpin1).
  destruct (request_named_gpio_run Q "anc,gpio_rst"%string set_rst_gpio s1' set_rst_gpio_quiet)
    as (rc2 & s2 & evs2 & Hrun2 & Htr2 & Hev2 & Hflag2 & Hset2 & Hpin2).
  rewrite Hrun2.
  destruct (rc2 =? 0) eqn:Hrc2; cbn [negb].
  2:{ exists rc2, s2, (Be_of_property_read_bool "anc,enable-via-gpio"%string b :: evs2).
      split; [reflexivity|]. rewrite Htr2, Htr1, <- app_assoc.
      split; [reflexivity|]. split; [exact Hev2|].
      split; [congruence|]. split; [congruence|]. intros ->. discriminate Hrc2. }
  destruct (anc_gpio_pwr_flag (kernel s2) =? 0) eqn:Hf; cbn [negb].
  - destruct (gpio_init_pinctrl_run Q s2) as (rc & s' & evs & Hrun & Htr & Hev & Hflag & Hset & Hok).
    exists rc, s', (Be_of_property_read_bool "anc,enable-via-gpio"%string b :: evs2 ++ evs).
    split; [exact Hrun|]. rewrite Htr, Htr2, Htr1, <- !app_assoc.
    split; [reflexivity|].
    split; [cbn [forallb is_setup_event andb]; rewrite forallb_app, Hev2, Hev; reflexivity|].
    split; [congruence|]. split; [congruence|].
    intros Hrc. split; [reflexivity|]. rewrite <- Hpin1, <- Hpin2.
    destruct (Hok Hrc) as (Hperr & s0 & s1 & Hst & H0 & H1 & Hin0 & Hin1).
    split; [exact Hperr|]. exists s0, s1.
    repeat split; try assumption; right; apply in_or_app; right; assumption.
  - destruct (request_named_gpio_run Q "anc,gpio_pwr"%string set_pwr_gpio s2 set_pwr_gpio_quiet)
      as (rc3 & s3 & evs3 & Hrun3 & Htr3 & Hev3 & Hflag3 & Hset3 & Hpin3).
    rewrite Hrun3.
    destruct (rc3 =? 0) eqn:Hrc3; cbn [negb].
    2:{ exists rc3, s3,
          (Be_of_property_read_bool "anc,enable-via-gpio"%string b :: evs2 ++ evs3).
        split; [reflexivity|]. rewrite Htr3, Htr2, Htr1, <- !app_assoc.
        split; [reflexivity|].
        split; [cbn [forallb is_setup_event andb]; rewrite forallb_app, Hev2, Hev3; reflexivity|].
        split; [congruence|]. split; [congruence|]. intros ->. discriminate Hrc3. }
    cbv [gpio_direction_output bbind kernel_call bgets bemit bmodify bret]. cbn [btrace].
    match goal with
    | |- context [if negb (?r =? 0) then _ else _] =>
        remember r as r4 eqn:Er4; destruct (r4 =? 0) eqn:Hrc4
    end; cbn [negb].
    + match goal with
      | |- context [anc_gpio_init_pinctrl Q ?s4] =>
          destruct (gpio_init_pinctrl_run Q s4)
            as (rc & s' & evs & Hrun & Htr & Hev & Hflag & Hset & Hok)
      end.
      cbn in Htr, Hflag, Hset, Hok.
      eexists rc, s', (Be_of_property_read_bool "anc,enable-via-gpio"%string b ::
                       evs2 ++ evs3 ++ _ :: evs).
      split; [exact Hrun|]. rewrite Htr, Htr3, Htr2, Htr1, <- !app_assoc.
      split; [reflexivity|].
      split; [cbn [forallb is_setup_event andb];
              rewrite !forallb_app, Hev2, Hev3; cbn; exact Hev|].
      split; [congruence|]. split; [congruence|].
      intros Hrc. split; [reflexivity|].
      rewrite <- Hpin1, <- Hpin2, <- Hpin3.
      destruct (Hok Hrc) as (Hperr & s0 & s1 & Hst & H0 & H1 & Hin0 & Hin1).
      split; [exact Hperr|]. exists s0, s1.
      repeat split; try assumption;
        right; apply in_or_app; right; apply in_or_app; right; right; assumption.
    + eexists _, _, (Be_of_property_read_bool "anc,enable-via-gpio"%string b ::
                     evs2 ++ evs3 ++ [_]).
      split; [reflexivity|]. cbn [btrace kernel g_anc_data_set].
      rewrite Htr3, Htr2, Htr1, <- !app_assoc.
      split; [reflexivity|].
      split; [cbn [forallb is_setup_event andb];
              rewrite !forallb_app, Hev2, Hev3; reflexivity|].
      split; [congruence|]. split; [congruence|].
      intros H. apply Z.eqb_neq in Hrc4. contradiction.
Qed.

Lemma skipn_app_exact {A} (l m : list A) : skipn (List.length l) (l ++ m) = m.
Proof. induction l as [|a l IH]; [reflexivity | exact IH]. Qed.

(** *** Stepping through a run *)

Lemma runs_to_elim {A} (o : boutcome A) (post : A -> bstate -> Prop) :
  runs_to o post -> exists a s', o = BRet a s' /\ post a s'.
Proof. destruct o as [a s'|s']; [eauto | contradiction]. Qed.

Lemma runs_to_bind {A B'} (m : B A) (f : A -> B B') (s : bstate)
  (post : B' -> bstate -> Prop) :
  runs_to (m s) (fun a s1 => runs_to (f a s1) post) -> runs_to (bbind m f s) post.
Proof. unfold bbind. destruct (m s); [trivial | contradiction]. Qed.

Lemma runs_to_run {A} (m : B A) (s : bstate) (a : A) (s1 : bstate)
  (post : A -> bstate -> Prop) :
  m s = BRet a s1 -> post a s1 -> runs_to (m s) post.
Proof. intros -> H. exact H. Qed.

Lemma runs_to_ret {A} (a : A) (s : bstate) (post : A -> bstate -> Prop) :
  post a s -> runs_to (bret a s) post.
Proof. trivial. Qed.

Lemma runs_to_modify (f : bstate -> bstate) (s : bstate) (post : unit -> bstate -> Prop) :
  post tt (f s) -> runs_to (bmodify f s) post.
Proof. trivial. Qed.

Lemma runs_to_gets {A} (g : bstate -> A) (s : bstate) (post : A -> bstate -> Prop) :
  post (g s) s -> runs_to (bgets g s) post.
Proof. trivial. Qed.

Lemma runs_to_emit (e : bind_event) (s : bstate) (post : unit -> bstate -> Prop) :
  post tt (bpush s e) -> runs_to (bemit e s) post.
Proof. trivial. Qed.

Lemma runs_to_call {A} (answer : list bind_event -> A) (ev : A -> bind_event)
  (s : bstate) (post : A -> bstate -> Prop) :
  (forall r, r = answer (btrace s) -> post r (bpush s (ev r))) ->
  runs_to (kernel_call answer ev s) post.
Proof. intros H. apply (H _ eq_refl). Qed.

(** The power-up of probe, seen from the bind trace. *)
Lemma lift_power_up_run (P : platform) (s : bstate) :
  exists s' evs,
    lift (device_power_up P) s = BRet tt s' /\
    btrace s' = btrace s ++ map Be_kernel evs /\
    g_anc_data_set s' = g_anc_data_set s.
Proof.
  unfold lift, device_power_up.
  destruct (power_onoff_run P 1 (kernel s)) as (k' & evs & Hrun & Htr & _).
  rewrite Hrun, Htr, skipn_app_exact.
  eexists _, evs. split; [reflexivity|]. split; reflexivity.
Qed.

Lemma lift_set_fp_wakelock_run (ws : Z) (s : bstate) :
  exists s',
    lift (set_fp_wakelock ws) s = BRet tt s' /\
    btrace s' = btrace s /\
    g_anc_data_set s' = g_anc_data_set s.
Proof. bind_run. eexists. repeat split. Qed.

(** The fields of the state after one more call. *)
Lemma btrace_bpush (s : bstate) (e : bind_event) : btrace (bpush s e) = btrace s ++ [e].
Proof. reflexivity. Qed.

Lemma kernel_bpush (s : bstate) (e : bind_event) : kernel (bpush s e) = kernel s.
Proof. reflexivity. Qed.

Lemma g_anc_data_set_bpush (s : bstate) (e : bind_event) :
  g_anc_data_set (bpush s e) = g_anc_data_set s.
Proof. reflexivity. Qed.

Lemma dev_class_bpush (s : bstate) (e : bind_event) : dev_class (bpush s e) = dev_class s.
Proof. reflexivity. Qed.

Lemma dev_num_bpush (s : bstate) (e : bind_event) : dev_num (bpush s e) = dev_num s.
Proof. reflexivity. Qed.

Lemma anc_major_num_bpush (s : bstate) (e : bind_event) :
  anc_major_num (bpush s e) = anc_major_num s.
Proof. reflexivity. Qed.

Ltac bpush_simpl :=
  rewrite ?btrace_bpush, ?kernel_bpush, ?g_anc_data_set_bpush, ?dev_class_bpush,
    ?dev_num_bpush, ?anc_major_num_bpush.

Tactic Notation "bpush_simpl" "in" hyp(H) :=
  rewrite ?btrace_bpush, ?kernel_bpush, ?g_anc_data_set_bpush, ?dev_class_bpush,
    ?dev_num_bpush, ?anc_major_num_bpush in H.

(** Reads the fields of a state built by calls and assignments. *)
Ltac bsimpl :=
  repeat (progress (cbn [kernel g_anc_data_set dev_class dev_num anc_major_num btrace];
                    bpush_simpl)).

Tactic Notation "bsimpl" "in" hyp(H) :=
  repeat (progress (cbn [kernel g_anc_data_set dev_class dev_num anc_major_num btrace] in H;
                    bpush_simpl in H)).

(** One step of a run: the head of the program decides. *)
Ltac bstep :=
  lazymatch goal with
  | |- runs_to (bbind _ _ _) _ => apply runs_to_bind
  | |- runs_to (bgets _ _) _ => apply runs_to_gets
  | |- runs_to (bemit _ _) _ => apply runs_to_emit
  | |- runs_to (bmodify _ _) _ => apply runs_to_modify
  | |- runs_to (bret _ _) _ => apply runs_to_ret
  | |- runs_to (kernel_call _ _ _) _ => apply runs_to_call; intros ? _
  end; cbv beta.

(** Straight-line code: the labels at the end of [anc_probe], [anc_remove]. *)
Ltac bsteps :=
  repeat (cbv beta delta [unregister_notifier unregister_wakelock del_cdev destroy_device
                     unregister_region destroy_class free_dev_data
                     cdev_init mutex_init sysfs_remove_group mutex_destroy
                     msm_drm_unregister_client wakeup_source_unregister cdev_del
                     device_destroy unregister_chrdev_region class_destroy
                     devm_kfree context_freed platform_driver_unregister
                     set_dev_class set_dev_num set_anc_major_num set_g_anc_data_fresh];
          bstep);
  bsimpl.

(** [anc_probe] from [device_create] on.  On a failure the resources taken
    here are given back in reverse, followed by the region and the class
    taken before. *)
Lemma probe_device_run (P : platform) (Q : bind_platform) (np : bool) (s : bstate) :
  exists rc s' evs,
    anc_probe_device P Q np s = BRet rc s' /\
    btrace s' = btrace s ++ evs /\
    g_anc_data_set s' = g_anc_data_set s /\
    (exists p evs', evs = Be_device_create (dev_class s) (dev_num s) p :: evs') /\
    if existsb is_group_created evs
    then rc = 0 /\ released evs = [] /\
         acquired evs = [R_device; R_cdev; R_wakelock; R_notifier; R_sysfs_group] /\
         existsb is_devm_kfree evs = false
    else released evs = rev (acquired evs) ++ [R_region; R_class] /\
         existsb is_devm_kfree evs = true /\
         g_anc_data_live (kernel s') = false.
Proof.
  enough (H : runs_to (anc_probe_device P Q np s)
                (fun rc s' =>
                   exists evs,
                     btrace s' = btrace s ++ evs /\
                     g_anc_data_set s' = g_anc_data_set s /\
                     (exists p evs',
                        evs = Be_device_create (dev_class s) (dev_num s) p :: evs') /\
                     if existsb is_group_created evs
                     then rc = 0 /\ released evs = [] /\
                          acquired evs =
                            [R_device; R_cdev; R_wakelock; R_notifier; R_sysfs_group] /\
                          existsb is_devm_kfree evs = false
                     else released evs = rev (acquired evs) ++ [R_region; R_class] /\
                          existsb is_devm_kfree evs = true /\
                          g_anc_data_live (kernel s') = false)).
  { apply runs_to_elim in H. destruct H as (rc & s' & Hrun & evs & H).
    exists rc, s', evs. split; assumption. }
  unfold anc_probe_device.
  apply runs_to_bind, runs_to_gets; cbv beta.
  apply runs_to_bind, runs_to_gets; cbv beta.
  apply runs_to_bind. unfold device_create. apply runs_to_call. intros p _. cbv beta.
  destruct (IS_ERR p) eqn:Hp.
  { bsteps. eexists.
    split; [rewrite <- !app_assoc; cbn [app]; reflexivity|].
    split; [reflexivity|]. split; [eexists _, _; reflexivity|].
    cbn. rewrite Hp. cbn. repeat split. }
  apply runs_to_bind. unfold cdev_init. apply runs_to_emit; cbv beta.
  apply runs_to_bind. unfold cdev_add. apply runs_to_call. intros rc1 _. cbv beta.
  destruct (rc1 =? 0) eqn:Hrc1; cbn [negb].
  2:{ bsteps. eexists.
      split; [rewrite <- !app_assoc; cbn [app]; reflexivity|].
      split; [reflexivity|]. split; [eexists _, _; reflexivity|].
      cbn. rewrite Hp, Hrc1. cbn. repeat split. }
  apply runs_to_bind. unfold mutex_init. apply runs_to_emit; cbv beta.
  apply runs_to_bind.
  match goal with
  | |- runs_to (anc_gpio_init Q np ?s1) _ =>
      destruct (gpio_init_run Q np s1)
        as (rc2 & s2 & evs2 & Hrun2 & Htr2 & Hev2 & _ & Hset2 & _);
      apply (runs_to_run _ _ _ _ _ Hrun2); clear Hrun2; cbv beta
  end.
  bpush_simpl in Htr2; bpush_simpl in Hset2.
  destruct (setup_events_hold_nothing evs2 Hev2) as (Ha2 & Hr2 & Hg2 & Hk2).
  destruct (rc2 =? 0) eqn:Hrc2; cbn [negb].
  2:{ bsteps. eexists. rewrite Htr2.
      split; [rewrite <- !app_assoc; cbn [app]; reflexivity|].
      split; [exact Hset2|]. split; [eexists _, _; reflexivity|].
      cbn [existsb acquired released is_group_created is_devm_kfree orb].
      rewrite Hp, Hrc1, !existsb_app, !acquired_app, !released_app, Hg2, Ha2, Hr2.
      cbn. rewrite ?orb_true_r. repeat split. }
  apply runs_to_bind.
  destruct (lift_power_up_run P s2) as (s3 & evs3 & Hrun3 & Htr3 & Hset3).
  apply (runs_to_run _ _ _ _ _ Hrun3); clear Hrun3; cbv beta.
  destruct (kernel_events_hold_nothing evs3) as (Ha3 & Hr3 & Hg3 & Hk3).
  apply runs_to_bind. unfold wakeup_source_register. apply runs_to_call. intros ws _. cbv beta.
  apply runs_to_bind.
  match goal with
  | |- runs_to (lift (set_fp_wakelock ws) ?s4) _ =>
      destruct (lift_set_fp_wakelock_run ws s4) as (s5 & Hrun5 & Htr5 & Hset5);
      apply (runs_to_run _ _ _ _ _ Hrun5); clear Hrun5; cbv beta
  end.
  bpush_simpl in Htr5; bpush_simpl in Hset5.
  apply runs_to_bind. unfold msm_drm_register_client. apply runs_to_call. intros rc4 _. cbv beta.
  destruct (rc4 <? 0) eqn:Hrc4.
  { bsteps. eexists. rewrite Htr5, Htr3, Htr2.
    split; [rewrite <- !app_assoc; cbn [app]; reflexivity|].
    split; [congruence|]. split; [eexists _, _; reflexivity|].
    cbn [existsb acquired released is_group_created is_devm_kfree orb].
    rewrite Hp, Hrc1, !existsb_app, !acquired_app, !released_app, Hg2, Ha2, Hr2,
      Hg3, Ha3, Hr3.
    cbn. rewrite Hrc4. cbn. rewrite ?orb_true_r. repeat split. }
  apply runs_to_bind. unfold sysfs_create_group. apply runs_to_call. intros rc5 _. cbv beta.
  destruct (rc5 =? 0) eqn:Hrc5; cbn [negb].
  - bsteps. eexists. rewrite Htr5, Htr3, Htr2.
    split; [rewrite <- !app_assoc; cbn [app]; reflexivity|].
    split; [congruence|]. split; [eexists _, _; reflexivity|].
    cbn [existsb acquired released is_group_created is_devm_kfree orb].
    rewrite Hp, Hrc1, !existsb_app, !acquired_app, !released_app, Hg2, Ha2, Hr2,
      Hg3, Ha3, Hr3, Hk2, Hk3.
    cbn. rewrite Hrc4, Hrc5. cbn. repeat split.
  - bsteps. eexists. rewrite Htr5, Htr3, Htr2.
    split; [rewrite <- !app_assoc; cbn [app]; reflexivity|].
    split; [congruence|]. split; [eexists _, _; reflexivity|].
    cbn [existsb acquired released is_group_created is_devm_kfree orb].
    rewrite Hp, Hrc1, !existsb_app, !acquired_app, !released_app, Hg2, Ha2, Hr2,
      Hg3, Ha3, Hr3.
    cbn. rewrite Hrc4, Hrc5. cbn. rewrite ?orb_true_r. repeat split.
Qed.

(** *** GPIO and pin control set-up *)

(** X16.  When [anc_gpio_init] succeeds, the device has a device-tree node,
    the pin-control handle is no error pointer, and the two pin-state entries
    of the context hold the states looked up under "anc_reset_reset" and
    "anc_reset_active", in this order, neither an error pointer. *)
Theorem anc_gpio_init_success (Q : bind_platform) (np : bool) (s s' : bstate) :
  anc_gpio_init Q np s = BRet 0 s' ->
  List.length (pinctrl_state (g_anc_data (kernel s))) = 2%nat ->
  np = true /\
  IS_ERR (fingerprint_pinctrl (g_anc_data (kernel s'))) = false /\
  exists s0 s1,
    pinctrl_state (g_anc_data (kernel s')) = [s0; s1] /\
    IS_ERR s0 = false /\ IS_ERR s1 = false /\
    In (Be_pinctrl_lookup_state (fingerprint_pinctrl (g_anc_data (kernel s')))
          "anc_reset_reset"%string s0) (btrace s') /\
    In (Be_pinctrl_lookup_state (fingerprint_pinctrl (g_anc_data (kernel s')))
          "anc_reset_active"%string s1) (btrace s').
Proof.
  intros Hrun Hlen.
  destruct (gpio_init_run Q np s) as (rc & s1' & evs & Hrun' & Htr & _ & _ & _ & Hok).
  rewrite Hrun in Hrun'. inversion Hrun'; subst rc s1'; clear Hrun'.
  destruct (Hok eq_refl) as (Hnp & Hp & s0 & s1 & Hst & H0 & H1 & Hin0 & Hin1).
  split; [exact Hnp|]. split; [exact Hp|]. exists s0, s1.
  split.
  - rewrite Hst.
    destruct (pinctrl_state (g_anc_data (kernel s))) as [|a [|b [|c l]]];
      try discriminate Hlen. reflexivity.
  - rewrite Htr. repeat split; try assumption; apply in_or_app; right; assumption.
Qed.

(** The set-up of the zeroed context on a kernel where all succeeds. *)
Lemma anc_gpio_init_success_witness :
  true = true /\
  IS_ERR 300 = false /\
  exists s0 s1,
    [10; 11] = [s0; s1] /\
    IS_ERR s0 = false /\ IS_ERR s1 = false /\
    In (Be_pinctrl_lookup_state 300 "anc_reset_reset"%string s0)
       (btrace (bfinal_state (anc_gpio_init Q_ok true bs_unbound))) /\
    In (Be_pinctrl_lookup_state 300 "anc_reset_active"%string s1)
       (btrace (bfinal_state (anc_gpio_init Q_ok true bs_unbound))).
Proof.
  pose proof (anc_gpio_init_success Q_ok true bs_unbound
                (bfinal_state (anc_gpio_init Q_ok true bs_unbound))) as H.
  vm_compute in H. vm_compute. apply H; reflexivity.
Defined.

(** X17.  [anc_gpio_init] always returns, and it only ever raises
    [anc_gpio_pwr_flag]: the flag becomes 1 when the device tree has
    "anc,enable-via-gpio" and keeps its value otherwise, so GPIO power once
    selected stays selected for later probes. *)
Theorem anc_gpio_init_flag (Q : bind_platform) (np : bool) (s : bstate) :
  exists rc s',
    anc_gpio_init Q np s = BRet rc s' /\
    anc_gpio_pwr_flag (kernel s') =
      (if np && on_of_property_read_bool Q (btrace s) "anc,enable-via-gpio"%string
       then 1 else anc_gpio_pwr_flag (kernel s)).
Proof.
  destruct (gpio_init_run Q np s) as (rc & s' & evs & Hrun & _ & _ & Hflag & _).
  exists rc, s'. split; assumption.
Qed.

(** X18.  When [devm_pinctrl_get] answers an error pointer, the set-up stops
    there: probe deferral is passed on as it is, with the error pointer left
    in the context; any other error becomes -EINVAL and the handle of the
    context is set to null.  No pin state is looked up. *)
Theorem anc_gpio_init_pinctrl_error (Q : bind_platform) (s : bstate) :
  IS_ERR (on_devm_pinctrl_get Q (btrace s)) = true ->
  exists s',
    anc_gpio_init_pinctrl Q s =
      BRet (if on_devm_pinctrl_get Q (btrace s) =? - EPROBE_DEFER
            then - EPROBE_DEFER else - EINVAL) s' /\
    fingerprint_pinctrl (g_anc_data (kernel s')) =
      (if on_devm_pinctrl_get Q (btrace s) =? - EPROBE_DEFER
       then - EPROBE_DEFER else 0) /\
    pinctrl_state (g_anc_data (kernel s')) = pinctrl_state (g_anc_data (kernel s)) /\
    btrace s' = btrace s ++ [Be_devm_pinctrl_get (on_devm_pinctrl_get Q (btrace s))].
Proof.
  intros Hp. unfold anc_gpio_init_pinctrl.
  cbv [bbind kernel_call devm_pinctrl_get bgets bemit bmodify bret]. cbn [btrace].
  rewrite Hp.
  destruct (on_devm_pinctrl_get Q (btrace s) =? - EPROBE_DEFER) eqn:Hd; bind_run.
  - apply Z.eqb_eq in Hd. eexists. rewrite Hd. repeat split.
  - eexists. repeat split.
Qed.

(** A target without pin controller: -ENODEV becomes -EINVAL. *)
Lemma anc_gpio_init_pinctrl_error_witness :
  exists s',
    anc_gpio_init_pinctrl Q_no_pinctrl bs_unbound = BRet (- EINVAL) s' /\
    fingerprint_pinctrl (g_anc_data (kernel s')) = 0 /\
    pinctrl_state (g_anc_data (kernel s')) = [10; 11] /\
    btrace s' = [Be_devm_pinctrl_get (-19)].
Proof.
  apply (anc_gpio_init_pinctrl_error Q_no_pinctrl bs_unbound). reflexivity.
Defined.

(** *** Probe *)

(** The run of [anc_probe]. *)
Lemma probe_run (P : platform) (Q : bind_platform) (np : bool) (s : bstate) :
  exists rc s' evs,
    anc_probe P Q np s = BRet rc s' /\
    btrace s' = btrace s ++ evs /\
    g_anc_data_set s' = (g_anc_data_set s || on_devm_kzalloc Q (btrace s)) /\
    (if existsb is_group_created evs
     then rc = 0 /\ released evs = [] /\
          acquired evs =
            [R_class; R_region; R_device; R_cdev; R_wakelock; R_notifier; R_sysfs_group] /\
          existsb is_devm_kfree evs = false
     else released evs = rev (acquired evs) /\
          existsb is_devm_kfree evs = on_devm_kzalloc Q (btrace s) /\
          (on_devm_kzalloc Q (btrace s) = true ->
           g_anc_data_live (kernel s') = false)).
Proof.
  enough (H : runs_to (anc_probe P Q np s)
                (fun rc s' =>
                   exists evs,
                     btrace s' = btrace s ++ evs /\
                     g_anc_data_set s' =
                       (g_anc_data_set s || on_devm_kzalloc Q (btrace s)) /\
                     (if existsb is_group_created evs
                      then rc = 0 /\ released evs = [] /\
                           acquired evs =
                             [R_class; R_region; R_device; R_cdev; R_wakelock;
                              R_notifier; R_sysfs_group] /\
                           existsb is_devm_kfree evs = false
                      else released evs = rev (acquired evs) /\
                           existsb is_devm_kfree evs = on_devm_kzalloc Q (btrace s) /\
                           (on_devm_kzalloc Q (btrace s) = true ->
                            g_anc_data_live (kernel s') = false)))).
  { apply runs_to_elim in H. destruct H as (rc & s' & Hrun & evs & H).
    exists rc, s', evs. split; assumption. }
  unfold anc_probe.
  bstep. unfold devm_kzalloc. apply runs_to_call. intros ok Hok. cbv beta.
  rewrite <- Hok. clear Hok.
  destruct ok; cbn [negb].
  2:{ bsteps. exists [Be_devm_kzalloc false]. split; [reflexivity|].
      split; [symmetry; apply orb_false_r|]. cbn.
      split; [reflexivity|]. split; [reflexivity|]. intros H; discriminate H. }
  bstep. unfold set_g_anc_data_fresh. bstep. bsimpl.
  bstep. unfold class_create. apply runs_to_call. intros cls _. cbv beta.
  bstep. unfold set_dev_class. bstep. bsimpl.
  destruct (IS_ERR cls) eqn:Hcls.
  { bsteps. eexists.
    split; [rewrite <- ?app_assoc; cbn [app]; reflexivity|].
    split; [symmetry; apply orb_true_r|]. cbn. rewrite Hcls. cbn. repeat split. }
  bstep. bstep. bsimpl.
  destruct (anc_major_num s =? 0) eqn:Hmaj; cbn [negb].
  - bstep. unfold alloc_chrdev_region. apply runs_to_call. intros r _. cbv beta.
    cbn [fst snd].
    bstep.
    assert (Hstep :
      forall post : unit -> bstate -> Prop,
        (forall s1,
            btrace s1 =
              ((btrace s ++ [Be_devm_kzalloc true]) ++ [Be_class_create cls]) ++
              [Be_alloc_chrdev_region (snd r) (fst r)] ->
            g_anc_data_set s1 = true ->
            post tt s1) ->
        runs_to
          ((if fst r =? 0 then set_dev_num (snd r) else bret tt)
             (bpush
                {| kernel :=
                     {| g_anc_data := zeroed_anc_data;
                        g_anc_data_live := true;
                        gp_netlink_sock := gp_netlink_sock (kernel s);
                        lasttouchmode := lasttouchmode (kernel s);
                        anc_gpio_pwr_flag := anc_gpio_pwr_flag (kernel s);
                        ktrace := ktrace (kernel s) |};
                   g_anc_data_set := true;
                   dev_class := cls;
                   dev_num := dev_num s;
                   anc_major_num := anc_major_num s;
                   btrace := (btrace s ++ [Be_devm_kzalloc true]) ++ [Be_class_create cls] |}
                (Be_alloc_chrdev_region (snd r) (fst r))))
          post).
    { intros post Hpost. destruct (fst r =? 0); bsteps; apply Hpost; bsimpl; reflexivity. }
    apply Hstep; clear Hstep. intros s1 Htr1 Hset1.
    destruct (fst r <? 0) eqn:Hneg.
    { bsteps. rewrite Htr1, Hset1. eexists.
      split; [rewrite <- ?app_assoc; cbn [app]; reflexivity|].
      split; [symmetry; apply orb_true_r|].
      cbn. rewrite Hcls, Hneg. cbn. repeat split. }
    bstep. bstep. bstep. unfold set_anc_major_num. bstep. bsimpl.
    lazymatch goal with
    | |- runs_to (anc_probe_device P Q np ?s2) _ =>
        destruct (probe_device_run P Q np s2)
          as (rc & s' & evs & Hrun & Htr & Hset & _ & Hres);
        apply (runs_to_run _ _ _ _ _ Hrun); clear Hrun
    end.
    bsimpl in Htr. bsimpl in Hset. rewrite Htr, Hset, Htr1, Hset1.
    eexists.
    split; [rewrite <- ?app_assoc; cbn [app]; reflexivity|].
    split; [symmetry; apply orb_true_r|].
    cbn [existsb is_group_created is_devm_kfree acquired released orb].
    rewrite Hcls, Hneg.
    destruct (existsb is_group_created evs).
    + destruct Hres as (Hrc & Hrel & Hacq & Hfree). rewrite Hacq. auto.
    + destruct Hres as (Hrel & Hfree & Hlv). rewrite Hrel. cbn [rev].
      rewrite <- ?app_assoc. auto.
  - bstep. unfold set_dev_num. bstep. bsimpl.
    bstep. unfold register_chrdev_region. apply runs_to_call. intros r _. cbv beta.
    lazymatch goal with
    | |- runs_to (anc_probe_device P Q np ?s2) _ =>
        destruct (probe_device_run P Q np s2)
          as (rc & s' & evs & Hrun & Htr & Hset & _ & Hres);
        apply (runs_to_run _ _ _ _ _ Hrun); clear Hrun
    end.
    bsimpl in Htr. bsimpl in Hset. rewrite Htr, Hset.
    eexists.
    split; [rewrite <- ?app_assoc; cbn [app]; reflexivity|].
    split; [symmetry; apply orb_true_r|].
    cbn [existsb is_group_created is_devm_kfree acquired released orb].
    rewrite Hcls.
    destruct (existsb is_group_created evs).
    + destruct Hres as (Hrc & Hrel & Hacq & Hfree). rewrite Hacq. auto.
    + destruct Hres as (Hrel & Hfree & Hlv). rewrite Hrel. cbn [rev].
      rewrite <- ?app_assoc. auto.
Qed.

(** X19.  A probe that fails gives back what it had taken so far, in the
    reverse order of taking: of the class, the device-number region, the
    device node, the character device, the wake lock and the display
    notifier, exactly those already acquired are released, last taken first.
    A probe that completes returns 0, has taken these six and the attribute
    group, and releases nothing. *)
Theorem anc_probe_unwinds (P : platform) (Q : bind_platform) (np : bool) (s : bstate) :
  exists rc s' evs,
    anc_probe P Q np s = BRet rc s' /\
    btrace s' = btrace s ++ evs /\
    if existsb is_group_created evs
    then rc = 0 /\ released evs = [] /\
         acquired evs =
           [R_class; R_region; R_device; R_cdev; R_wakelock; R_notifier; R_sysfs_group]
    else released evs = rev (acquired evs).
Proof.
  destruct (probe_run P Q np s) as (rc & s' & evs & Hrun & Htr & _ & Hres).
  exists rc, s', evs. split; [exact Hrun|]. split; [exact Htr|].
  destruct (existsb is_group_created evs).
  - destruct Hres as (H1 & H2 & H3 & _). auto.
  - destruct Hres as (H1 & _). exact H1.
Qed.

(** X20.  [g_anc_data] is assigned as soon as the context is allocated and
    is never reset: the context is freed exactly when the probe does not
    complete, and [g_anc_data] is set in both cases, so after a failed probe
    it still refers to the freed context. *)
Theorem anc_probe_keeps_g_anc_data
  (P : platform) (Q : bind_platform) (np : bool) (s : bstate) :
  on_devm_kzalloc Q (btrace s) = true ->
  exists rc s' evs,
    anc_probe P Q np s = BRet rc s' /\
    btrace s' = btrace s ++ evs /\
    g_anc_data_set s' = true /\
    existsb is_devm_kfree evs = negb (existsb is_group_created evs).
Proof.
  intros Hk.
  destruct (probe_run P Q np s) as (rc & s' & evs & Hrun & Htr & Hset & Hres).
  exists rc, s', evs. split; [exact Hrun|]. split; [exact Htr|].
  rewrite Hk, orb_true_r in Hset. split; [exact Hset|].
  destruct (existsb is_group_created evs).
  - destruct Hres as (_ & _ & _ & H). exact H.
  - destruct Hres as (_ & H & _). now rewrite H.
Qed.

(** A probe that fails at [device_create]. *)
Lemma anc_probe_keeps_g_anc_data_witness :
  exists rc s' evs,
    anc_probe P_ok Q_no_device true bs_unbound = BRet rc s' /\
    btrace s' = evs /\
    g_anc_data_set s' = true /\
    existsb is_devm_kfree evs = negb (existsb is_group_created evs).
Proof.
  apply (anc_probe_keeps_g_anc_data P_ok Q_no_device true bs_unbound). reflexivity.
Defined.

(** X21.  With a major number already chosen -- [anc_major_num] keeps the
    one of an earlier probe -- the region is registered for that major and
    the answer of [register_chrdev_region] is not looked at: whatever it is,
    probe goes on to create the device node for that device number. *)
Theorem anc_probe_preset_major
  (P : platform) (Q : bind_platform) (np : bool) (s : bstate) :
  anc_major_num s <> 0 ->
  on_devm_kzalloc Q (btrace s) = true ->
  IS_ERR (on_class_create Q (btrace s ++ [Be_devm_kzalloc true])) = false ->
  exists rc s' cls r p evs,
    anc_probe P Q np s = BRet rc s' /\
    btrace s' =
      btrace s ++
      Be_devm_kzalloc true ::
      Be_class_create cls ::
      Be_register_chrdev_region (MKDEV (anc_major_num s) 0) r ::
      Be_device_create cls (MKDEV (anc_major_num s) 0) p :: evs.
Proof.
  intros Hmaj Hk Hcls.
  enough (H : runs_to (anc_probe P Q np s)
                (fun rc s' =>
                   exists cls r p evs,
                     btrace s' =
                       btrace s ++
                       Be_devm_kzalloc true ::
                       Be_class_create cls ::
                       Be_register_chrdev_region (MKDEV (anc_major_num s) 0) r ::
                       Be_device_create cls (MKDEV (anc_major_num s) 0) p :: evs)).
  { apply runs_to_elim in H. destruct H as (rc & s' & Hrun & cls & r & p & evs & H).
    exists rc, s', cls, r, p, evs. split; assumption. }
  unfold anc_probe.
  bstep. unfold devm_kzalloc. apply runs_to_call. intros ok Hok. cbv beta.
  rewrite Hk in Hok. subst ok. cbn [negb].
  bstep. unfold set_g_anc_data_fresh. bstep. bsimpl.
  bstep. unfold class_create. apply runs_to_call. intros cls Ecls. cbv beta.
  bsimpl in Ecls. rewrite <- Ecls in Hcls.
  bstep. unfold set_dev_class. bstep. bsimpl.
  rewrite Hcls.
  bstep. bstep. bsimpl.
  apply Z.eqb_neq in Hmaj. rewrite Hmaj. cbn [negb].
  bstep. unfold set_dev_num. bstep. bsimpl.
  bstep. unfold register_chrdev_region. apply runs_to_call. intros r _. cbv beta.
  lazymatch goal with
  | |- runs_to (anc_probe_device P Q np ?s2) _ =>
      destruct (probe_device_run P Q np s2)
        as (rc & s' & evs & Hrun & Htr & _ & (p & evs' & Hevs) & _);
      apply (runs_to_run _ _ _ _ _ Hrun); clear Hrun
  end.
  bsimpl in Htr. bsimpl in Hevs.
  exists cls, r, p, evs'.
  rewrite Htr, Hevs, <- ?app_assoc. reflexivity.
Qed.

(** A second probe, on a kernel that refuses nothing. *)
Lemma anc_probe_preset_major_witness :
  exists rc s' cls r p evs,
    anc_probe P_ok Q_ok true bs_rebind = BRet rc s' /\
    btrace s' =
      Be_devm_kzalloc true ::
      Be_class_create cls ::
      Be_register_chrdev_region (MKDEV 240 0) r ::
      Be_device_create cls (MKDEV 240 0) p :: evs.
Proof.
  apply (anc_probe_preset_major P_ok Q_ok true bs_rebind).
  - discriminate.
  - reflexivity.
  - reflexivity.
Defined.

(** X22.  When [device_create] answers an error pointer, probe gives back
    the region and the class and frees the context, and what it returns is
    not the error of [device_create]: it is the address of the function
    [device_create] itself, cut down to an int. *)
Theorem anc_probe_device_create_error
  (P : platform) (Q : bind_platform) (np : bool) (s : bstate) :
  IS_ERR (on_device_create Q (btrace s) (dev_class s) (dev_num s)) = true ->
  exists s',
    anc_probe_device P Q np s = BRet (to_int (addr_device_create Q)) s' /\
    btrace s' =
      btrace s ++
      [ Be_device_create (dev_class s) (dev_num s)
          (on_device_create Q (btrace s) (dev_class s) (dev_num s));
        Be_unregister_chrdev_region (dev_num s);
        Be_class_destroy (dev_class s);
        Be_devm_kfree ].
Proof.
  intros Hp.
  enough (H : runs_to (anc_probe_device P Q np s)
                (fun rc s' =>
                   rc = to_int (addr_device_create Q) /\
                   btrace s' =
                     btrace s ++
                     [ Be_device_create (dev_class s) (dev_num s)
                         (on_device_create Q (btrace s) (dev_class s) (dev_num s));
                       Be_unregister_chrdev_region (dev_num s);
                       Be_class_destroy (dev_class s);
                       Be_devm_kfree ])).
  { apply runs_to_elim in H. destruct H as (rc & s' & Hrun & -> & H).
    exists s'. split; assumption. }
  unfold anc_probe_device.
  bstep. bstep. bstep. bstep. bstep.
  unfold device_create. apply runs_to_call. intros p Ep. cbv beta.
  rewrite <- Ep in Hp. rewrite Hp, <- Ep.
  bsteps. split; [reflexivity|]. rewrite <- ?app_assoc. reflexivity.
Qed.

(** [device_create] fails with -ENOMEM; probe returns 279294656, the low 32
    bits of the address 0xffffffc010a5b2c0. *)
Lemma anc_probe_device_create_error_witness :
  exists s',
    anc_probe_device P_ok Q_no_device true bs_unbound = BRet 279294656 s' /\
    btrace s' =
      [ Be_device_create 0 0 (- ENOMEM);
        Be_unregister_chrdev_region 0;
        Be_class_destroy 0;
        Be_devm_kfree ].
Proof.
  apply (anc_probe_device_create_error P_ok Q_no_device true bs_unbound). reflexivity.
Defined.

(** *** Remove and module unload *)

(** Following [g_anc_data] from bind code. *)
Lemma lift_deref_run (s : bstate) :
  g_anc_data_live (kernel s) = true ->
  exists s',
    lift deref_g_anc_data s = BRet (g_anc_data (kernel s)) s' /\
    kernel s' = kernel s /\
    btrace s' = btrace s /\
    g_anc_data_set s' = g_anc_data_set s /\
    dev_class s' = dev_class s /\
    dev_num s' = dev_num s /\
    anc_major_num s' = anc_major_num s.
Proof.
  intros Hlive. unfold lift, deref_g_anc_data. rewrite Hlive.
  eexists. split; [reflexivity|].
  cbn [kernel btrace g_anc_data_set dev_class dev_num anc_major_num].
  rewrite skipn_all. cbn [map]. rewrite app_nil_r. repeat split.
Qed.

(** X23.  With [g_anc_data] pointing to the context, [anc_remove] returns 0
    after exactly these calls, in this order: the attribute group is
    removed, the mutex destroyed, the wake lock unregistered, then the
    display notifier, the character device, the device node, the region and
    the class are given back.  It calls nothing of the run-time model -- the
    sensor is not powered down, a regulator handle stays acquired -- and it
    leaves the driver's variables, [anc_major_num] among them, as they
    are. *)
Theorem anc_remove_sequence (s : bstate) :
  g_anc_data_live (kernel s) = true ->
  exists s',
    anc_remove s = BRet 0 s' /\
    btrace s' =
      btrace s ++
      [ Be_sysfs_remove_group;
        Be_mutex_destroy;
        Be_wakeup_source_unregister (fp_wakelock (g_anc_data (kernel s)));
        Be_msm_drm_unregister_client;
        Be_cdev_del;
        Be_device_destroy (dev_class s) (dev_num s);
        Be_unregister_chrdev_region (dev_num s);
        Be_class_destroy (dev_class s) ] /\
    kernel s' = kernel s /\
    g_anc_data_set s' = g_anc_data_set s /\
    anc_major_num s' = anc_major_num s.
Proof.
  intros Hlive.
  enough (H : runs_to (anc_remove s)
                (fun rc s' =>
                   rc = 0 /\
                   btrace s' =
                     btrace s ++
                     [ Be_sysfs_remove_group;
                       Be_mutex_destroy;
                       Be_wakeup_source_unregister (fp_wakelock (g_anc_data (kernel s)));
                       Be_msm_drm_unregister_client;
                       Be_cdev_del;
                       Be_device_destroy (dev_class s) (dev_num s);
                       Be_unregister_chrdev_region (dev_num s);
                       Be_class_destroy (dev_class s) ] /\
                   kernel s' = kernel s /\
                   g_anc_data_set s' = g_anc_data_set s /\
                   anc_major_num s' = anc_major_num s)).
  { apply runs_to_elim in H. destruct H as (rc & s' & Hrun & -> & H).
    exists s'. split; assumption. }
  unfold anc_remove.
  bstep. unfold sysfs_remove_group. bstep.
  bstep. unfold mutex_destroy. bstep.
  bstep.
  lazymatch goal with
  | |- runs_to (lift deref_g_anc_data ?s1) _ =>
      destruct (lift_deref_run s1) as (s2 & Hrun & Hk & Htr & Hset & Hcls & Hdev & Hmaj);
      [bsimpl; exact Hlive | apply (runs_to_run _ _ _ _ _ Hrun); clear Hrun; cbv beta]
  end.
  bsimpl in Hk. bsimpl in Htr. bsimpl in Hset. bsimpl in Hcls. bsimpl in Hdev.
  bsimpl in Hmaj.
  bsteps. rewrite Hk, Htr, Hset, Hcls, Hdev, Hmaj.
  split; [reflexivity|]. split; [rewrite <- ?app_assoc; reflexivity|].
  repeat split.
Qed.

(** Unbinding the device that was bound in [bs_rebind]. *)
Lemma anc_remove_sequence_witness :
  exists s',
    anc_remove bs_rebind = BRet 0 s' /\
    btrace s' =
      [ Be_sysfs_remove_group;
        Be_mutex_destroy;
        Be_wakeup_source_unregister 5;
        Be_msm_drm_unregister_client;
        Be_cdev_del;
        Be_device_destroy 0 0;
        Be_unregister_chrdev_region 0;
        Be_class_destroy 0 ] /\
    kernel s' = st_up /\
    g_anc_data_set s' = true /\
    anc_major_num s' = 240.
Proof.
  apply (anc_remove_sequence bs_rebind). reflexivity.
Defined.

(** X24.  Module unload releases the netlink endpoint when there is one,
    leaves the handle null, and then unregisters the platform driver; it
    does nothing else. *)
Theorem ancfp_exit_sequence (s : bstate) :
  exists s',
    ancfp_exit s = BRet tt s' /\
    gp_netlink_sock (kernel s') = None /\
    btrace s' =
      btrace s ++
      match gp_netlink_sock (kernel s) with
      | Some h => [Be_kernel (Ev_netlink_kernel_release h)]
      | None => []
      end ++
      [Be_platform_driver_unregister].
Proof.
  unfold ancfp_exit, bbind at 1, lift.
  destruct (netlink_exit_run (kernel s)) as (k' & Hrun & Hsk & _ & _ & Htr).
  rewrite Hrun, Htr, skipn_app_exact.
  cbv [platform_driver_unregister bemit bmodify].
  eexists. split; [reflexivity|]. cbn [kernel btrace].
  split; [exact Hsk|].
  destruct (gp_netlink_sock (kernel s)); cbn; now rewrite <- ?app_assoc.
Qed.

(** *** The touch handler and the context *)

(** X25.  The touch handler reaches the wake lock through [g_anc_data]
    without testing it.  A report that changes the state, arriving while
    [g_anc_data] cannot be followed -- it is NULL until a probe has run --
    faults before the wake lock is touched, before anything is sent and
    before the state is recorded; a report that repeats the state returns
    before the pointer is used. *)
Theorem tp_handler_without_context
  (P : platform) (tp_info : fp_underscreen_info) (st : kstate) :
  g_anc_data_live st = false ->
  anc_opticalfp_tp_handler P tp_info st =
    if to_uint (touch_state tp_info) =? lasttouchmode st then Ret 0 st else Oops st.
Proof.
  intros Hlive. unfold anc_opticalfp_tp_handler. kernel_run.
  destruct (to_uint (touch_state tp_info) =? lasttouchmode st); [reflexivity|].
  now rewrite Hlive.
Qed.

(** The first touch after module load, with no device probed yet. *)
Lemma tp_handler_without_context_witness :
  anc_opticalfp_tp_handler P_ok {| touch_state := 1 |} st_unbound = Oops st_unbound.
Proof.
  apply (tp_handler_without_context P_ok {| touch_state := 1 |} st_unbound).
  reflexivity.
Defined.

(** X26.  A probe that got its context and then fails frees the context and
    leaves [g_anc_data] pointing to it.  The touch handler stays registered
    whatever probe did, so the next report that changes the state follows
    the dangling pointer. *)
Theorem anc_probe_failure_dangles
  (P : platform) (Q : bind_platform) (np : bool) (s : bstate) :
  on_devm_kzalloc Q (btrace s) = true ->
  exists rc s' evs,
    anc_probe P Q np s = BRet rc s' /\
    btrace s' = btrace s ++ evs /\
    (existsb is_group_created evs = false ->
     existsb is_devm_kfree evs = true /\
     g_anc_data_set s' = true /\
     g_anc_data_live (kernel s') = false /\
     forall tp_info,
       to_uint (touch_state tp_info) <> lasttouchmode (kernel s') ->
       anc_opticalfp_tp_handler P tp_info (kernel s') = Oops (kernel s')).
Proof.
  intros Hk.
  destruct (probe_run P Q np s) as (rc & s' & evs & Hrun & Htr & Hset & Hres).
  exists rc, s', evs. split; [exact Hrun|]. split; [exact Htr|].
  intros Hg. rewrite Hg in Hres. destruct Hres as (_ & Hfree & Hlive).
  rewrite Hk in Hfree, Hset. rewrite orb_true_r in Hset.
  specialize (Hlive Hk).
  split; [exact Hfree|]. split; [exact Hset|]. split; [exact Hlive|].
  intros tp_info Hne.
  unfold anc_opticalfp_tp_handler. kernel_run.
  apply Z.eqb_neq in Hne. now rewrite Hne, Hlive.
Qed.

(** The first probe fails at [device_create]; then the finger goes down. *)
Lemma anc_probe_failure_dangles_witness :
  exists rc s' evs,
    anc_probe P_ok Q_no_device true bs_unbound = BRet rc s' /\
    btrace s' = evs /\
    (existsb is_group_created evs = false ->
     existsb is_devm_kfree evs = true /\
     g_anc_data_set s' = true /\
     g_anc_data_live (kernel s') = false /\
     forall tp_info,
       to_uint (touch_state tp_info) <> lasttouchmode (kernel s') ->
       anc_opticalfp_tp_handler P_ok tp_info (kernel s') = Oops (kernel s')).
Proof.
  apply (anc_probe_failure_dangles P_ok Q_no_device true bs_unbound). reflexivity.
Defined.

